(** * Linear structural-equation notebooks: simulation and regression

    A shallow embedding of the two notebooks

    - [notebooks/01-causality-linear-simulation.ipynb]
    - [notebooks/02-instrument-variables.ipynb]

    Each code cell is a state-passing computation on the kernel state
    (the interactive namespace together with the state of the global
    random generator).  Python exceptions are values of [exn].  Numbers
    are exact rationals: the rounding of floating-point arithmetic is not
    part of the model.  *)

From Stdlib Require Import String.
From Stdlib Require Import QArith Qabs Qminmax ZArith List Lia Lqa Bool Arith.
From Stdlib Require Import Permutation.
Import ListNotations.

Local Open Scope string_scope.
Local Open Scope list_scope.

(* ================================================================== *)
(** * Part I: definitions                                              *)
(* ================================================================== *)

(** ** Exceptions and results *)

(** The Python exceptions that the modelled code can raise. *)
Inductive exn : Type :=
| NameError (name : string)
| KeyError (key : string)
| TypeError
| ValueError
| LinAlgError.

Inductive result (A : Type) : Type :=
| Ok (a : A)
| Raise (e : exn).

Arguments Ok {A} a.
Arguments Raise {A} e.

(** ** Python dictionaries: insertion-ordered, string keys *)

Module Dict.

Definition t (V : Type) : Type := list (string * V).

Definition empty {V : Type} : t V := [].

Fixpoint get {V : Type} (k : string) (d : t V) : option V :=
  match d with
  | [] => None
  | (k', v) :: d' => if String.eqb k k' then Some v else get k d'
  end.

(** [d[k] = v]: an existing key keeps its position, a new key goes last. *)
Fixpoint set {V : Type} (k : string) (v : V) (d : t V) : t V :=
  match d with
  | [] => [(k, v)]
  | (k', v') :: d' =>
      if String.eqb k k' then (k', v) :: d' else (k', v') :: set k v d'
  end.

Definition mem {V : Type} (k : string) (d : t V) : bool :=
  match get k d with Some _ => true | None => false end.

Definition keys {V : Type} (d : t V) : list string := map fst d.

Definition values {V : Type} (d : t V) : list V := map snd d.

(** [d.update(other)] *)
Definition update {V : Type} (d other : t V) : t V :=
  fold_left (fun acc kv => set (fst kv) (snd kv) acc) other d.

End Dict.

(** ** numpy arrays of one dimension *)

Module Np.

Definition ndarray : Type := list Q.

(** [k * a] for a Python int [k]. *)
Definition scale (k : Z) (a : ndarray) : ndarray :=
  map (fun v => inject_Z k * v)%Q a.

(** [a * s] for a float [s]. *)
Definition mul_scalar (a : ndarray) (s : Q) : ndarray :=
  map (fun v => v * s)%Q a.

Fixpoint zip_add (a b : ndarray) : ndarray :=
  match a, b with
  | x :: a', y :: b' => (x + y)%Q :: zip_add a' b'
  | _, _ => []
  end.

(** [a + b] with numpy's broadcasting rule for one dimension: equal
    lengths, or one operand of length one; anything else raises. *)
Definition add (a b : ndarray) : result ndarray :=
  if Nat.eqb (length a) (length b) then Ok (zip_add a b)
  else match a, b with
       | [x], _ => Ok (map (fun y => x + y)%Q b)
       | _, [y] => Ok (map (fun x => x + y)%Q a)
       | _, _ => Raise ValueError
       end.

End Np.

(** ** The global random generator and [custom.noise] *)

(** The generator is the sequence of draws its seed determines, together
    with the number of draws already consumed. *)
Record RandomState : Type := mkRandomState {
  stream : nat -> Q;
  pos : nat
}.

(** Modelled from the spec: [custom.noise], imported by both notebooks
    from a module that is not among the sources.  It "produces N
    independent draws": the next [n] draws of the generator, which
    advances so that later calls return later draws.  A negative count
    raises, as numpy does. *)
Definition noise (n : Z) (rs : RandomState) : result (Np.ndarray * RandomState) :=
  if (n <? 0)%Z then Raise ValueError
  else Ok (map (stream rs) (seq (pos rs) (Z.to_nat n)),
           mkRandomState (stream rs) (pos rs + Z.to_nat n)).

(** ** networkx directed graphs *)

Module Nx.

(** Attribute dictionary of an edge or node, e.g. [{'coeff': 5}]. *)
Definition attrs : Type := Dict.t Z.

Record DiGraph : Type := mkDiGraph {
  _node : Dict.t attrs;
  _succ : Dict.t (Dict.t attrs);
  _pred : Dict.t (Dict.t attrs)
}.

(** [nx.DiGraph()] *)
Definition new : DiGraph := mkDiGraph Dict.empty Dict.empty Dict.empty.

Definition touch (u : string) (G : DiGraph) : DiGraph :=
  if Dict.mem u (_succ G) then G
  else mkDiGraph (Dict.set u Dict.empty (_node G))
                 (Dict.set u Dict.empty (_succ G))
                 (Dict.set u Dict.empty (_pred G)).

Definition adj (d : Dict.t (Dict.t attrs)) (u : string) : Dict.t attrs :=
  match Dict.get u d with Some a => a | None => Dict.empty end.

(** [G.add_edge(u, v, **attr)]: both end points become nodes if they are
    not yet, and the edge's attribute dictionary is updated with [attr].
    No check of any kind is made on the shape of the graph. *)
Definition add_edge (G : DiGraph) (u v : string) (attr : attrs) : DiGraph :=
  let G := touch u G in
  let G := touch v G in
  let datadict :=
    Dict.update
      (match Dict.get v (adj (_succ G) u) with Some d => d | None => Dict.empty end)
      attr in
  mkDiGraph (_node G)
            (Dict.set u (Dict.set v datadict (adj (_succ G) u)) (_succ G))
            (Dict.set v (Dict.set u datadict (adj (_pred G) v)) (_pred G)).

(** [list(G.nodes)] *)
Definition nodes (G : DiGraph) : list string := Dict.keys (_node G).

(** [G.pred[v]]: the parents of [v] with the data of the incoming edges. *)
Definition pred (G : DiGraph) (v : string) : Dict.t attrs := adj (_pred G) v.

Definition has_edge (G : DiGraph) (u v : string) : bool :=
  Dict.mem v (adj (_succ G) u).

(** [list(G.edges)] *)
Definition edges (G : DiGraph) : list (string * string) :=
  flat_map (fun us => map (fun vd => (fst us, fst vd)) (snd us)) (_succ G).

End Nx.

(** ** pandas data frames *)

Module Pd.

(** A frame with the default index [RangeIndex(nrows)]. *)
Record DataFrame : Type := mkDataFrame {
  columns : Dict.t Np.ndarray;
  nrows : nat
}.

(** [pd.DataFrame(data)] for a dictionary of arrays: the columns are the
    keys in order; arrays of different lengths raise. *)
Definition of_dict (data : Dict.t Np.ndarray) : result DataFrame :=
  match data with
  | [] => Ok (mkDataFrame [] 0)
  | (_, a) :: _ =>
      if forallb (fun kv => Nat.eqb (length (snd kv)) (length a)) data
      then Ok (mkDataFrame data (length a))
      else Raise ValueError
  end.

(** [df[name]] *)
Definition getitem (df : DataFrame) (name : string) : result Np.ndarray :=
  match Dict.get name (columns df) with
  | Some col => Ok col
  | None => Raise (KeyError name)
  end.

(** [df[name] = col] for a column on the frame's own index: replaces the
    column of that name or appends a new last column.  (The notebooks
    only assign a column computed from the frame itself; a value of
    another length is rejected here.) *)
Definition setitem (df : DataFrame) (name : string) (col : Np.ndarray)
  : result DataFrame :=
  if Nat.eqb (length col) (nrows df)
  then Ok (mkDataFrame (Dict.set name col (columns df)) (nrows df))
  else Raise ValueError.

(** [df.shape] *)
Definition shape (df : DataFrame) : nat * nat :=
  (nrows df, length (columns df)).

(** The rows at the positions [idx], in that order. *)
Definition take (df : DataFrame) (idx : list nat) : DataFrame :=
  mkDataFrame
    (map (fun kv => (fst kv, map (fun r => nth r (snd kv) 0%Q) idx)) (columns df))
    (length idx).

(** How the library picks [n] positions out of [nrows]: it draws from
    numpy's global generator, the one [noise] draws from, and leaves it in
    another state.  Which positions come out and how far the generator
    moves is decided inside the library: a parameter. *)
Definition Picker : Type := nat -> nat -> RandomState -> list nat * RandomState.

(** [df.sample(n)]: [n] rows picked without replacement; asking for more
    rows than the frame has raises. *)
Definition sample (pick : Picker) (df : DataFrame) (n : nat) (rs : RandomState)
  : result (DataFrame * RandomState) :=
  if Nat.ltb (nrows df) n then Raise ValueError
  else let (idx, rs') := pick (nrows df) n rs in Ok (take df idx, rs').

(** Every column has one value per row. *)
Definition wf (df : DataFrame) : Prop :=
  forall name col, Dict.get name (columns df) = Some col -> length col = nrows df.

End Pd.

(** ** statsmodels' least-squares interface *)

(** A parsed formula ['lhs ~ r1 + r2 + ...']; the intercept is implicit. *)
Record Formula : Type := mkFormula {
  lhs : string;
  rhs : list string
}.

(** [results.params]: indexed by ['Intercept'] and the predictor names. *)
Definition Params : Type := Dict.t Q.

(** The library's fitting routine, [OLS.from_formula(f, data=df).fit()],
    is not part of the notebooks: it is a parameter of every cell that
    calls it.  It reads the table and the formula and returns the
    coefficients or raises; it does not write to the table. *)
Definition Estimator : Type := Pd.DataFrame -> Formula -> result Params.

Record OLSModel : Type := mkOLSModel {
  formula : Formula;
  data : Pd.DataFrame
}.

Record OLSResults : Type := mkOLSResults {
  params : Params
}.

(** ** The kernel: namespace and generator *)

Inductive value : Type :=
| VInt (z : Z)
| VArray (a : Np.ndarray)
| VGraph (g : Nx.DiGraph)
| VDict (d : Dict.t Np.ndarray)
| VFrame (df : Pd.DataFrame)
| VModel (m : OLSModel)
| VResults (r : OLSResults)
| VClass (qualname : string).

Record Kernel : Type := mkKernel {
  random_state : RandomState;
  user_ns : Dict.t value
}.

(** A cell, a statement or an expression: it may raise, it may change
    the kernel. *)
Definition Cell (A : Type) : Type := Kernel -> result (A * Kernel).

Definition ret {A : Type} (a : A) : Cell A := fun k => Ok (a, k).

Definition bind {A B : Type} (c : Cell A) (f : A -> Cell B) : Cell B :=
  fun k => match c k with
           | Ok (a, k') => f a k'
           | Raise e => Raise e
           end.

Definition run {A : Type} (c : Cell A) (k : Kernel) : result (A * Kernel) := c k.

Declare Scope cell_scope.
Delimit Scope cell_scope with cell.

Notation "x <- c ;; f" := (bind c (fun x => f))
  (at level 100, c at next level, right associativity) : cell_scope.
Notation "c ;; f" := (bind c (fun _ => f))
  (at level 100, right associativity) : cell_scope.

Local Open Scope cell_scope.

Definition lift {A : Type} (r : result A) : Cell A :=
  fun k => match r with Ok a => Ok (a, k) | Raise e => Raise e end.

(** Reading a name that is not bound raises [NameError]. *)
Definition load (name : string) : Cell value :=
  fun k => match Dict.get name (user_ns k) with
           | Some v => Ok (v, k)
           | None => Raise (NameError name)
           end.

(** [name = v] *)
Definition store (name : string) (v : value) : Cell unit :=
  fun k => Ok (tt, mkKernel (random_state k) (Dict.set name v (user_ns k))).

(** Each statement expects one kind of value under a name, and the
    notebooks bind each name to one kind only.  A name that holds a value
    of another kind is outside what is modelled: the casts raise
    [TypeError] there, which need not be what Python does (a dict under
    [df] supports the same subscripts as a frame), and no theorem about
    the notebooks is stated of such a namespace. *)
Definition as_int (v : value) : Cell Z :=
  match v with VInt z => ret z | _ => lift (Raise TypeError) end.

Definition as_array (v : value) : Cell Np.ndarray :=
  match v with VArray a => ret a | _ => lift (Raise TypeError) end.

Definition as_frame (v : value) : Cell Pd.DataFrame :=
  match v with VFrame df => ret df | _ => lift (Raise TypeError) end.

Definition as_model (v : value) : Cell OLSModel :=
  match v with VModel m => ret m | _ => lift (Raise TypeError) end.

Definition as_results (v : value) : Cell OLSResults :=
  match v with VResults r => ret r | _ => lift (Raise TypeError) end.

Definition as_dict (v : value) : Cell (Dict.t Np.ndarray) :=
  match v with VDict d => ret d | _ => lift (Raise TypeError) end.

(** What a run of a cell displays, or the exception it raises. *)
Definition outcome {A : Type} (r : result (A * Kernel)) : result A :=
  match r with Ok (a, _) => Ok a | Raise e => Raise e end.

(** *** Expressions of the structural equations *)

(** [name], an array variable *)
Definition var (name : string) : Cell Np.ndarray :=
  v <- load name ;; as_array v.

(** [name], an integer variable *)
Definition ivar (name : string) : Cell Z :=
  v <- load name ;; as_int v.

(** [noise(size)] with [size] an integer expression *)
Definition call_noise (size : Cell Z) : Cell Np.ndarray :=
  n <- size ;;
  fun k => match noise n (random_state k) with
           | Ok (a, rs) => Ok (a, mkKernel rs (user_ns k))
           | Raise e => Raise e
           end.

(** [k * e]: operands are evaluated left to right *)
Definition times (k : Cell Z) (e : Cell Np.ndarray) : Cell Np.ndarray :=
  z <- k ;; a <- e ;; ret (Np.scale z a).

(** [e1 + e2] *)
Definition plus (e1 e2 : Cell Np.ndarray) : Cell Np.ndarray :=
  a <- e1 ;; b <- e2 ;; lift (Np.add a b).

(** [name = e] *)
Definition assign (name : string) (e : Cell Np.ndarray) : Cell unit :=
  a <- e ;; store name (VArray a).

Definition lit (z : Z) : Cell Z := ret z.

Notation "k *: e" := (times k e) (at level 40, left associativity) : cell_scope.
Notation "e1 +: e2" := (plus e1 e2) (at level 50, left associativity) : cell_scope.

(** [dict(k1=k1, k2=k2, ...)] of array variables *)
Fixpoint dict_of_vars (names : list string) : Cell (Dict.t Np.ndarray) :=
  match names with
  | [] => ret Dict.empty
  | name :: rest =>
      a <- var name ;;
      d <- dict_of_vars rest ;;
      ret ((name, a) :: d)
  end.

(** ** The regression cells, common to both notebooks *)

(** The statements of a regression cell from [df] on.  The class [OLS]
    that they call is imported in the first cell of notebook 02 and in the
    first regression cell of notebook 01; notebook 01's cells are
    [Notebook01.ols_cell] below, which add the look-up of that name. *)

(** [model = OLS.from_formula(f, data=df)] and [results = model.fit()] *)
Definition fit_statements (fit : Estimator) (f : Formula) : Cell unit :=
  v <- load "df" ;; df <- as_frame v ;;
  store "model" (VModel (mkOLSModel f df)) ;;
  v <- load "model" ;; m <- as_model v ;;
  p <- lift (fit (data m) (formula m)) ;;
  store "results" (VResults (mkOLSResults p)).

(** [results.params] *)
Definition results_params : Cell Params :=
  v <- load "results" ;; r <- as_results v ;; ret (params r).

(** [results.params[name]] *)
Definition results_param (name : string) : Cell Q :=
  p <- results_params ;;
  lift (match Dict.get name p with
        | Some q => Ok q
        | None => Raise (KeyError name)
        end).

(** A cell that fits a formula and displays [results.params]. *)
Definition regression_cell (fit : Estimator) (f : Formula) : Cell Params :=
  fit_statements fit f ;; results_params.

(** ** Notebook 01: a linear simulation on a nine-node graph *)

Module Notebook01.

(** Cell "Graphical Structure". *)
Definition G : Nx.DiGraph :=
  let G := Nx.new in
  let G := Nx.add_edge G "c" "x" [("coeff", 5%Z)] in
  let G := Nx.add_edge G "a" "x" [("coeff", 2%Z)] in
  let G := Nx.add_edge G "a" "k" [("coeff", (-3)%Z)] in
  let G := Nx.add_edge G "x" "f" [("coeff", 6%Z)] in
  let G := Nx.add_edge G "x" "d" [("coeff", (-2)%Z)] in
  let G := Nx.add_edge G "d" "g" [("coeff", (-8)%Z)] in
  let G := Nx.add_edge G "k" "y" [("coeff", 3%Z)] in
  let G := Nx.add_edge G "d" "y" [("coeff", 5%Z)] in
  let G := Nx.add_edge G "y" "h" [("coeff", (-4)%Z)] in
  G.

Definition graph_cell : Cell unit := store "G" (VGraph G).

(** The statements of that cell that build the graph, [G = nx.DiGraph()]
    and the calls of [add_edge], for any list of calls [(u, v, coeff)].
    The cell ends with [draw_graph(G)], a function of the module [custom],
    which is not among the sources: the drawing is not modelled, and
    nothing below says what it does with a graph. *)
Definition add_edges (es : list (string * string * Z)) (G : Nx.DiGraph)
  : Nx.DiGraph :=
  fold_left
    (fun G e => Nx.add_edge G (fst (fst e)) (snd (fst e)) [("coeff", snd e)])
    es G.

Definition graph_cell_of (es : list (string * string * Z)) : Cell unit :=
  store "G" (VGraph (add_edges es Nx.new)).

Definition G_edges : list (string * string * Z) :=
  [("c", "x", 5%Z); ("a", "x", 2%Z); ("a", "k", (-3)%Z); ("x", "f", 6%Z);
   ("x", "d", (-2)%Z); ("d", "g", (-8)%Z); ("k", "y", 3%Z); ("d", "y", 5%Z);
   ("y", "h", (-4)%Z)].

(** The structural equations, in the order the cell writes them: the
    assigned name and the right-hand side. *)
Definition equations : list (string * Cell Np.ndarray) :=
  [ ("c", call_noise (ivar "n"));
    ("a", call_noise (ivar "n"));
    ("x", lit 5 *: var "c" +: lit 2 *: var "a" +: call_noise (ivar "n"));
    ("k", lit (-3) *: var "a" +: call_noise (ivar "n"));
    ("f", lit 6 *: var "x" +: call_noise (ivar "n"));
    ("d", lit (-2) *: var "x" +: call_noise (ivar "n"));
    ("g", lit (-8) *: var "d" +: call_noise (ivar "n"));
    ("y", lit 3 *: var "k" +: lit 5 *: var "d" +: call_noise (ivar "n"));
    ("h", lit (-4) *: var "y" +: call_noise (ivar "n")) ].

Fixpoint assign_all (eqs : list (string * Cell Np.ndarray)) : Cell unit :=
  match eqs with
  | [] => ret tt
  | (name, e) :: rest => assign name e ;; assign_all rest
  end.

(** [data = dict(c=c, a=a, x=x, k=k, f=f, d=d, g=g, y=y, h=h)] and
    [df = pd.DataFrame(data)] *)
Definition frame_statements : Cell unit :=
  d <- dict_of_vars ["c"; "a"; "x"; "k"; "f"; "d"; "g"; "y"; "h"] ;;
  store "data" (VDict d) ;;
  v <- load "data" ;; d <- as_dict v ;;
  df <- lift (Pd.of_dict d) ;;
  store "df" (VFrame df).

(** The simulation cell for a sample count [samples] (the notebook has
    [n = 1000]), up to and including [df = pd.DataFrame(data)]: the
    statements that build the table. *)
Definition simulation_cell (samples : Z) : Cell unit :=
  store "n" (VInt samples) ;;
  assign_all equations ;;
  frame_statements.

(** [df.sample(5)], the last line of the cell: it displays five rows of
    the table, picked with the global generator. *)
Definition sample_statement (pick : Pd.Picker) (rows : nat) : Cell Pd.DataFrame :=
  v <- load "df" ;; df <- as_frame v ;;
  fun k => match Pd.sample pick df rows (random_state k) with
           | Ok (shown, rs) => Ok (shown, mkKernel rs (user_ns k))
           | Raise e => Raise e
           end.

(** The whole simulation cell. *)
Definition simulation_cell_displayed (pick : Pd.Picker) (samples : Z)
  : Cell Pd.DataFrame :=
  simulation_cell samples ;; sample_statement pick 5.

Definition n : Z := 1000%Z.

(** [from statsmodels.regression.linear_model import OLS]: the first
    line of the first regression cell binds the name [OLS]. *)
Definition import_OLS : Cell unit :=
  store "OLS" (VClass "statsmodels.regression.linear_model.OLS").

(** A regression cell of this notebook: [OLS.from_formula] looks the name
    [OLS] up before anything else. *)
Definition ols_cell (fit : Estimator) (f : Formula) : Cell Params :=
  _ <- load "OLS" ;; regression_cell fit f.

(** The four regressions of the notebook. *)
Definition naive_cell (fit : Estimator) : Cell Params :=
  import_OLS ;; ols_cell fit (mkFormula "y" ["x"]).

Definition adjust_a_cell (fit : Estimator) : Cell Params :=
  ols_cell fit (mkFormula "y" ["x"; "a"]).

Definition adjust_k_cell (fit : Estimator) : Cell Params :=
  ols_cell fit (mkFormula "y" ["x"; "k"]).

Definition adjust_g_cell (fit : Estimator) : Cell Params :=
  ols_cell fit (mkFormula "y" ["x"; "g"]).

(** The kernel when the simulation cell starts: only [G] is bound. *)
Definition kernel_with (g : Nx.DiGraph) (rs : RandomState) : Kernel :=
  mkKernel rs [("G", VGraph g)].

Definition kernel0 (rs : RandomState) : Kernel := kernel_with G rs.

(** The statements that build the graph followed by those that build the
    table, and the same followed by the whole simulation cell. *)
Definition notebook_of (es : list (string * string * Z)) (samples : Z)
  : Cell unit :=
  graph_cell_of es ;; simulation_cell samples.

Definition notebook_displayed_of (pick : Pd.Picker)
  (es : list (string * string * Z)) (samples : Z) : Cell Pd.DataFrame :=
  graph_cell_of es ;; simulation_cell_displayed pick samples.

End Notebook01.

(** ** Notebook 02: an instrument variable *)

Module Notebook02.

(** Cell "Model". *)
Definition model_cell (size : Z) : Cell unit :=
  store "size" (VInt size) ;;
  store "gamma" (VInt 2) ;;
  store "alpha" (VInt 3) ;;
  store "beta" (VInt 1) ;;
  store "delta" (VInt (-1)) ;;
  assign "h" (lit 2 *: call_noise (ivar "size")) ;;
  assign "i" (lit 4 *: call_noise (ivar "size")) ;;
  assign "x" (ivar "delta" *: var "i" +: ivar "beta" *: var "h"
              +: lit 2 *: call_noise (ivar "size")) ;;
  assign "y" (ivar "gamma" *: var "h" +: ivar "alpha" *: var "x"
              +: lit 3 *: call_noise (ivar "size")).

Definition size : Z := 1000%Z.

(** The graph cell reads the coefficients from the namespace. *)
Definition graph_cell : Cell unit :=
  alpha <- ivar "alpha" ;;
  gamma <- ivar "gamma" ;;
  beta <- ivar "beta" ;;
  delta <- ivar "delta" ;;
  let G := Nx.new in
  let G := Nx.add_edge G "x" "y" [("coeff", alpha)] in
  let G := Nx.add_edge G "h" "y" [("coeff", gamma)] in
  let G := Nx.add_edge G "h" "x" [("coeff", beta)] in
  let G := Nx.add_edge G "i" "x" [("coeff", delta)] in
  store "G" (VGraph G).

(** [data = dict(x=x, i=i, h=h, y=y)] and [df = pd.DataFrame(data)] *)
Definition frame_cell : Cell unit :=
  d <- dict_of_vars ["x"; "i"; "h"; "y"] ;;
  store "data" (VDict d) ;;
  v <- load "data" ;; d <- as_dict v ;;
  df <- lift (Pd.of_dict d) ;;
  store "df" (VFrame df).

(** [y ~ x] *)
Definition naive_cell (fit : Estimator) : Cell Params :=
  regression_cell fit (mkFormula "y" ["x"]).

(** [x ~ i]; the cell displays [results.params['i']]. *)
Definition first_stage_cell (fit : Estimator) : Cell Q :=
  fit_statements fit (mkFormula "x" ["i"]) ;; results_param "i".

(** [df['δi'] = df['i'] * results.params['i']]: the right-hand side is
    evaluated first, then the frame bound to [df] receives the column. *)
Definition derive_cell : Cell unit :=
  v <- load "df" ;; df <- as_frame v ;;
  col <- lift (Pd.getitem df "i") ;;
  s <- results_param "i" ;;
  v <- load "df" ;; df <- as_frame v ;;
  df' <- lift (Pd.setitem df "δi" (Np.mul_scalar col s)) ;;
  store "df" (VFrame df').

(** [y ~ δi] *)
Definition second_stage_cell (fit : Estimator) : Cell Params :=
  regression_cell fit (mkFormula "y" ["δi"]).

(** The three cells of section "Mechanics", run in order. *)
Definition two_stage (fit : Estimator) : Cell Params :=
  first_stage_cell fit ;; derive_cell ;; second_stage_cell fit.

End Notebook02.

(** ** Structural reading of a graph *)

Module Structural.

(** The ['coeff'] attribute of an edge. *)
Definition coeff (d : Nx.attrs) : Z :=
  match Dict.get "coeff" d with Some c => c | None => 0%Z end.

(** The value of node [v] in sample [j] of a table. *)
Definition cell (df : Pd.DataFrame) (v : string) (j : nat) : Q :=
  match Dict.get v (Pd.columns df) with
  | Some col => nth j col 0%Q
  | None => 0%Q
  end.

(** The sum over the parents [p] of [v] of [c_p * value(p)], the
    coefficients being read from the incoming edges of [v] in [G]. *)
Definition parents_sum (G : Nx.DiGraph) (df : Pd.DataFrame) (v : string)
  (j : nat) : Q :=
  fold_left
    (fun acc pd => (acc + inject_Z (coeff (snd pd)) * cell df (fst pd) j)%Q)
    (Nx.pred G v) 0%Q.

Fixpoint index_of (v : string) (l : list string) : option nat :=
  match l with
  | [] => None
  | u :: l' =>
      if String.eqb v u then Some 0%nat
      else match index_of v l' with Some i => Some (S i) | None => None end
  end.

(** [u] comes strictly before [v] in [order]. *)
Definition before (order : list string) (u v : string) : Prop :=
  match index_of u order, index_of v order with
  | Some i, Some j => (i < j)%nat
  | _, _ => False
  end.

(** [order] lists every node of [G] once, and every edge goes forward. *)
Definition topological (G : Nx.DiGraph) (order : list string) : Prop :=
  Permutation order (Nx.nodes G) /\
  Forall (fun e => before order (fst e) (snd e)) (Nx.edges G).

(** A node without parents. *)
Definition is_root (G : Nx.DiGraph) (v : string) : bool :=
  match Nx.pred G v with [] => true | _ :: _ => false end.

(** Every root comes before every node that has a parent. *)
Definition roots_first (G : Nx.DiGraph) (order : list string) : Prop :=
  forall r v, In r order -> In v order ->
    is_root G r = true -> is_root G v = false -> before order r v.

Fixpoint is_walk (G : Nx.DiGraph) (path : list string) : bool :=
  match path with
  | u :: (v :: _) as rest => Nx.has_edge G u v && is_walk G rest
  | _ => true
  end.

(** [path] is a directed cycle of [G]: a walk that closes on its start. *)
Definition directed_cycle (G : Nx.DiGraph) (path : list string) : bool :=
  match path with
  | [] => false
  | u :: _ => is_walk G (path ++ [u])
  end.

Definition cyclic (G : Nx.DiGraph) : Prop :=
  exists path, directed_cycle G path = true.

End Structural.

(** ** Closed form of the simulation of notebook 01 *)

Module Closed01.

(** Where the generator stands after [r] calls of [noise(N)]. *)
Definition offset (p N r : nat) : nat := Nat.iter r (fun q => (q + N)%nat) p.

(** The array the call number [r] (from 0) of [noise(N)] returns. *)
Definition draws (rs : RandomState) (N r : nat) : Np.ndarray :=
  map (stream rs) (seq (offset (pos rs) N r) N).

Section Columns.

Variables (g : Nx.DiGraph) (rs : RandomState) (N : nat).

Definition col_c : Np.ndarray := draws rs N 0.
Definition col_a : Np.ndarray := draws rs N 1.
Definition col_x : Np.ndarray :=
  Np.zip_add (Np.zip_add (Np.scale 5 col_c) (Np.scale 2 col_a)) (draws rs N 2).
Definition col_k : Np.ndarray :=
  Np.zip_add (Np.scale (-3) col_a) (draws rs N 3).
Definition col_f : Np.ndarray :=
  Np.zip_add (Np.scale 6 col_x) (draws rs N 4).
Definition col_d : Np.ndarray :=
  Np.zip_add (Np.scale (-2) col_x) (draws rs N 5).
Definition col_g : Np.ndarray :=
  Np.zip_add (Np.scale (-8) col_d) (draws rs N 6).
Definition col_y : Np.ndarray :=
  Np.zip_add (Np.zip_add (Np.scale 3 col_k) (Np.scale 5 col_d)) (draws rs N 7).
Definition col_h : Np.ndarray :=
  Np.zip_add (Np.scale (-4) col_y) (draws rs N 8).

Definition cols : Dict.t Np.ndarray :=
  [("c", col_c); ("a", col_a); ("x", col_x); ("k", col_k); ("f", col_f);
   ("d", col_d); ("g", col_g); ("y", col_y); ("h", col_h)].

Definition table : Pd.DataFrame := Pd.mkDataFrame cols N.

(** The bindings the nine equations create, in order. *)
Definition assigned : Dict.t value :=
  [("c", VArray col_c); ("a", VArray col_a); ("x", VArray col_x);
   ("k", VArray col_k); ("f", VArray col_f); ("d", VArray col_d);
   ("g", VArray col_g); ("y", VArray col_y); ("h", VArray col_h)].

(** The kernel after [n = N] and the first [m] equations, [G] being bound
    to [g]. *)
Definition prefix_kernel (m : nat) : Kernel :=
  mkKernel
    (mkRandomState (stream rs) (offset (pos rs) N m))
    ([("G", VGraph g); ("n", VInt (Z.of_nat N))] ++ firstn m assigned).

(** The kernel once the table is built. *)
Definition final_kernel : Kernel :=
  mkKernel
    (mkRandomState (stream rs) (offset (pos rs) N 9))
    ([("G", VGraph g); ("n", VInt (Z.of_nat N))] ++ assigned
     ++ [("data", VDict cols); ("df", VFrame table)]).

End Columns.

(** The largest magnitude among the [9 N] draws the cell consumes. *)
Definition magnitude (rs : RandomState) (N : nat) : Q :=
  fold_right (fun q m => Qmax (Qabs q) m) 0%Q
    (map (stream rs) (seq (pos rs) (9 * N))).

End Closed01.

(** Every value of the array is at most [b] in absolute value. *)
Definition bounded (b : Q) (a : Np.ndarray) : Prop :=
  Forall (fun q => Qabs q <= b)%Q a.

(** ** Least squares with one predictor *)

Module Ols.

Definition sum (a : Np.ndarray) : Q := fold_right Qplus 0%Q a.

(** The number of rows, as a rational. *)
Definition count (a : Np.ndarray) : Q := inject_Z (Z.of_nat (length a)).

Fixpoint dot (a b : Np.ndarray) : Q :=
  match a, b with
  | x :: a', y :: b' => (x * y + dot a' b')%Q
  | _, _ => 0%Q
  end.

(** The sum over the rows of the squared residual [y - (a + b x)]. *)
Fixpoint rss (xs ys : Np.ndarray) (a b : Q) : Q :=
  match xs, ys with
  | x :: xs', y :: ys' =>
      ((y - (a + b * x)) * (y - (a + b * x)) + rss xs' ys' a b)%Q
  | _, _ => 0%Q
  end.

(** The two normal equations, as residuals that must vanish. *)
Definition normal1 (xs ys : Np.ndarray) (a b : Q) : Q :=
  (sum ys - count xs * a - b * sum xs)%Q.

Definition normal2 (xs ys : Np.ndarray) (a b : Q) : Q :=
  (dot xs ys - a * sum xs - b * dot xs xs)%Q.

(** The determinant of the normal equations. *)
Definition det (xs : Np.ndarray) : Q :=
  (count xs * dot xs xs - sum xs * sum xs)%Q.

(** The sum of the squared distances of [x] to the values of a column. *)
Fixpoint dev (x : Q) (a : Np.ndarray) : Q :=
  match a with
  | [] => 0%Q
  | y :: a' => ((x - y) * (x - y) + dev x a')%Q
  end.

(** [(a, b)] minimises the sum of squared residuals. *)
Definition least_squares (xs ys : Np.ndarray) (a b : Q) : Prop :=
  forall a' b', (rss xs ys a b <= rss xs ys a' b')%Q.

(** The column takes at least two different values. *)
Definition nonconstant (xs : Np.ndarray) : Prop :=
  exists u v, In u xs /\ In v xs /\ ~ (u == v)%Q.

(** Modelled from the spec: the estimator, which the notebooks import
    from statsmodels.  "Given a sample table, a response variable name,
    and a list of predictor variable names (which may include a
    constant/intercept term implicitly), compute the least-squares
    coefficient vector minimizing the sum of squared residuals over all
    rows"; the result is "a mapping from predictor name to fitted
    coefficient".  Stated for formulas with one predictor whose column is
    not constant, the case in which the minimiser is unique; nothing is
    assumed of the estimator on any other design. *)
Definition least_squares_estimator (fit : Estimator) : Prop :=
  forall df resp pred xs ys,
    Pd.wf df ->
    Dict.get pred (Pd.columns df) = Some xs ->
    Dict.get resp (Pd.columns df) = Some ys ->
    nonconstant xs ->
    exists a b,
      fit df (mkFormula resp [pred]) = Ok [("Intercept", a); (pred, b)] /\
      least_squares xs ys a b.

(** An estimator that meets the contract: the normal equations of simple
    regression solved in closed form.  It serves as the concrete
    instance wherever a statement about an arbitrary estimator is
    evaluated.  Where the determinant vanishes the contract leaves an
    estimator free; this one raises. *)
Definition closed_form (df : Pd.DataFrame) (f : Formula) : result Params :=
  match rhs f with
  | [pred] =>
      match Dict.get (lhs f) (Pd.columns df), Dict.get pred (Pd.columns df) with
      | Some ys, Some xs =>
          if Qeq_bool (det xs) 0 then Raise LinAlgError
          else
            let b := ((count xs * dot xs ys - sum xs * sum ys) / det xs)%Q in
            let a := ((sum ys - b * sum xs) / count xs)%Q in
            Ok [("Intercept", a); (pred, b)]
      | None, _ => Raise (KeyError (lhs f))
      | _, None => Raise (KeyError pred)
      end
  | _ => Raise ValueError
  end.

End Ols.

(** ** Closed form of the two-stage cells of notebook 02 *)

Module Closed02.

(** The frame after [df['δi'] = df['i'] * s]. *)
Definition derived_frame (df : Pd.DataFrame) (icol : Np.ndarray) (s : Q)
  : Pd.DataFrame :=
  Pd.mkDataFrame (Dict.set "δi" (Np.mul_scalar icol s) (Pd.columns df))
                 (Pd.nrows df).

Section Kernels.

Variables (k : Kernel) (df : Pd.DataFrame) (icol : Np.ndarray)
  (p1 : Params) (dhat : Q).

(** The kernel after the first-stage cell, once it has fitted [p1]. *)
Definition after_first : Kernel :=
  mkKernel (random_state k)
    (Dict.set "results" (VResults (mkOLSResults p1))
       (Dict.set "model" (VModel (mkOLSModel (mkFormula "x" ["i"]) df))
          (user_ns k))).

(** The kernel after the column has been derived with the slope [dhat]. *)
Definition after_derive : Kernel :=
  mkKernel (random_state k)
    (Dict.set "df" (VFrame (derived_frame df icol dhat)) (user_ns after_first)).

(** The kernel after the second-stage cell, once it has fitted [p2]. *)
Definition after_second (p2 : Params) : Kernel :=
  mkKernel (random_state k)
    (Dict.set "results" (VResults (mkOLSResults p2))
       (Dict.set "model"
          (VModel (mkOLSModel (mkFormula "y" ["δi"])
                     (derived_frame df icol dhat)))
          (user_ns after_derive))).

End Kernels.

End Closed02.

(** ** Concrete inputs *)

Module Demo.

(** A generator whose draws cycle through -3, -2, -1, 0, 1, 2, 3. *)
Definition cycle7 (j : nat) : Q := inject_Z (Z.of_nat (j mod 7) - 3).

Definition rs : RandomState := mkRandomState cycle7 0.

(** The edges of notebook 01 closed into a cycle by an edge from [h]
    back to [c]. *)
Definition cyclic_edges : list (string * string * Z) :=
  Notebook01.G_edges ++ [("h", "c", 1%Z)].

(** A graph with the single edge from [p] to [q]. *)
Definition chain_edges : list (string * string * Z) := [("p", "q", 1%Z)].

Definition chain : Nx.DiGraph := Notebook01.add_edges chain_edges Nx.new.

(** A table for notebook 02 with five rows. *)
Definition df02 : Pd.DataFrame :=
  Pd.mkDataFrame
    [("x", [-14; -14; 14; 14; 0]%Q);
     ("i", [8; 12; -12; -8; -4]%Q);
     ("h", [-6; -4; -2; 0; 2]%Q);
     ("y", [-60; -53; 38; 45; 10]%Q)]
    5.

(** The kernel of notebook 02 when the cells "Model" (with [size = 5]),
    graph and frame have run from an empty namespace. *)
Definition kernel02 : Kernel :=
  match
    run (Notebook02.model_cell 5 ;; Notebook02.graph_cell ;;
         Notebook02.frame_cell)
        (mkKernel rs Dict.empty)
  with
  | Ok (_, k) => k
  | Raise _ => mkKernel rs Dict.empty
  end.

(** What the closed form fits for [x ~ i] on that table, and the slope. *)
Definition first_stage02 : Params :=
  Eval vm_compute in
    match Ols.closed_form df02 (mkFormula "x" ["i"]) with
    | Ok p => p
    | Raise _ => []
    end.

Definition dhat02 : Q :=
  Eval vm_compute in
    match Dict.get "i" first_stage02 with Some q => q | None => 0%Q end.

End Demo.

(** ** Closed form of the simulation of notebook 02 *)

Module Sim02.

(** The graph the graph cell builds when the coefficients have the values
    the cell "Model" gives them. *)
Definition G : Nx.DiGraph :=
  let G := Nx.new in
  let G := Nx.add_edge G "x" "y" [("coeff", 3%Z)] in
  let G := Nx.add_edge G "h" "y" [("coeff", 2%Z)] in
  let G := Nx.add_edge G "h" "x" [("coeff", 1%Z)] in
  let G := Nx.add_edge G "i" "x" [("coeff", (-1)%Z)] in
  G.

Section Columns.

Variables (rs : RandomState) (N : nat).

Definition col_h : Np.ndarray := Np.scale 2 (Closed01.draws rs N 0).
Definition col_i : Np.ndarray := Np.scale 4 (Closed01.draws rs N 1).
Definition col_x : Np.ndarray :=
  Np.zip_add (Np.zip_add (Np.scale (-1) col_i) (Np.scale 1 col_h))
             (Np.scale 2 (Closed01.draws rs N 2)).
Definition col_y : Np.ndarray :=
  Np.zip_add (Np.zip_add (Np.scale 2 col_h) (Np.scale 3 col_x))
             (Np.scale 3 (Closed01.draws rs N 3)).

Definition cols : Dict.t Np.ndarray :=
  [("x", col_x); ("i", col_i); ("h", col_h); ("y", col_y)].

Definition table : Pd.DataFrame := Pd.mkDataFrame cols N.

(** The kernel after the cells "Model", graph and frame, run from an empty
    namespace. *)
Definition final_kernel : Kernel :=
  mkKernel
    (mkRandomState (stream rs) (Closed01.offset (pos rs) N 4))
    [("size", VInt (Z.of_nat N)); ("gamma", VInt 2); ("alpha", VInt 3);
     ("beta", VInt 1); ("delta", VInt (-1));
     ("h", VArray col_h); ("i", VArray col_i); ("x", VArray col_x);
     ("y", VArray col_y); ("G", VGraph G); ("data", VDict cols);
     ("df", VFrame table)].

End Columns.

(** For each node, the rank of its call of [noise] in the cell "Model" and
    the constant that multiplies the call. *)
Definition noise_term : Dict.t (nat * Z) :=
  [("h", (0%nat, 2%Z)); ("i", (1%nat, 4%Z)); ("x", (2%nat, 2%Z));
   ("y", (3%nat, 3%Z))].

(** The three cells in the order of the notebook. *)
Definition setup (size : Z) : Cell unit :=
  Notebook02.model_cell size ;; Notebook02.graph_cell ;; Notebook02.frame_cell.

End Sim02.

(** ** Ancestors in a graph *)

Module Ancestry.

(** The nodes from which [v] is reached by a path of at most [fuel]
    edges, with repetitions. *)
Fixpoint ancestors_within (fuel : nat) (G : Nx.DiGraph) (v : string)
  : list string :=
  match fuel with
  | O => []
  | S fuel' =>
      flat_map (fun p => p :: ancestors_within fuel' G p)
               (Dict.keys (Nx.pred G v))
  end.

(** In a graph without cycle no path has more edges than there are
    nodes. *)
Definition ancestors (G : Nx.DiGraph) (v : string) : list string :=
  ancestors_within (length (Nx.nodes G)) G v.

End Ancestry.

(** A generator that yields [q] for its first [m] draws and then follows
    [rs]. *)
Definition overwrite_first (m : nat) (q : Q) (rs : RandomState) : RandomState :=
  mkRandomState (fun j => if Nat.ltb j m then q else stream rs j) (pos rs).

(** ** Further concrete inputs *)

Module Demo2.

(** An estimator that returns the coefficient zero for the intercept and
    for every predictor, whatever the table: an instance for statements
    that hold of every estimator, with any number of predictors. *)
Definition zero_fit (df : Pd.DataFrame) (f : Formula) : result Params :=
  Ok (map (fun name => (name, 0%Q)) ("Intercept" :: rhs f)).

(** A kernel in which only a three-row table is bound, with the columns
    of notebook 01 that its regressions name. *)
Definition df01 : Pd.DataFrame :=
  Pd.mkDataFrame
    [("a", [1; 0; -1]%Q); ("x", [2; 1; 0]%Q); ("k", [0; 1; 1]%Q);
     ("g", [3; -1; 2]%Q); ("y", [-20; -7; 3]%Q)]
    3.

Definition kernel01 : Kernel :=
  mkKernel Demo.rs [("df", VFrame df01)].

(** A three-row table on which the least-squares slope of [x] on [i] is
    zero, and a kernel in which only that table is bound. *)
Definition df_flat : Pd.DataFrame :=
  Pd.mkDataFrame
    [("x", [1; 0; 1]%Q); ("i", [-1; 0; 1]%Q); ("y", [2; 3; 5]%Q)]
    3.

Definition kernel_flat : Kernel :=
  mkKernel Demo.rs [("df", VFrame df_flat)].

Definition first_stage_flat : Params :=
  Eval vm_compute in
    match Ols.closed_form df_flat (mkFormula "x" ["i"]) with
    | Ok p => p
    | Raise _ => []
    end.

Definition dhat_flat : Q :=
  Eval vm_compute in
    match Dict.get "i" first_stage_flat with Some q => q | None => 1%Q end.

End Demo2.

(** The four regression cells of notebook 01, in the order of the
    notebook. *)
Definition regressions01 (fit : Estimator) : Cell Params :=
  Notebook01.naive_cell fit ;; Notebook01.adjust_a_cell fit ;;
  Notebook01.adjust_k_cell fit ;; Notebook01.adjust_g_cell fit.

(** ** Slopes as ratios of sums *)

Module Slope.

(** [n] times the sum of products minus the product of the sums: [n^2]
    times the covariance of the two columns in the sample. *)
Definition cov (xs ys : Np.ndarray) : Q :=
  (Ols.count xs * Ols.dot xs ys - Ols.sum xs * Ols.sum ys)%Q.

(** The least-squares slope of [ys] on [xs]. *)
Definition slope (xs ys : Np.ndarray) : Q := (cov xs ys / cov xs xs)%Q.

End Slope.

(** The naive regression of notebook 01 run on the table the simulation
    cell has just built, and the cells of notebook 02 up to the naive
    regression and up to the two-stage procedure. *)
Definition simulate_then_naive01 (fit : Estimator) (samples : Z) : Cell Params :=
  Notebook01.simulation_cell samples ;; Notebook01.naive_cell fit.

Definition setup_then_naive02 (fit : Estimator) (size : Z) : Cell Params :=
  Sim02.setup size ;; Notebook02.naive_cell fit.

Definition setup_then_two_stage02 (fit : Estimator) (size : Z) : Cell Params :=
  Sim02.setup size ;; Notebook02.two_stage fit.

(* ================================================================== *)
(** * Part II: lemmas and theorems                                     *)
(* ================================================================== *)

Local Open Scope cell_scope.

(** ** Dictionaries *)

Lemma get_set_same {V : Type} (k : string) (v : V) (d : Dict.t V) :
  Dict.get k (Dict.set k v d) = Some v.
Proof.
  induction d as [|[k' v'] d IH]; cbn [Dict.set Dict.get].
  - now rewrite String.eqb_refl.
  - destruct (String.eqb_spec k k') as [->|Hne]; cbn [Dict.get].
    + now rewrite String.eqb_refl.
    + destruct (String.eqb_spec k k'); [contradiction|exact IH].
Qed.

Lemma get_set_other {V : Type} (k k0 : string) (v : V) (d : Dict.t V) :
  k0 <> k -> Dict.get k0 (Dict.set k v d) = Dict.get k0 d.
Proof.
  intros Hne. induction d as [|[k' v'] d IH]; cbn [Dict.set Dict.get].
  - destruct (String.eqb_spec k0 k); [contradiction|reflexivity].
  - destruct (String.eqb_spec k k') as [->|Hne']; cbn [Dict.get].
    + destruct (String.eqb_spec k0 k'); [contradiction|reflexivity].
    + destruct (String.eqb_spec k0 k'); [reflexivity|exact IH].
Qed.

(** Setting a key that is absent appends the binding. *)
Lemma set_absent {V : Type} (k : string) (v : V) (d : Dict.t V) :
  Dict.get k d = None -> Dict.set k v d = d ++ [(k, v)].
Proof.
  induction d as [|[k' v'] d IH]; cbn [Dict.set Dict.get app]; [reflexivity|].
  destruct (String.eqb k k'); [discriminate|]. intros H. now rewrite IH.
Qed.

(** ** Arrays *)

Lemma length_scale (z : Z) (a : Np.ndarray) : length (Np.scale z a) = length a.
Proof. apply length_map. Qed.

Lemma length_mul_scalar (a : Np.ndarray) (s : Q) :
  length (Np.mul_scalar a s) = length a.
Proof. apply length_map. Qed.

Lemma length_zip_add (a b : Np.ndarray) :
  length a = length b -> length (Np.zip_add a b) = length a.
Proof.
  revert b; induction a as [|x a IH]; intros [|y b] H; simpl in *;
    try discriminate; auto.
Qed.

Lemma add_same_length (a b : Np.ndarray) :
  length a = length b -> Np.add a b = Ok (Np.zip_add a b).
Proof.
  intros H. unfold Np.add. rewrite H, Nat.eqb_refl. reflexivity.
Qed.

Lemma nth_scale (z : Z) (a : Np.ndarray) (j : nat) :
  (j < length a)%nat ->
  nth j (Np.scale z a) 0%Q = (inject_Z z * nth j a 0)%Q.
Proof.
  intros H. unfold Np.scale.
  rewrite (nth_indep _ 0%Q (inject_Z z * 0)%Q) by (rewrite length_map; exact H).
  apply (map_nth (fun v => inject_Z z * v)%Q).
Qed.

Lemma nth_zip_add (a b : Np.ndarray) (j : nat) :
  length a = length b -> (j < length a)%nat ->
  nth j (Np.zip_add a b) 0%Q = (nth j a 0 + nth j b 0)%Q.
Proof.
  revert b j; induction a as [|x a IH]; intros [|y b] j Hl Hj; simpl in *;
    try discriminate; try lia.
  destruct j as [|j]; [reflexivity|]. apply IH; lia.
Qed.

Lemma offset_eq (p N r : nat) : Closed01.offset p N r = (p + r * N)%nat.
Proof.
  unfold Closed01.offset. induction r as [|r IH]; simpl; [lia|].
  rewrite IH. lia.
Qed.

Lemma length_draws (rs : RandomState) (N r : nat) :
  length (Closed01.draws rs N r) = N.
Proof. unfold Closed01.draws. now rewrite length_map, length_seq. Qed.

Lemma nth_draws (rs : RandomState) (N r j : nat) :
  (j < N)%nat ->
  nth j (Closed01.draws rs N r) 0%Q = stream rs (pos rs + r * N + j)%nat.
Proof.
  intros H. unfold Closed01.draws.
  rewrite (nth_indep _ 0%Q (stream rs 0%nat)) by (now rewrite length_map, length_seq).
  rewrite map_nth, seq_nth by exact H. now rewrite offset_eq.
Qed.

(** ** Running expressions and statements *)

Lemma run_seq {A B : Type} (c : Cell A) (f : A -> Cell B) (k k1 : Kernel)
  (a : A) (r : result (B * Kernel)) :
  run c k = Ok (a, k1) -> run (f a) k1 = r -> run (bind c f) k = r.
Proof. unfold run, bind. intros -> H. exact H. Qed.

Lemma run_var (name : string) (k : Kernel) (a : Np.ndarray) :
  Dict.get name (user_ns k) = Some (VArray a) -> run (var name) k = Ok (a, k).
Proof. unfold run, var, bind, load. intros ->. reflexivity. Qed.

Lemma run_ivar (name : string) (k : Kernel) (z : Z) :
  Dict.get name (user_ns k) = Some (VInt z) -> run (ivar name) k = Ok (z, k).
Proof. unfold run, ivar, bind, load. intros ->. reflexivity. Qed.

Lemma run_call_noise (size : Cell Z) (k : Kernel) (N : nat)
  (s : nat -> Q) (p : nat) (ns : Dict.t value) :
  run size k = Ok (Z.of_nat N, mkKernel (mkRandomState s p) ns) ->
  run (call_noise size) k =
  Ok (map s (seq p N), mkKernel (mkRandomState s (p + N)) ns).
Proof.
  unfold run, call_noise, bind, noise. intros ->.
  destruct (Z.ltb_spec (Z.of_nat N) 0) as [H|_]; [lia|].
  cbn [random_state user_ns stream pos]. now rewrite Nat2Z.id.
Qed.

Lemma run_times (kz : Cell Z) (e : Cell Np.ndarray) (k k1 k2 : Kernel)
  (z : Z) (a : Np.ndarray) :
  run kz k = Ok (z, k1) -> run e k1 = Ok (a, k2) ->
  run (kz *: e) k = Ok (Np.scale z a, k2).
Proof. unfold run, times, bind. intros -> ->. reflexivity. Qed.

Lemma run_plus (e1 e2 : Cell Np.ndarray) (k k1 k2 : Kernel) (a b : Np.ndarray) :
  run e1 k = Ok (a, k1) -> run e2 k1 = Ok (b, k2) -> length a = length b ->
  run (e1 +: e2) k = Ok (Np.zip_add a b, k2).
Proof.
  unfold run, plus, bind, lift. intros -> -> H.
  now rewrite (add_same_length _ _ H).
Qed.

Lemma run_assign (name : string) (e : Cell Np.ndarray) (k : Kernel)
  (a : Np.ndarray) (rs : RandomState) (ns : Dict.t value) :
  run e k = Ok (a, mkKernel rs ns) ->
  run (assign name e) k = Ok (tt, mkKernel rs (Dict.set name (VArray a) ns)).
Proof. unfold run, assign, bind, store. intros ->. reflexivity. Qed.

Lemma run_store (name : string) (v : value) (rs : RandomState)
  (ns : Dict.t value) :
  run (store name v) (mkKernel rs ns) = Ok (tt, mkKernel rs (Dict.set name v ns)).
Proof. reflexivity. Qed.

Create Rewrite HintDb len.
#[local] Hint Rewrite length_scale length_mul_scalar length_draws length_map length_seq : len.

Ltac len :=
  repeat first
    [ rewrite length_zip_add by len
    | progress autorewrite with len ];
  try solve [reflexivity | lia].

Ltac eval_expr :=
  lazymatch goal with
  | |- run (_ +: _) _ = _ => eapply run_plus; [eval_expr | eval_expr | len]
  | |- run (_ *: _) _ = _ => eapply run_times; [eval_expr | eval_expr]
  | |- run (lit _) _ = _ => reflexivity
  | |- run (var _) _ = _ => eapply run_var; reflexivity
  | |- run (ivar _) _ = _ => eapply run_ivar; reflexivity
  | |- run (call_noise _) _ = _ => eapply run_call_noise; eval_expr
  end.


Lemma run_lift {A : Type} (r : result A) (a : A) (k : Kernel) :
  r = Ok a -> run (lift r) k = Ok (a, k).
Proof. intros ->. reflexivity. Qed.

Ltac norm_ns :=
  cbn [Dict.set String.eqb Ascii.eqb Bool.eqb].

Ltac exec_assign :=
  eapply run_seq; [eapply run_assign; eval_expr | norm_ns].

Import Notebook01 Closed01.

(** ** Notebook 01: what the simulation cell computes *)

Lemma run_prefix (g : Nx.DiGraph) (N : nat) (rs : RandomState) (m : nat) :
  (m <= 9)%nat ->
  run (store "n" (VInt (Z.of_nat N)) ;; assign_all (firstn m equations))
      (kernel_with g rs)
  = Ok (tt, prefix_kernel g rs N m).
Proof.
  intros Hm. destruct rs as [s p].
  do 10 (destruct m as [|m];
         [ eapply run_seq; [apply run_store|]; norm_ns;
           cbn [firstn equations assign_all];
           repeat exec_assign; reflexivity | ]).
  lia.
Qed.

Lemma length_cols (N : nat) (rs : RandomState) (name : string) (col : Np.ndarray) :
  Dict.get name (cols rs N) = Some col -> length col = N.
Proof.
  unfold cols. cbn [Dict.get].
  repeat (destruct (String.eqb name _);
          [ intros [= <-];
            unfold col_h, col_y, col_g, col_d, col_f, col_k, col_x, col_a, col_c;
            len | ]).
  discriminate.
Qed.

Lemma of_dict_uniform (data : Dict.t Np.ndarray) (N : nat) :
  data <> [] ->
  (forall name col, In (name, col) data -> length col = N) ->
  Pd.of_dict data = Ok (Pd.mkDataFrame data N).
Proof.
  destruct data as [|[name0 a] rest]; [congruence|]. intros _ Hlen.
  unfold Pd.of_dict.
  assert (Ha : length a = N) by (apply (Hlen name0); now left).
  rewrite Ha.
  replace (forallb _ _) with true; [reflexivity|].
  symmetry. apply forallb_forall. intros [name col] Hin. cbn [snd].
  apply Nat.eqb_eq. eauto.
Qed.

Lemma in_cols_length (N : nat) (rs : RandomState) (name : string)
  (col : Np.ndarray) :
  In (name, col) (cols rs N) -> length col = N.
Proof.
  unfold cols. cbn [In]. intros Hin.
  repeat (destruct Hin as [[= <- <-]|Hin];
          [ unfold col_h, col_y, col_g, col_d, col_f, col_k, col_x, col_a, col_c;
            len | ]).
  contradiction.
Qed.

Lemma of_dict_cols (N : nat) (rs : RandomState) :
  Pd.of_dict (cols rs N) = Ok (table rs N).
Proof.
  apply of_dict_uniform; [discriminate|]. apply in_cols_length.
Qed.

Ltac exec_dict :=
  lazymatch goal with
  | |- run (ret _) _ = _ => reflexivity
  | |- run (bind (var _) _) _ = _ =>
      eapply run_seq; [eapply run_var; reflexivity | cbv beta;
      eapply run_seq; [exec_dict | reflexivity]]
  end.

Lemma run_simulation (g : Nx.DiGraph) (N : nat) (rs : RandomState) :
  run (simulation_cell (Z.of_nat N)) (kernel_with g rs)
  = Ok (tt, final_kernel g rs N).
Proof.
  destruct rs as [s p]. unfold simulation_cell.
  eapply run_seq; [apply run_store|]. norm_ns.
  eapply run_seq.
  { cbn [equations assign_all]. repeat exec_assign. reflexivity. }
  unfold frame_statements.
  eapply run_seq; [cbn [dict_of_vars]; exec_dict|].
  eapply run_seq; [apply run_store|]. norm_ns.
  eapply run_seq; [reflexivity|]. cbv beta.
  eapply run_seq; [reflexivity|].
  eapply run_seq;
    [apply run_lift; apply (of_dict_cols N (mkRandomState s p))|].
  reflexivity.
Qed.

Import Structural.

Lemma length_col (N : nat) (rs : RandomState) :
  length (col_c rs N) = N /\ length (col_a rs N) = N /\
  length (col_x rs N) = N /\ length (col_k rs N) = N /\
  length (col_f rs N) = N /\ length (col_d rs N) = N /\
  length (col_g rs N) = N /\ length (col_y rs N) = N /\
  length (col_h rs N) = N.
Proof.
  repeat split;
    match goal with
    | |- length ?c = _ =>
        match c with
        | ?f rs N =>
            let name := fresh in
            eapply (in_cols_length N rs); unfold cols; cbn [In]; eauto 12
        end
    end.
Qed.

Lemma length_col_c (N : nat) (rs : RandomState) : length (col_c rs N) = N.
Proof. apply (length_col N rs). Qed.

Lemma length_col_a (N : nat) (rs : RandomState) : length (col_a rs N) = N.
Proof. apply (length_col N rs). Qed.

Lemma length_col_x (N : nat) (rs : RandomState) : length (col_x rs N) = N.
Proof. apply (length_col N rs). Qed.

Lemma length_col_k (N : nat) (rs : RandomState) : length (col_k rs N) = N.
Proof. apply (length_col N rs). Qed.

Lemma length_col_f (N : nat) (rs : RandomState) : length (col_f rs N) = N.
Proof. apply (length_col N rs). Qed.

Lemma length_col_d (N : nat) (rs : RandomState) : length (col_d rs N) = N.
Proof. apply (length_col N rs). Qed.

Lemma length_col_g (N : nat) (rs : RandomState) : length (col_g rs N) = N.
Proof. apply (length_col N rs). Qed.

Lemma length_col_y (N : nat) (rs : RandomState) : length (col_y rs N) = N.
Proof. apply (length_col N rs). Qed.

Lemma length_col_h (N : nat) (rs : RandomState) : length (col_h rs N) = N.
Proof. apply (length_col N rs). Qed.

#[local] Hint Rewrite length_col_c length_col_a length_col_x length_col_k length_col_f length_col_d length_col_g length_col_y length_col_h : len.

Lemma index_of_Some_lt (v : string) (l : list string) (r : nat) :
  index_of v l = Some r -> (r < length l)%nat /\ nth r l "" = v.
Proof.
  revert r; induction l as [|u l IH]; intros r; simpl; [discriminate|].
  destruct (String.eqb_spec v u) as [->|Hne].
  - intros [= <-]. split; [lia|reflexivity].
  - destruct (index_of v l) as [i|]; [|discriminate].
    intros [= <-]. destruct (IH i eq_refl). split; [lia|assumption].
Qed.


Section EquationColumns.

Variables (rs : RandomState) (N : nat).

Lemma nth_one_parent (z : Z) (a : Np.ndarray) (r j : nat) :
  length a = N -> (j < N)%nat ->
  nth j (Np.zip_add (Np.scale z a) (draws rs N r)) 0%Q
  = (inject_Z z * nth j a 0 + stream rs (pos rs + r * N + j)%nat)%Q.
Proof.
  intros Ha Hj.
  rewrite nth_zip_add by (len; lia).
  rewrite nth_scale, nth_draws by lia. reflexivity.
Qed.

Lemma nth_two_parents (z1 z2 : Z) (a1 a2 : Np.ndarray) (r j : nat) :
  length a1 = N -> length a2 = N -> (j < N)%nat ->
  nth j (Np.zip_add (Np.zip_add (Np.scale z1 a1) (Np.scale z2 a2))
                    (draws rs N r)) 0%Q
  = (inject_Z z1 * nth j a1 0 + inject_Z z2 * nth j a2 0
     + stream rs (pos rs + r * N + j)%nat)%Q.
Proof.
  intros H1 H2 Hj.
  rewrite nth_zip_add by (len; lia).
  rewrite nth_zip_add by (len; lia).
  rewrite !nth_scale, nth_draws by lia. reflexivity.
Qed.

End EquationColumns.

Lemma draw_index_inj (N r r' j j' : nat) :
  (j < N)%nat -> (j' < N)%nat -> (r * N + j = r' * N + j')%nat ->
  r = r' /\ j = j'.
Proof.
  intros Hj Hj' H.
  assert (HN : N <> 0%nat) by lia.
  assert (Hr : ((r * N + j) / N = r)%nat)
    by (rewrite Nat.div_add_l, Nat.div_small by lia; lia).
  assert (Hr' : ((r' * N + j') / N = r')%nat)
    by (rewrite Nat.div_add_l, Nat.div_small by lia; lia).
  rewrite H in Hr. assert (Heq : r = r') by congruence.
  split; [exact Heq|]. rewrite Heq in H. lia.
Qed.

Ltac pred_of G v :=
  let t := eval vm_compute in (Nx.pred G v) in
  change (Nx.pred G v) with t in *.

(** C1.  In the table the simulation cell of notebook 01 builds, the value
    of every node [v] of [G] in every sample [j] is the sum, over the edges
    of [G] that enter [v], of the edge's ['coeff'] times the parent's value
    in that sample, plus a draw of the generator; a node without incoming
    edge is that draw alone; and the draws of different nodes or different
    samples sit at different places of the generator's sequence. *)
Theorem C1_structural_equations (N : nat) (rs : RandomState) :
  exists k df,
    run (simulation_cell (Z.of_nat N)) (kernel0 rs) = Ok (tt, k) /\
    Dict.get "df" (user_ns k) = Some (VFrame df) /\
    (forall v, In v (Nx.nodes G) ->
       exists r,
         index_of v (map fst equations) = Some r /\
         forall j, (j < N)%nat ->
           (cell df v j ==
              parents_sum G df v j + stream rs (pos rs + r * N + j)%nat)%Q /\
           (Nx.pred G v = [] ->
              (cell df v j == stream rs (pos rs + r * N + j)%nat)%Q)) /\
    (forall v v' r r' j j',
       index_of v (map fst equations) = Some r ->
       index_of v' (map fst equations) = Some r' ->
       (j < N)%nat -> (j' < N)%nat ->
       (pos rs + r * N + j = pos rs + r' * N + j')%nat ->
       v = v' /\ j = j').
Proof.
  exists (final_kernel G rs N), (table rs N).
  split; [apply run_simulation|]. split; [reflexivity|]. split.
  - intros v Hv.
    destruct (length_col N rs) as (Lc & La & Lx & Lk & Lf & Ld & Lg & Ly & Lh).
    let t := eval vm_compute in (Nx.nodes G) in change (Nx.nodes G) with t in Hv.
    cbn [In] in Hv.
    repeat (destruct Hv as [<-|Hv];
      [ match goal with
        | |- exists r, index_of ?v ?l = _ /\ _ =>
            let i := eval vm_compute in (index_of v l) in
            match i with
            | Some ?r => exists r; split; [reflexivity|]
            end
        end;
        intros j Hj; unfold parents_sum;
        match goal with |- context [Nx.pred G ?v] => pred_of G v end;
        cbn [fold_left fst snd coeff Dict.get String.eqb Ascii.eqb Bool.eqb];
        unfold cell, table;
        cbn [Pd.columns cols Dict.get String.eqb Ascii.eqb Bool.eqb];
        split;
        [ first
            [ unfold col_c, col_a; rewrite nth_draws by exact Hj; ring
            | unfold col_x at 1; rewrite nth_two_parents by assumption; ring
            | unfold col_y at 1; rewrite nth_two_parents by assumption; ring
            | unfold col_k at 1; rewrite nth_one_parent by assumption; ring
            | unfold col_f at 1; rewrite nth_one_parent by assumption; ring
            | unfold col_d at 1; rewrite nth_one_parent by assumption; ring
            | unfold col_g at 1; rewrite nth_one_parent by assumption; ring
            | unfold col_h at 1; rewrite nth_one_parent by assumption; ring ]
        | first
            [ discriminate
            | intros _; unfold col_c, col_a; rewrite nth_draws by exact Hj;
              reflexivity ] ]
      | ]).
    contradiction.
  - intros v v' r r' j j' Hr Hr' Hj Hj' Heq.
    destruct (draw_index_inj N r r' j j' Hj Hj') as [-> ->]; [lia|].
    split; [|reflexivity].
    apply index_of_Some_lt in Hr, Hr'.
    destruct Hr as [_ <-], Hr' as [_ <-]. reflexivity.
Qed.

(** ** Notebook 01: the order of evaluation *)

Lemma order_topological : topological G (map fst equations).
Proof.
  split.
  - let t := eval vm_compute in (Nx.nodes G) in change (Nx.nodes G) with t.
    cbn [map fst equations]. apply perm_skip. apply perm_swap.
  - let t := eval vm_compute in (Nx.edges G) in change (Nx.edges G) with t.
    repeat (apply Forall_cons; [vm_compute; repeat constructor|]).
    apply Forall_nil.
Qed.

Lemma order_roots_first : roots_first G (map fst equations).
Proof.
  intros r v Hr Hv. cbn [map fst equations In] in Hr, Hv.
  repeat (destruct Hr as [<-|Hr]; [|]); try contradiction;
    (repeat (destruct Hv as [<-|Hv]; [|]); try contradiction);
    vm_compute; intros; try discriminate; repeat constructor.
Qed.

(** C3.  The simulation cell of notebook 01 assigns the nodes in the order
    c, a, x, k, f, d, g, y, h.  That order is a topological order of [G]
    with the roots first, and when an equation is reached every parent of
    its node is already bound to an array, so that the equation evaluates
    without raising. *)
Theorem C3_topological_evaluation :
  map fst equations = ["c"; "a"; "x"; "k"; "f"; "d"; "g"; "y"; "h"] /\
  topological G (map fst equations) /\
  roots_first G (map fst equations) /\
  forall (N : nat) (rs : RandomState) pre v e post,
    equations = pre ++ (v, e) :: post ->
    exists k,
      run (store "n" (VInt (Z.of_nat N)) ;; assign_all pre) (kernel0 rs)
      = Ok (tt, k) /\
      (forall p, In p (Dict.keys (Nx.pred G v)) ->
         exists a, Dict.get p (user_ns k) = Some (VArray a)) /\
      (exists a k', run e k = Ok (a, k')).
Proof.
  split; [reflexivity|]. split; [apply order_topological|].
  split; [apply order_roots_first|].
  intros N rs pre v e post H. unfold equations in H.
  do 9 (destruct pre as [|[v0 e0] pre];
        [ cbn [app] in H; injection H as <- <- <-;
          match goal with
          | |- context [assign_all ?l] =>
              let m := eval cbv in (length l) in
              exists (prefix_kernel G rs N m);
              split; [exact (run_prefix G N rs m ltac:(lia))|]
          end;
          split;
          [ match goal with |- context [Nx.pred G ?v] => pred_of G v end;
            cbn [Dict.keys map fst In];
            intros p Hp;
            repeat (destruct Hp as [<-|Hp]; [eexists; reflexivity|]);
            contradiction
          | destruct rs as [s p0]; do 2 eexists; eval_expr ]
        | cbn [app] in H; injection H as <- <- H ]).
  destruct pre; discriminate.
Qed.

(** C3 at the equation of [x], the third of the cell. *)
Lemma C3_topological_evaluation_witness :
  equations
  = firstn 2 equations
    ++ ("x", lit 5 *: var "c" +: lit 2 *: var "a" +: call_noise (ivar "n"))
    :: skipn 3 equations
  /\ exists k,
      run (store "n" (VInt (Z.of_nat 1000)) ;; assign_all (firstn 2 equations))
          (kernel0 Demo.rs)
      = Ok (tt, k) /\
      (forall p, In p (Dict.keys (Nx.pred G "x")) ->
         exists a, Dict.get p (user_ns k) = Some (VArray a)) /\
      (exists a k',
         run (lit 5 *: var "c" +: lit 2 *: var "a" +: call_noise (ivar "n")) k
         = Ok (a, k')).
Proof.
  split; [reflexivity|].
  apply (proj2 (proj2 (proj2 C3_topological_evaluation))
           1000%nat Demo.rs (firstn 2 equations) "x" _ (skipn 3 equations)).
  reflexivity.
Defined.

(** ** A graph with a topological order has no directed cycle *)

Lemma get_In {V : Type} (k : string) (d : Dict.t V) (v : V) :
  Dict.get k d = Some v -> In (k, v) d.
Proof.
  induction d as [|[k' v'] d IH]; cbn [Dict.get]; [discriminate|].
  destruct (String.eqb_spec k k') as [->|_].
  - intros [= ->]. now left.
  - intros H. right. now apply IH.
Qed.

Lemma has_edge_In (g : Nx.DiGraph) (u v : string) :
  Nx.has_edge g u v = true -> In (u, v) (Nx.edges g).
Proof.
  unfold Nx.has_edge, Nx.edges, Nx.adj, Dict.mem.
  destruct (Dict.get u (Nx._succ g)) as [a|] eqn:Ha; [|discriminate].
  destruct (Dict.get v a) as [d|] eqn:Hd; [|discriminate]. intros _.
  apply in_flat_map. exists (u, a). split; [now apply get_In|].
  cbn [fst snd]. apply (in_map (fun vd => (u, fst vd)) a (v, d)).
  now apply get_In.
Qed.

Lemma before_trans (order : list string) (u v w : string) :
  before order u v -> before order v w -> before order u w.
Proof.
  unfold before.
  destruct (index_of u order), (index_of v order), (index_of w order);
    try contradiction; lia.
Qed.

Lemma before_irrefl (order : list string) (u : string) : ~ before order u u.
Proof. unfold before. destruct (index_of u order); [lia|tauto]. Qed.

Lemma walk_before (g : Nx.DiGraph) (order : list string) :
  Forall (fun e => before order (fst e) (snd e)) (Nx.edges g) ->
  forall path u w,
    is_walk g (u :: path) = true -> In w path -> before order u w.
Proof.
  intros Hfwd path. induction path as [|v path IH]; intros u w Hw Hin;
    [contradiction|].
  cbn [is_walk] in Hw. apply andb_prop in Hw as [Huv Hrest].
  assert (Hb : before order u v).
  { rewrite Forall_forall in Hfwd.
    exact (Hfwd (u, v) (has_edge_In g u v Huv)). }
  destruct Hin as [<-|Hin]; [exact Hb|].
  eapply before_trans; [exact Hb|]. now apply IH.
Qed.

Lemma topological_acyclic (g : Nx.DiGraph) (order : list string) :
  topological g order -> ~ cyclic g.
Proof.
  intros [_ Hfwd] [path Hc]. destruct path as [|u path]; [discriminate|].
  cbn [directed_cycle app] in Hc.
  apply (before_irrefl order u).
  apply (walk_before g order Hfwd (path ++ [u]) u u Hc).
  apply in_or_app. right. now left.
Qed.

(** The graph of notebook 01 is acyclic. *)
Lemma G_acyclic : ~ cyclic G.
Proof. exact (topological_acyclic G _ order_topological). Qed.

(** ** Notebook 01: cycles in the graph *)

Lemma graph_cell_is : graph_cell = graph_cell_of G_edges.
Proof. reflexivity. Qed.

Lemma run_notebook_of (es : list (string * string * Z)) (N : nat)
  (rs : RandomState) :
  run (notebook_of es (Z.of_nat N)) (mkKernel rs Dict.empty)
  = Ok (tt, final_kernel (add_edges es Nx.new) rs N).
Proof.
  unfold notebook_of. eapply run_seq; [reflexivity|].
  apply (run_simulation (add_edges es Nx.new) N rs).
Qed.

Lemma run_sample_statement (pick : Pd.Picker) (rows : nat) (k : Kernel)
  (df : Pd.DataFrame) :
  Dict.get "df" (user_ns k) = Some (VFrame df) ->
  run (sample_statement pick rows) k
  = if Nat.ltb (Pd.nrows df) rows then Raise ValueError
    else Ok (Pd.take df (fst (pick (Pd.nrows df) rows (random_state k))),
             mkKernel (snd (pick (Pd.nrows df) rows (random_state k)))
                      (user_ns k)).
Proof.
  intros Hdf. unfold sample_statement, run, bind, load. rewrite Hdf.
  cbn [as_frame ret]. unfold Pd.sample.
  destruct (Nat.ltb (Pd.nrows df) rows); [reflexivity|].
  destruct (pick (Pd.nrows df) rows (random_state k)); reflexivity.
Qed.

(** With the edge from [h] back to [c] the graph has a directed cycle, and
    the statements that build the graph and the table still run without
    raising and leave a table of five rows and nine columns. *)
Lemma C4_counterexample :
  cyclic (add_edges Demo.cyclic_edges Nx.new) /\
  exists k df,
    run (notebook_of Demo.cyclic_edges 5) (mkKernel Demo.rs Dict.empty)
    = Ok (tt, k) /\
    Dict.get "df" (user_ns k) = Some (VFrame df) /\
    Pd.shape df = (5%nat, 9%nat).
Proof.
  split.
  - exists ["c"; "x"; "d"; "y"; "h"]. vm_compute. reflexivity.
  - eexists. eexists. split; [|split].
    + vm_compute. reflexivity.
    + reflexivity.
    + reflexivity.
Qed.

(** C4, as the notebook has it.  Adding edges never fails and the
    simulation never looks at the graph: whatever the list of [add_edge]
    calls, cyclic or not, and whatever the sample count, the statements
    that build the graph followed by those that build the table run
    without raising and bind [df] to the table, which does not depend on
    the edges.  The simulation cell as a whole, which ends with
    [df.sample(5)], then runs to its end when there are at least five
    samples, leaving [G] and [df] as they are; with fewer samples the only
    exception is the [ValueError] of that last line, once the table is
    built.  No outcome depends on the edges. *)
Theorem C4_no_cycle_check (pick : Pd.Picker) (es : list (string * string * Z))
  (N : nat) (rs : RandomState) :
  (exists k,
     run (notebook_of es (Z.of_nat N)) (mkKernel rs Dict.empty) = Ok (tt, k) /\
     Dict.get "G" (user_ns k) = Some (VGraph (add_edges es Nx.new)) /\
     Dict.get "df" (user_ns k) = Some (VFrame (table rs N))) /\
  ((5 <= N)%nat ->
   exists shown k,
     run (notebook_displayed_of pick es (Z.of_nat N)) (mkKernel rs Dict.empty)
     = Ok (shown, k) /\
     Dict.get "G" (user_ns k) = Some (VGraph (add_edges es Nx.new)) /\
     Dict.get "df" (user_ns k) = Some (VFrame (table rs N))) /\
  ((N < 5)%nat ->
   run (notebook_displayed_of pick es (Z.of_nat N)) (mkKernel rs Dict.empty)
   = Raise ValueError).
Proof.
  pose proof (run_notebook_of es N rs) as Hrun.
  assert (Hdf : Dict.get "df" (user_ns (final_kernel (add_edges es Nx.new) rs N))
                = Some (VFrame (table rs N))) by reflexivity.
  assert (Hfull : run (notebook_displayed_of pick es (Z.of_nat N))
                      (mkKernel rs Dict.empty)
                  = run (sample_statement pick 5)
                        (final_kernel (add_edges es Nx.new) rs N)).
  { unfold notebook_displayed_of, simulation_cell_displayed.
    unfold notebook_of in Hrun. unfold run, bind in Hrun |- *.
    destruct (graph_cell_of es (mkKernel rs Dict.empty)) as [[[] k0]|e];
      [|discriminate Hrun].
    now rewrite Hrun. }
  rewrite Hfull, (run_sample_statement pick 5 _ _ Hdf).
  change (Pd.nrows (table rs N)) with N.
  split; [|split].
  - exists (final_kernel (add_edges es Nx.new) rs N).
    split; [exact Hrun|]. split; reflexivity.
  - intros HN. apply Nat.ltb_ge in HN. rewrite HN.
    eexists. eexists. split; [reflexivity|]. split; reflexivity.
  - intros HN. apply Nat.ltb_lt in HN. now rewrite HN.
Qed.

(** ** Notebook 01: shape of the table and size of its values *)

Lemma bounded_scale (z : Z) (a : Np.ndarray) (b c : Q) :
  bounded b a -> (inject_Z (Z.abs z) * b <= c)%Q -> bounded c (Np.scale z a).
Proof.
  unfold bounded, Np.scale. intros Ha Hc. apply Forall_map.
  eapply Forall_impl; [|exact Ha]. cbv beta. intros q Hq.
  rewrite Qabs_Qmult.
  change (Qabs (inject_Z z)) with (inject_Z (Z.abs z)).
  assert (0 <= inject_Z (Z.abs z))%Q
    by (change 0%Q with (inject_Z 0); rewrite <- Zle_Qle; apply Z.abs_nonneg).
  apply Qle_trans with (inject_Z (Z.abs z) * b)%Q; [|exact Hc].
  rewrite !(Qmult_comm (inject_Z (Z.abs z))).
  now apply Qmult_le_compat_r.
Qed.

Lemma bounded_zip_add (a1 a2 : Np.ndarray) (b1 b2 c : Q) :
  bounded b1 a1 -> bounded b2 a2 -> (b1 + b2 <= c)%Q ->
  bounded c (Np.zip_add a1 a2).
Proof.
  unfold bounded. intros H1. revert a2.
  induction H1 as [|x a1 Hx H1 IH]; intros a2 H2 Hc; [constructor|].
  destruct H2 as [|y a2 Hy H2]; [constructor|]. cbn [Np.zip_add].
  constructor; [|now apply IH].
  pose proof (Qabs_triangle x y) as Ht. cbv beta in Hx, Hy.
  apply Qle_trans with (Qabs x + Qabs y)%Q; [exact Ht|].
  apply Qle_trans with (b1 + b2)%Q; [|exact Hc].
  now apply Qplus_le_compat.
Qed.

Lemma bounded_draws (rs : RandomState) (N r : nat) (B : Q) :
  (r < 9)%nat ->
  (forall j, (pos rs <= j < pos rs + 9 * N)%nat -> (Qabs (stream rs j) <= B)%Q) ->
  bounded B (draws rs N r).
Proof.
  intros Hr HB. unfold bounded, draws. apply Forall_map, Forall_forall.
  intros j Hj. apply in_seq in Hj. rewrite offset_eq in Hj. apply HB. nia.
Qed.

Section Bounds.

Variables (rs : RandomState) (N : nat) (B : Q).
Hypothesis HB :
  forall j, (pos rs <= j < pos rs + 9 * N)%nat -> (Qabs (stream rs j) <= B)%Q.
Hypothesis B_nonneg : (0 <= B)%Q.

Ltac bound_inner :=
  lazymatch goal with
  | |- bounded _ (Np.zip_add _ _) =>
      eapply bounded_zip_add; [bound_inner | bound_inner | apply Qle_refl]
  | |- bounded _ (Np.scale _ _) =>
      eapply bounded_scale; [bound_inner | apply Qle_refl]
  | |- bounded _ (draws _ _ _) => eapply bounded_draws; [lia | exact HB]
  | |- _ => eassumption
  end.

Ltac bound_col :=
  eapply bounded_zip_add;
  [bound_inner | bound_inner | cbn; unfold inject_Z; lra].

Lemma bounded_col_c : bounded B (col_c rs N).
Proof. unfold col_c. bound_inner. Qed.

Lemma bounded_col_a : bounded B (col_a rs N).
Proof. unfold col_a. bound_inner. Qed.

Lemma bounded_col_x : bounded (8 * B) (col_x rs N).
Proof.
  pose proof bounded_col_c. pose proof bounded_col_a.
  unfold col_x. bound_col.
Qed.

Lemma bounded_col_k : bounded (4 * B) (col_k rs N).
Proof. pose proof bounded_col_a. unfold col_k. bound_col. Qed.

Lemma bounded_col_f : bounded (49 * B) (col_f rs N).
Proof. pose proof bounded_col_x. unfold col_f. bound_col. Qed.

Lemma bounded_col_d : bounded (17 * B) (col_d rs N).
Proof. pose proof bounded_col_x. unfold col_d. bound_col. Qed.

Lemma bounded_col_g : bounded (137 * B) (col_g rs N).
Proof. pose proof bounded_col_d. unfold col_g. bound_col. Qed.

Lemma bounded_col_y : bounded (98 * B) (col_y rs N).
Proof.
  pose proof bounded_col_k. pose proof bounded_col_d.
  unfold col_y. bound_col.
Qed.

Lemma bounded_col_h : bounded (393 * B) (col_h rs N).
Proof. pose proof bounded_col_y. unfold col_h. bound_col. Qed.

Lemma bounded_weaken (b c : Q) (a : Np.ndarray) :
  (b <= c)%Q -> bounded b a -> bounded c a.
Proof.
  intros Hbc. apply Forall_impl. intros q Hq. now apply Qle_trans with b.
Qed.

Lemma bounded_cols (name : string) (col : Np.ndarray) :
  Dict.get name (cols rs N) = Some col -> bounded (393 * B) col.
Proof.
  unfold cols. cbn [Dict.get].
  repeat (destruct (String.eqb name _);
          [ intros [= <-];
            first
              [ exact bounded_col_h
              | eapply bounded_weaken;
                [| first [ exact bounded_col_c | exact bounded_col_a
                         | exact bounded_col_x | exact bounded_col_k
                         | exact bounded_col_f | exact bounded_col_d
                         | exact bounded_col_g | exact bounded_col_y ] ];
                lra ]
          | ]).
  discriminate.
Qed.

End Bounds.

Lemma fold_max_bound (l : list Q) (q : Q) :
  In q l -> (Qabs q <= fold_right (fun q m => Qmax (Qabs q) m) 0 l)%Q.
Proof.
  induction l as [|x l IH]; [contradiction|]. cbn [fold_right].
  intros [->|Hin].
  - apply Q.le_max_l.
  - eapply Qle_trans; [exact (IH Hin)|]. apply Q.le_max_r.
Qed.

Lemma magnitude_bound (rs : RandomState) (N j : nat) :
  (pos rs <= j < pos rs + 9 * N)%nat ->
  (Qabs (stream rs j) <= magnitude rs N)%Q.
Proof.
  intros Hj. unfold magnitude. apply fold_max_bound.
  apply in_map, in_seq. exact Hj.
Qed.

Lemma magnitude_nonneg (rs : RandomState) (N : nat) : (0 <= magnitude rs N)%Q.
Proof.
  unfold magnitude.
  induction (map (stream rs) (seq (pos rs) (9 * N))) as [|x l IH];
    cbn [fold_right]; [apply Qle_refl|].
  eapply Qle_trans; [exact IH|]. apply Q.le_max_r.
Qed.

(** The graph with the single edge from [p] to [q] has no cycle and two
    nodes; built in place of the notebook's graph, it is bound to [G] when
    the simulation runs, and the table has the nine columns of the
    equations all the same, none of them for [p] or [q]. *)
Lemma C6_counterexample :
  ~ cyclic Demo.chain /\
  Nx.nodes Demo.chain = ["p"; "q"] /\
  exists k df,
    run (notebook_of Demo.chain_edges 5) (mkKernel Demo.rs Dict.empty)
    = Ok (tt, k) /\
    Dict.get "G" (user_ns k) = Some (VGraph Demo.chain) /\
    Dict.get "df" (user_ns k) = Some (VFrame df) /\
    Pd.shape df = (5%nat, 9%nat) /\
    Dict.get "p" (Pd.columns df) = None /\
    Dict.get "q" (Pd.columns df) = None /\
    ~ Permutation (Dict.keys (Pd.columns df)) (Nx.nodes Demo.chain).
Proof.
  split.
  { apply (topological_acyclic Demo.chain ["p"; "q"]). split.
    - apply Permutation_refl.
    - repeat constructor; cbn; lia. }
  split; [reflexivity|].
  exists (final_kernel Demo.chain Demo.rs 5), (table Demo.rs 5).
  split; [exact (run_notebook_of Demo.chain_edges 5 Demo.rs)|].
  split; [reflexivity|]. split; [reflexivity|]. split; [reflexivity|].
  split; [reflexivity|]. split; [reflexivity|].
  intros HP. apply Permutation_length in HP. discriminate HP.
Qed.

(** C6, as the notebook has it.  For every sample count [N > 0], and
    whatever graph is bound to [G], the table the simulation cell of
    notebook 01 builds has [N] rows and nine columns, named c, a, x, k, f,
    d, g, y, h: one for each node of the notebook's own graph, since the
    equations are written out by hand; every column holds [N] values; and
    no value exceeds 393 times the largest magnitude among the draws the
    cell consumes. *)
Theorem C6_table_shape (g : Nx.DiGraph) (N : nat) (rs : RandomState) :
  (0 < N)%nat ->
  exists k df,
    run (simulation_cell (Z.of_nat N)) (kernel_with g rs) = Ok (tt, k) /\
    Dict.get "df" (user_ns k) = Some (VFrame df) /\
    Pd.shape df = (N, 9%nat) /\
    Dict.keys (Pd.columns df) = ["c"; "a"; "x"; "k"; "f"; "d"; "g"; "y"; "h"] /\
    NoDup (Dict.keys (Pd.columns df)) /\
    Permutation (Dict.keys (Pd.columns df)) (Nx.nodes G) /\
    (forall name col,
       Dict.get name (Pd.columns df) = Some col ->
       length col = N /\
       forall q, In q col -> (Qabs q <= 393 * magnitude rs N)%Q).
Proof.
  intros _.
  exists (final_kernel g rs N), (table rs N).
  split; [apply run_simulation|]. split; [reflexivity|].
  split; [reflexivity|]. split; [reflexivity|]. split.
  { cbn. repeat constructor; cbn; intuition discriminate. }
  split; [exact (proj1 order_topological)|].
  intros name col Hget. split.
  - exact (length_cols N rs name col Hget).
  - intros q Hq.
    pose proof (bounded_cols rs N (magnitude rs N) (magnitude_bound rs N)
                  (magnitude_nonneg rs N) name col Hget) as Hb.
    unfold bounded in Hb. rewrite Forall_forall in Hb. now apply Hb.
Qed.

(** C6 at the notebook's sample count, with the generator of the examples
    and the graph with the single edge from [p] to [q]. *)
Lemma C6_table_shape_witness :
  (0 < 1000)%nat /\
  exists k df,
    run (simulation_cell (Z.of_nat 1000)) (kernel_with Demo.chain Demo.rs)
    = Ok (tt, k) /\
    Dict.get "df" (user_ns k) = Some (VFrame df) /\
    Pd.shape df = (1000%nat, 9%nat) /\
    Dict.keys (Pd.columns df) = ["c"; "a"; "x"; "k"; "f"; "d"; "g"; "y"; "h"] /\
    NoDup (Dict.keys (Pd.columns df)) /\
    Permutation (Dict.keys (Pd.columns df)) (Nx.nodes G) /\
    (forall name col,
       Dict.get name (Pd.columns df) = Some col ->
       length col = 1000%nat /\
       forall q, In q col -> (Qabs q <= 393 * magnitude Demo.rs 1000)%Q).
Proof.
  split; [lia|]. apply (C6_table_shape Demo.chain 1000 Demo.rs). lia.
Defined.

(** ** Notebook 01: what a run depends on *)

Lemma map_seq_ext (f g : nat -> Q) (a b n : nat) :
  (forall i, (i < n)%nat -> f (a + i)%nat = g (b + i)%nat) ->
  map f (seq a n) = map g (seq b n).
Proof.
  revert a b; induction n as [|n IH]; intros a b H; cbn [seq map]; [reflexivity|].
  f_equal.
  - specialize (H 0%nat ltac:(lia)). now rewrite !Nat.add_0_r in H.
  - apply IH. intros i Hi. specialize (H (S i) ltac:(lia)).
    now rewrite !Nat.add_succ_r in H.
Qed.

Lemma draws_ext (rs rs' : RandomState) (N r : nat) :
  (forall j, (j < 9 * N)%nat ->
             stream rs (pos rs + j)%nat = stream rs' (pos rs' + j)%nat) ->
  (r < 9)%nat ->
  draws rs N r = draws rs' N r.
Proof.
  intros H Hr. unfold draws. apply map_seq_ext. intros i Hi.
  rewrite !offset_eq, <- !Nat.add_assoc. apply H. nia.
Qed.

Lemma table_ext (rs rs' : RandomState) (N : nat) :
  (forall j, (j < 9 * N)%nat ->
             stream rs (pos rs + j)%nat = stream rs' (pos rs' + j)%nat) ->
  table rs N = table rs' N.
Proof.
  intros H. unfold table, cols.
  unfold col_h, col_y, col_g, col_d, col_f, col_k, col_x, col_a, col_c.
  rewrite !(draws_ext rs rs' N _ H) by lia. reflexivity.
Qed.


(** ** Least squares: sums over the rows *)

Module OlsFacts.

Import Ols.

Local Open Scope Q_scope.

Lemma count_nil : count [] == 0.
Proof. reflexivity. Qed.

Lemma count_cons (x : Q) (a : Np.ndarray) : count (x :: a) == 1 + count a.
Proof.
  unfold count. cbn [length]. rewrite Nat2Z.inj_succ, <- Z.add_1_l.
  now rewrite inject_Z_plus.
Qed.

Lemma count_nonneg (a : Np.ndarray) : 0 <= count a.
Proof.
  unfold count. change 0 with (inject_Z 0). rewrite <- Zle_Qle. lia.
Qed.

Lemma sum_cons (x : Q) (a : Np.ndarray) : sum (x :: a) = x + sum a.
Proof. reflexivity. Qed.

Lemma sum_nil : sum [] = 0.
Proof. reflexivity. Qed.

Lemma square_nonneg (q : Q) : 0 <= q * q.
Proof. nra. Qed.

Lemma square_pos (q : Q) : ~ q == 0 -> 0 < q * q.
Proof.
  intros H. destruct (Qlt_le_dec 0 q) as [Hp|Hn]; [nra|].
  apply Qle_lteq in Hn. destruct Hn as [Hn|E]; [nra|contradiction].
Qed.

Lemma dot_self_nonneg (a : Np.ndarray) : 0 <= dot a a.
Proof.
  induction a as [|x a IH]; cbn [dot]; [lra|].
  pose proof (square_nonneg x). lra.
Qed.

(** The residual sum of squares as a polynomial in the coefficients. *)
Lemma rss_expand (xs ys : Np.ndarray) (a b : Q) :
  length xs = length ys ->
  rss xs ys a b ==
  dot ys ys - 2 * a * sum ys - 2 * b * dot xs ys
  + count xs * a * a + 2 * a * b * sum xs + b * b * dot xs xs.
Proof.
  revert ys; induction xs as [|x xs IH]; intros [|y ys] H;
    try discriminate; cbn [rss dot]; rewrite ?sum_cons, ?sum_nil.
  - rewrite count_nil. ring.
  - rewrite count_cons, IH by (cbn in H; lia). ring.
Qed.

Lemma rss_shift (xs ys : Np.ndarray) (a b u v : Q) :
  length xs = length ys ->
  rss xs ys (a + u) (b + v) ==
  rss xs ys a b - 2 * u * normal1 xs ys a b - 2 * v * normal2 xs ys a b
  + (count xs * u * u + 2 * u * v * sum xs + v * v * dot xs xs).
Proof.
  intros H. rewrite !rss_expand by exact H. unfold normal1, normal2. ring.
Qed.

(** A quadratic [A t^2 - 2 r t] that is never negative has [r = 0]. *)
Lemma quadratic_min (A r : Q) :
  0 <= A -> (forall t, 0 <= A * t * t - 2 * r * t) -> r == 0.
Proof.
  intros HA H.
  destruct (Qeq_dec A 0) as [HA0|HA0].
  - specialize (H r). rewrite HA0 in H. nra.
  - assert (HApos : 0 < A).
    { apply Qle_lteq in HA. destruct HA as [?|E]; [assumption|].
      exfalso. apply HA0. symmetry. exact E. }
    specialize (H (r / A)).
    assert (E : (A * (r / A) * (r / A) - 2 * r * (r / A)) * A == - (r * r))
      by (field; exact HA0).
    assert (H' : 0 <= (A * (r / A) * (r / A) - 2 * r * (r / A)) * A)
      by (apply Qmult_le_0_compat; [exact H|apply Qlt_le_weak; exact HApos]).
    rewrite E in H'. nra.
Qed.


Lemma least_squares_normal (xs ys : Np.ndarray) (a b : Q) :
  length xs = length ys ->
  least_squares xs ys a b ->
  normal1 xs ys a b == 0 /\ normal2 xs ys a b == 0.
Proof.
  intros Hlen Hmin. split.
  - apply (quadratic_min (count xs)); [apply count_nonneg|].
    intros t. specialize (Hmin (a + t) b).
    rewrite !rss_expand in Hmin by exact Hlen. unfold normal1. nra.
  - apply (quadratic_min (dot xs xs)); [apply dot_self_nonneg|].
    intros t. specialize (Hmin a (b + t)).
    rewrite !rss_expand in Hmin by exact Hlen. unfold normal2. nra.
Qed.

(** The slope is fixed by the normal equations. *)
Lemma normal_slope (xs ys : Np.ndarray) (a b : Q) :
  normal1 xs ys a b == 0 -> normal2 xs ys a b == 0 ->
  b * det xs == count xs * dot xs ys - sum xs * sum ys.
Proof.
  intros H1 H2.
  assert (E : b * det xs - (count xs * dot xs ys - sum xs * sum ys)
              == sum xs * normal1 xs ys a b - count xs * normal2 xs ys a b)
    by (unfold det, normal1, normal2; ring).
  rewrite H1, H2 in E. lra.
Qed.

Lemma dev_expand (x : Q) (a : Np.ndarray) :
  dev x a == count a * x * x - 2 * x * sum a + dot a a.
Proof.
  induction a as [|y a IH]; cbn [dev dot]; rewrite ?sum_cons, ?sum_nil.
  - rewrite count_nil. ring.
  - rewrite count_cons, IH. ring.
Qed.

Lemma dev_nonneg (x : Q) (a : Np.ndarray) : 0 <= dev x a.
Proof.
  induction a as [|y a IH]; cbn [dev]; [lra|].
  pose proof (square_nonneg (x - y)). lra.
Qed.

Lemma dev_pos (x : Q) (a : Np.ndarray) :
  (exists u, In u a /\ ~ u == x) -> 0 < dev x a.
Proof.
  intros (u & Hin & Hne). induction a as [|y a IH]; [contradiction|].
  cbn [dev]. pose proof (dev_nonneg x a). destruct Hin as [->|Hin].
  - assert (Hd : ~ x - u == 0) by (intros E; apply Hne; lra).
    pose proof (square_pos _ Hd). lra.
  - specialize (IH Hin). pose proof (square_nonneg (x - y)). lra.
Qed.

Lemma det_cons (x : Q) (a : Np.ndarray) : det (x :: a) == det a + dev x a.
Proof.
  unfold det. cbn [dot]. rewrite sum_cons, count_cons, dev_expand. ring.
Qed.

Lemma det_nonneg (a : Np.ndarray) : 0 <= det a.
Proof.
  induction a as [|x a IH].
  - unfold det. cbn [dot]. rewrite sum_nil, count_nil. lra.
  - rewrite det_cons. pose proof (dev_nonneg x a). lra.
Qed.

Lemma det_pos (a : Np.ndarray) : nonconstant a -> 0 < det a.
Proof.
  induction a as [|x a IH]; intros (u & v & Hu & Hv & Hne).
  - contradiction.
  - rewrite det_cons. pose proof (det_nonneg a). pose proof (dev_nonneg x a).
    destruct Hu as [<-|Hu], Hv as [<-|Hv].
    + exfalso. apply Hne. reflexivity.
    + assert (0 < dev x a) by (apply dev_pos; exists v; split;
                               [assumption|intros E; apply Hne; now symmetry]).
      lra.
    + assert (0 < dev x a) by (apply dev_pos; exists u; split; assumption).
      lra.
    + assert (0 < det a) by (apply IH; exists u, v; auto). lra.
Qed.


(** *** Rescaling the predictor *)

Lemma sum_mul_scalar (a : Np.ndarray) (s : Q) :
  sum (Np.mul_scalar a s) == s * sum a.
Proof.
  induction a as [|x a IH]; cbn [Np.mul_scalar map];
    rewrite ?sum_cons, ?sum_nil; [ring|].
  fold (Np.mul_scalar a s). rewrite IH. ring.
Qed.

Lemma dot_mul_scalar_l (a b : Np.ndarray) (s : Q) :
  dot (Np.mul_scalar a s) b == s * dot a b.
Proof.
  revert b; induction a as [|x a IH]; intros [|y b];
    cbn [Np.mul_scalar map dot]; try ring.
  fold (Np.mul_scalar a s). rewrite IH. ring.
Qed.

Lemma dot_mul_scalar_self (a : Np.ndarray) (s : Q) :
  dot (Np.mul_scalar a s) (Np.mul_scalar a s) == s * s * dot a a.
Proof.
  induction a as [|x a IH]; cbn [Np.mul_scalar map dot]; [ring|].
  fold (Np.mul_scalar a s). rewrite IH. ring.
Qed.

Lemma count_mul_scalar (a : Np.ndarray) (s : Q) :
  count (Np.mul_scalar a s) = count a.
Proof. unfold count. now rewrite length_mul_scalar. Qed.

Lemma det_mul_scalar (a : Np.ndarray) (s : Q) :
  det (Np.mul_scalar a s) == s * s * det a.
Proof.
  unfold det.
  rewrite count_mul_scalar, dot_mul_scalar_self, sum_mul_scalar. ring.
Qed.

Lemma nonconstant_mul_scalar (a : Np.ndarray) (s : Q) :
  ~ s == 0 -> nonconstant a -> nonconstant (Np.mul_scalar a s).
Proof.
  intros Hs (u & v & Hu & Hv & Hne).
  exists (u * s), (v * s). unfold Np.mul_scalar.
  split; [apply (in_map (fun q => q * s)); exact Hu|].
  split; [apply (in_map (fun q => q * s)); exact Hv|].
  intros E. apply Hne. apply Qmult_inj_r in E; assumption.
Qed.

(** The slope on a rescaled predictor is the slope on the predictor
    divided by the scale. *)
Lemma rescaled_slope (xs ys : Np.ndarray) (s a b a' b' : Q) :
  length xs = length ys ->
  nonconstant xs -> ~ s == 0 ->
  least_squares xs ys a b ->
  least_squares (Np.mul_scalar xs s) ys a' b' ->
  b' == b / s.
Proof.
  intros Hlen Hnc Hs Hls Hls'.
  destruct (least_squares_normal xs ys a b Hlen Hls) as [H1 H2].
  destruct (least_squares_normal (Np.mul_scalar xs s) ys a' b') as [H1' H2'];
    [now rewrite length_mul_scalar|exact Hls'|].
  pose proof (normal_slope _ _ _ _ H1 H2) as E.
  pose proof (normal_slope _ _ _ _ H1' H2') as E'.
  rewrite det_mul_scalar, count_mul_scalar, dot_mul_scalar_l, sum_mul_scalar
    in E'.
  pose proof (det_pos xs Hnc) as Hd.
  assert (Hd0 : ~ det xs == 0) by lra.
  assert (Es : s * (b * det xs)
               == s * (count xs * dot xs ys - sum xs * sum ys))
    by (rewrite E; reflexivity).
  assert (Hb : b' * s * (s * det xs) == b * (s * det xs)) by lra.
  assert (Hsd : ~ s * det xs == 0).
  { intros Z. apply Qmult_integral in Z. tauto. }
  apply Qmult_inj_r in Hb; [|exact Hsd].
  apply Qmult_inj_r with s; [exact Hs|]. rewrite Hb. field. exact Hs.
Qed.


(** *** The closed form meets the contract *)

Lemma square_form_nonneg (xs : Np.ndarray) (u v : Q) :
  0 <= count xs * u * u + 2 * u * v * sum xs + v * v * dot xs xs.
Proof.
  induction xs as [|x xs IH]; cbn [dot]; rewrite ?sum_cons, ?sum_nil.
  - rewrite count_nil. lra.
  - rewrite count_cons. pose proof (square_nonneg (u + v * x)). lra.
Qed.

Lemma count_pos (xs : Np.ndarray) : xs <> [] -> 0 < count xs.
Proof.
  destruct xs as [|x xs]; [congruence|]. intros _.
  rewrite count_cons. pose proof (count_nonneg xs). lra.
Qed.

Lemma normal_least_squares (xs ys : Np.ndarray) (a b : Q) :
  length xs = length ys ->
  normal1 xs ys a b == 0 -> normal2 xs ys a b == 0 ->
  least_squares xs ys a b.
Proof.
  intros Hlen H1 H2 a' b'. rewrite !rss_expand by exact Hlen.
  pose proof (square_form_nonneg xs (a' - a) (b' - b)) as Hsq.
  assert (E1 : (a' - a) * normal1 xs ys a b == 0) by (rewrite H1; ring).
  assert (E2 : (b' - b) * normal2 xs ys a b == 0) by (rewrite H2; ring).
  unfold normal1 in E1. unfold normal2 in E2. lra.
Qed.

Lemma closed_form_least_squares : least_squares_estimator closed_form.
Proof.
  intros df resp pred xs ys Hwf Hx Hy Hnc.
  pose proof (det_pos xs Hnc) as Hd.
  assert (Hn : 0 < count xs).
  { apply count_pos. destruct Hnc as (u & _ & Hu & _). now destruct xs. }
  assert (Hlen : length xs = length ys)
    by (rewrite (Hwf _ _ Hx), (Hwf _ _ Hy); reflexivity).
  unfold closed_form. cbn [rhs lhs]. rewrite Hy, Hx.
  destruct (Qeq_bool (det xs) 0) eqn:E; [apply Qeq_bool_eq in E; lra|].
  do 2 eexists. split; [reflexivity|].
  apply normal_least_squares; [exact Hlen| |].
  - unfold normal1. field. lra.
  - unfold normal2, det in *. field. split; lra.
Qed.

(** *** A constant predictor: the minimiser is not unique *)

(** When the predictor takes the same value [c] in every row, moving
    along [(a + c t, b - t)] leaves every residual unchanged: if there is
    a least-squares solution there are infinitely many.  The contract says
    nothing of what an estimator returns then. *)
Lemma rss_constant_predictor (xs ys : Np.ndarray) (c a b t : Q) :
  (forall x, In x xs -> x == c) ->
  rss xs ys (a + c * t) (b - t) == rss xs ys a b.
Proof.
  revert ys; induction xs as [|x xs IH]; intros [|y ys] Hc; cbn [rss];
    try reflexivity.
  rewrite IH by (intros x' Hx'; apply Hc; now right).
  assert (Hx : x == c) by (apply Hc; now left).
  rewrite Hx. ring.
Qed.

Lemma least_squares_constant_predictor (xs ys : Np.ndarray) (c a b t : Q) :
  (forall x, In x xs -> x == c) ->
  least_squares xs ys a b -> least_squares xs ys (a + c * t) (b - t).
Proof.
  intros Hc Hls a' b'. rewrite rss_constant_predictor by exact Hc. apply Hls.
Qed.

End OlsFacts.

(** ** Notebook 02: running the regression cells *)

Import Notebook02.

Lemma demo_kernel02_df :
  Dict.get "df" (user_ns Demo.kernel02) = Some (VFrame Demo.df02).
Proof. vm_compute. reflexivity. Qed.

Lemma run_bind_inv {A B : Type} (c : Cell A) (f : A -> Cell B)
  (k k' : Kernel) (b : B) :
  run (bind c f) k = Ok (b, k') ->
  exists a k1, run c k = Ok (a, k1) /\ run (f a) k1 = Ok (b, k').
Proof.
  unfold run, bind. destruct (c k) as [[a k1]|e]; [|discriminate].
  intros H. now exists a, k1.
Qed.

Lemma run_fit_statements (fit : Estimator) (f : Formula) (k : Kernel) :
  run (fit_statements fit f) k
  = match Dict.get "df" (user_ns k) with
    | Some (VFrame df) =>
        match fit df f with
        | Ok p =>
            Ok (tt, mkKernel (random_state k)
                      (Dict.set "results" (VResults (mkOLSResults p))
                         (Dict.set "model" (VModel (mkOLSModel f df))
                            (user_ns k))))
        | Raise e => Raise e
        end
    | Some _ => Raise TypeError
    | None => Raise (NameError "df")
    end.
Proof.
  unfold fit_statements, run, bind, load.
  destruct (Dict.get "df" (user_ns k)) as [v|]; [|reflexivity].
  destruct v; try reflexivity.
  cbn [as_frame ret store user_ns random_state].
  rewrite (@get_set_same value). cbn [as_model ret lift data formula].
  destruct (fit df f) as [p|e]; reflexivity.
Qed.

Lemma run_results_params (k : Kernel) :
  run results_params k
  = match Dict.get "results" (user_ns k) with
    | Some (VResults r) => Ok (params r, k)
    | Some _ => Raise TypeError
    | None => Raise (NameError "results")
    end.
Proof.
  unfold results_params, run, bind, load.
  destruct (Dict.get "results" (user_ns k)) as [v|]; [|reflexivity].
  destruct v; reflexivity.
Qed.

Lemma run_results_param (name : string) (k : Kernel) :
  run (results_param name) k
  = match Dict.get "results" (user_ns k) with
    | Some (VResults r) =>
        match Dict.get name (params r) with
        | Some q => Ok (q, k)
        | None => Raise (KeyError name)
        end
    | Some _ => Raise TypeError
    | None => Raise (NameError "results")
    end.
Proof.
  unfold results_param. unfold run at 1. unfold bind.
  change (results_params k) with (run results_params k).
  rewrite run_results_params.
  destruct (Dict.get "results" (user_ns k)) as [v|]; [|reflexivity].
  destruct v; try reflexivity.
  unfold lift. destruct (Dict.get name (params r)); reflexivity.
Qed.

Lemma run_derive_cell (k : Kernel) :
  run derive_cell k
  = match Dict.get "df" (user_ns k) with
    | Some (VFrame df) =>
        match Pd.getitem df "i" with
        | Ok col =>
            match run (results_param "i") k with
            | Ok (s, _) =>
                match Pd.setitem df "δi" (Np.mul_scalar col s) with
                | Ok df' =>
                    Ok (tt, mkKernel (random_state k)
                              (Dict.set "df" (VFrame df') (user_ns k)))
                | Raise e => Raise e
                end
            | Raise e => Raise e
            end
        | Raise e => Raise e
        end
    | Some _ => Raise TypeError
    | None => Raise (NameError "df")
    end.
Proof.
  unfold derive_cell. unfold run at 1. unfold bind, load.
  destruct (Dict.get "df" (user_ns k)) as [v|] eqn:Hdf; [|reflexivity].
  destruct v; try reflexivity. cbn [as_frame ret]. unfold lift at 1.
  destruct (Pd.getitem df "i") as [col|e]; [|reflexivity].
  change (results_param "i" k) with (run (results_param "i") k).
  rewrite run_results_param.
  destruct (Dict.get "results" (user_ns k)) as [v|]; [|reflexivity].
  destruct v; try reflexivity.
  destruct (Dict.get "i" (params r)) as [s|]; [|reflexivity].
  rewrite Hdf. cbn [as_frame ret]. unfold lift.
  destruct (Pd.setitem df "δi" (Np.mul_scalar col s)); reflexivity.
Qed.

Lemma run_regression_cell (fit : Estimator) (f : Formula) (k : Kernel) :
  run (regression_cell fit f) k
  = match Dict.get "df" (user_ns k) with
    | Some (VFrame df) =>
        match fit df f with
        | Ok p =>
            Ok (p, mkKernel (random_state k)
                     (Dict.set "results" (VResults (mkOLSResults p))
                        (Dict.set "model" (VModel (mkOLSModel f df))
                           (user_ns k))))
        | Raise e => Raise e
        end
    | Some _ => Raise TypeError
    | None => Raise (NameError "df")
    end.
Proof.
  unfold regression_cell. unfold run at 1. unfold bind.
  change (fit_statements fit f k) with (run (fit_statements fit f) k).
  rewrite run_fit_statements.
  destruct (Dict.get "df" (user_ns k)) as [v|]; [|reflexivity].
  destruct v; try reflexivity.
  destruct (fit df f) as [p|e]; [|reflexivity].
  change (results_params ?k') with (run results_params k').
  rewrite run_results_params. cbn [user_ns].
  rewrite (@get_set_same value). reflexivity.
Qed.

Section TwoStage.

Variables (fit : Estimator) (k : Kernel) (df : Pd.DataFrame)
  (icol : Np.ndarray) (p1 : Params) (dhat : Q).

Hypothesis Hdf : Dict.get "df" (user_ns k) = Some (VFrame df).
Hypothesis Hi : Dict.get "i" (Pd.columns df) = Some icol.
Hypothesis Hlen : length icol = Pd.nrows df.
Hypothesis Hfit1 : fit df (mkFormula "x" ["i"]) = Ok p1.
Hypothesis Hdhat : Dict.get "i" p1 = Some dhat.

Local Abbreviation after_first := (Closed02.after_first k df p1).
Local Abbreviation after_derive := (Closed02.after_derive k df icol p1 dhat).
Local Abbreviation after_second := (Closed02.after_second k df icol p1 dhat).
Local Abbreviation derived_frame := Closed02.derived_frame.

Lemma run_first_stage : run (first_stage_cell fit) k = Ok (dhat, after_first).
Proof.
  unfold first_stage_cell. unfold run at 1. unfold bind.
  change (fit_statements fit ?f k) with (run (fit_statements fit f) k).
  rewrite run_fit_statements, Hdf, Hfit1.
  change (results_param "i" ?k') with (run (results_param "i") k').
  rewrite run_results_param. cbn [user_ns].
  rewrite (@get_set_same value). cbn [params]. rewrite Hdhat. reflexivity.
Qed.

Lemma after_first_df : Dict.get "df" (user_ns after_first) = Some (VFrame df).
Proof.
  unfold Closed02.after_first. cbn [user_ns].
  rewrite !(@get_set_other value) by discriminate. exact Hdf.
Qed.

Lemma run_derive : run derive_cell after_first = Ok (tt, after_derive).
Proof.
  rewrite run_derive_cell, after_first_df.
  unfold Pd.getitem. rewrite Hi. rewrite run_results_param.
  unfold Closed02.after_first at 1. cbn [user_ns].
  rewrite (@get_set_same value). cbn [params]. rewrite Hdhat.
  unfold Pd.setitem. rewrite length_mul_scalar, Hlen, Nat.eqb_refl.
  reflexivity.
Qed.

Lemma run_second_stage :
  run (second_stage_cell fit) after_derive
  = match fit (derived_frame df icol dhat) (mkFormula "y" ["δi"]) with
    | Ok p2 => Ok (p2, after_second p2)
    | Raise e => Raise e
    end.
Proof.
  unfold second_stage_cell. rewrite run_regression_cell.
  unfold Closed02.after_derive at 1. cbn [user_ns].
  rewrite (@get_set_same value).
  reflexivity.
Qed.

Lemma run_two_stage :
  run (two_stage fit) k
  = match fit (derived_frame df icol dhat) (mkFormula "y" ["δi"]) with
    | Ok p2 => Ok (p2, after_second p2)
    | Raise e => Raise e
    end.
Proof.
  unfold two_stage.
  eapply run_seq; [exact run_first_stage|].
  eapply run_seq; [exact run_derive|].
  exact run_second_stage.
Qed.

End TwoStage.

(** ** Notebook 02: the two-stage procedure, step by step *)

Lemma nth_mul_scalar (a : Np.ndarray) (s : Q) (r : nat) :
  (r < length a)%nat ->
  nth r (Np.mul_scalar a s) 0%Q = (nth r a 0 * s)%Q.
Proof.
  intros H. unfold Np.mul_scalar.
  rewrite (nth_indep _ 0%Q (0 * s)%Q) by (rewrite length_map; exact H).
  apply (map_nth (fun v => v * s)%Q).
Qed.

Lemma setitem_derived (df : Pd.DataFrame) (icol : Np.ndarray) (s : Q) :
  length icol = Pd.nrows df ->
  Pd.setitem df "δi" (Np.mul_scalar icol s)
  = Ok (Closed02.derived_frame df icol s).
Proof.
  intros H. unfold Pd.setitem.
  now rewrite length_mul_scalar, H, Nat.eqb_refl.
Qed.

Lemma after_derive_df (k : Kernel) (df : Pd.DataFrame) (icol : Np.ndarray)
  (p1 : Params) (dhat : Q) :
  Dict.get "df" (user_ns (Closed02.after_derive k df icol p1 dhat))
  = Some (VFrame (Closed02.derived_frame df icol dhat)).
Proof. unfold Closed02.after_derive. cbn [user_ns]. apply get_set_same. Qed.

Lemma after_second_df (k : Kernel) (df : Pd.DataFrame) (icol : Np.ndarray)
  (p1 p2 : Params) (dhat : Q) :
  Dict.get "df" (user_ns (Closed02.after_second k df icol p1 dhat p2))
  = Some (VFrame (Closed02.derived_frame df icol dhat)).
Proof.
  unfold Closed02.after_second. cbn [user_ns].
  rewrite !(@get_set_other value) by discriminate. apply after_derive_df.
Qed.

(** C2.  From a kernel in which [df] is bound to a table with a column
    [i], when the regression of [x] on [i] returns the slope [dhat]: the
    first cell displays [dhat]; the second cell gives the table a column
    ['δi'] whose value in every row is [dhat] times that row's [i]; and what
    the three cells display in the end is what the regression of [y] on
    ['δi'] returns on that table (its coefficients, or its exception). *)
Theorem C2_two_stage_steps (fit : Estimator) (k : Kernel) (df : Pd.DataFrame)
  (icol : Np.ndarray) (p1 : Params) (dhat : Q) :
  Dict.get "df" (user_ns k) = Some (VFrame df) ->
  Dict.get "i" (Pd.columns df) = Some icol ->
  length icol = Pd.nrows df ->
  fit df (mkFormula "x" ["i"]) = Ok p1 ->
  Dict.get "i" p1 = Some dhat ->
  exists (dcol : Np.ndarray) (df' : Pd.DataFrame) (k2 : Kernel),
    outcome (run (first_stage_cell fit) k) = Ok dhat /\
    run (first_stage_cell fit ;; derive_cell) k = Ok (tt, k2) /\
    Dict.get "df" (user_ns k2) = Some (VFrame df') /\
    Pd.setitem df "δi" dcol = Ok df' /\
    Dict.get "δi" (Pd.columns df') = Some dcol /\
    length dcol = Pd.nrows df /\
    (forall r, (r < Pd.nrows df)%nat ->
       (nth r dcol 0 == dhat * nth r icol 0)%Q) /\
    outcome (run (two_stage fit) k) = fit df' (mkFormula "y" ["δi"]) /\
    (forall p2 b2,
       fit df' (mkFormula "y" ["δi"]) = Ok p2 ->
       Dict.get "δi" p2 = Some b2 ->
       exists k3,
         run (two_stage fit) k = Ok (p2, k3) /\
         run (results_param "δi") k3 = Ok (b2, k3)).
Proof.
  intros Hdf Hi Hlen Hfit1 Hdhat.
  exists (Np.mul_scalar icol dhat), (Closed02.derived_frame df icol dhat),
         (Closed02.after_derive k df icol p1 dhat).
  split.
  { rewrite (run_first_stage fit k df p1 dhat Hdf Hfit1 Hdhat). reflexivity. }
  split.
  { eapply run_seq;
      [exact (run_first_stage fit k df p1 dhat Hdf Hfit1 Hdhat)|].
    exact (run_derive k df icol p1 dhat Hdf Hi Hlen Hdhat). }
  split; [apply after_derive_df|].
  split; [now apply setitem_derived|].
  split; [apply get_set_same|].
  split; [now rewrite length_mul_scalar|].
  split.
  { intros r Hr. rewrite nth_mul_scalar by lia. apply Qmult_comm. }
  split.
  { rewrite (run_two_stage fit k df icol p1 dhat Hdf Hi Hlen Hfit1 Hdhat).
    destruct (fit (Closed02.derived_frame df icol dhat) _); reflexivity. }
  intros p2 b2 Hfit2 Hb2.
  exists (Closed02.after_second k df icol p1 dhat p2). split.
  - rewrite (run_two_stage fit k df icol p1 dhat Hdf Hi Hlen Hfit1 Hdhat).
    now rewrite Hfit2.
  - rewrite run_results_param. unfold Closed02.after_second at 1.
    cbn [user_ns]. rewrite (@get_set_same value). cbn [params].
    now rewrite Hb2.
Qed.

Lemma demo_first_stage :
  Ols.closed_form Demo.df02 (mkFormula "x" ["i"]) = Ok Demo.first_stage02.
Proof. vm_compute. reflexivity. Qed.

(** C2 on the five-row table, with the closed-form estimator. *)
Lemma C2_two_stage_steps_witness :
  Dict.get "df" (user_ns Demo.kernel02) = Some (VFrame Demo.df02) /\
  Dict.get "i" (Pd.columns Demo.df02) = Some [8; 12; -12; -8; -4]%Q /\
  length [8; 12; -12; -8; -4]%Q = Pd.nrows Demo.df02 /\
  Ols.closed_form Demo.df02 (mkFormula "x" ["i"]) = Ok Demo.first_stage02 /\
  Dict.get "i" Demo.first_stage02 = Some Demo.dhat02 /\
  exists (dcol : Np.ndarray) (df' : Pd.DataFrame) (k2 : Kernel),
    outcome (run (first_stage_cell Ols.closed_form) Demo.kernel02)
    = Ok Demo.dhat02 /\
    run (first_stage_cell Ols.closed_form ;; derive_cell) Demo.kernel02
    = Ok (tt, k2) /\
    Dict.get "df" (user_ns k2) = Some (VFrame df') /\
    Pd.setitem Demo.df02 "δi" dcol = Ok df' /\
    Dict.get "δi" (Pd.columns df') = Some dcol /\
    length dcol = Pd.nrows Demo.df02 /\
    (forall r, (r < Pd.nrows Demo.df02)%nat ->
       (nth r dcol 0 == Demo.dhat02 * nth r [8; 12; -12; -8; -4] 0)%Q) /\
    outcome (run (two_stage Ols.closed_form) Demo.kernel02)
    = Ols.closed_form df' (mkFormula "y" ["δi"]) /\
    (forall p2 b2,
       Ols.closed_form df' (mkFormula "y" ["δi"]) = Ok p2 ->
       Dict.get "δi" p2 = Some b2 ->
       exists k3,
         run (two_stage Ols.closed_form) Demo.kernel02 = Ok (p2, k3) /\
         run (results_param "δi") k3 = Ok (b2, k3)).
Proof.
  split; [exact demo_kernel02_df|].
  split; [reflexivity|]. split; [reflexivity|].
  split; [exact demo_first_stage|]. split; [reflexivity|].
  apply (C2_two_stage_steps Ols.closed_form Demo.kernel02 Demo.df02
           [8; 12; -12; -8; -4]%Q Demo.first_stage02 Demo.dhat02).
  - exact demo_kernel02_df.
  - reflexivity.
  - reflexivity.
  - exact demo_first_stage.
  - reflexivity.
Defined.

(** ** Notebook 02: what the estimator cells do to the table *)

Lemma regression_cell_keeps (fit : Estimator) (f : Formula) (k k' : Kernel)
  (p : Params) (name : string) :
  name <> "model" -> name <> "results" ->
  run (regression_cell fit f) k = Ok (p, k') ->
  Dict.get name (user_ns k') = Dict.get name (user_ns k) /\
  random_state k' = random_state k.
Proof.
  intros Hm Hr H. rewrite run_regression_cell in H.
  destruct (Dict.get "df" (user_ns k)) as [v|]; [|discriminate].
  destruct v; try discriminate.
  destruct (fit df f) as [p'|]; [|discriminate].
  injection H as <- <-. cbn [user_ns random_state].
  rewrite !(@get_set_other value) by assumption. split; reflexivity.
Qed.

Lemma two_stage_inv (fit : Estimator) (k k' : Kernel) (df : Pd.DataFrame)
  (p : Params) :
  Dict.get "df" (user_ns k) = Some (VFrame df) ->
  run (two_stage fit) k = Ok (p, k') ->
  exists icol p1 dhat,
    Dict.get "i" (Pd.columns df) = Some icol /\
    length icol = Pd.nrows df /\
    fit df (mkFormula "x" ["i"]) = Ok p1 /\
    Dict.get "i" p1 = Some dhat.
Proof.
  intros Hdf H. unfold two_stage in H.
  apply run_bind_inv in H as (dh & k1 & H1 & H2).
  unfold first_stage_cell in H1.
  apply run_bind_inv in H1 as ([] & k0 & Hfs & Hrp).
  rewrite run_fit_statements, Hdf in Hfs.
  destruct (fit df (mkFormula "x" ["i"])) as [p1|] eqn:Hfit1; [|discriminate].
  injection Hfs as <-.
  rewrite run_results_param in Hrp. cbn [user_ns] in Hrp.
  rewrite (@get_set_same value) in Hrp. cbn [params] in Hrp.
  destruct (Dict.get "i" p1) as [dhat|] eqn:Hdhat; [|discriminate].
  injection Hrp as <- <-.
  apply run_bind_inv in H2 as ([] & k2 & Hd & _).
  change (mkKernel _ _) with (Closed02.after_first k df p1) in Hd.
  rewrite run_derive_cell, (after_first_df k df p1 Hdf) in Hd.
  unfold Pd.getitem in Hd.
  destruct (Dict.get "i" (Pd.columns df)) as [icol|] eqn:Hi; [|discriminate].
  rewrite run_results_param in Hd.
  unfold Closed02.after_first at 1 in Hd. cbn [user_ns] in Hd.
  rewrite (@get_set_same value) in Hd. cbn [params] in Hd.
  rewrite Hdhat in Hd. unfold Pd.setitem in Hd.
  rewrite length_mul_scalar in Hd.
  destruct (Nat.eqb_spec (length icol) (Pd.nrows df)) as [Hlen|];
    [|discriminate].
  exists icol, p1, dhat. auto.
Qed.

(** The two-stage procedure on the five-row table: the table bound to [df]
    has four columns before and five after. *)
Lemma C7_counterexample :
  exists p k' df',
    run (two_stage Ols.closed_form) Demo.kernel02 = Ok (p, k') /\
    Dict.get "df" (user_ns Demo.kernel02) = Some (VFrame Demo.df02) /\
    Dict.get "df" (user_ns k') = Some (VFrame df') /\
    Dict.keys (Pd.columns Demo.df02) = ["x"; "i"; "h"; "y"] /\
    Dict.keys (Pd.columns df') = ["x"; "i"; "h"; "y"; "δi"] /\
    df' <> Demo.df02.
Proof.
  do 3 eexists.
  split; [vm_compute; reflexivity|].
  split; [exact demo_kernel02_df|].
  split; [reflexivity|]. split; [reflexivity|]. split; [reflexivity|].
  discriminate.
Qed.

(** C7, as the notebooks have it.  A cell that fits a formula and displays
    the coefficients (the naive and the adjusted regressions) rebinds only
    [model] and [results]: the table bound to [df] is the same before and
    after.  The two-stage procedure changes the table: after it, [df] has
    the same rows and the same columns with the same values as before,
    and in addition the column ['δi'], which comes last if the table had no
    column of that name. *)
Theorem C7_estimators_and_table (fit : Estimator) :
  (forall f k p k',
     run (regression_cell fit f) k = Ok (p, k') ->
     Dict.get "df" (user_ns k') = Dict.get "df" (user_ns k)) /\
  (forall k df p k',
     Dict.get "df" (user_ns k) = Some (VFrame df) ->
     run (two_stage fit) k = Ok (p, k') ->
     exists df' dcol,
       Dict.get "df" (user_ns k') = Some (VFrame df') /\
       Pd.nrows df' = Pd.nrows df /\
       Dict.get "δi" (Pd.columns df') = Some dcol /\
       length dcol = Pd.nrows df /\
       (forall name, name <> "δi" ->
          Dict.get name (Pd.columns df') = Dict.get name (Pd.columns df)) /\
       (Dict.get "δi" (Pd.columns df) = None ->
          Pd.columns df' = Pd.columns df ++ [("δi", dcol)])).
Proof.
  split.
  - intros f k p k' H.
    apply (regression_cell_keeps fit f k k' p "df"); [discriminate..|exact H].
  - intros k df p k' Hdf H.
    destruct (two_stage_inv fit k k' df p Hdf H)
      as (icol & p1 & dhat & Hi & Hlen & Hfit1 & Hdhat).
    rewrite (run_two_stage fit k df icol p1 dhat Hdf Hi Hlen Hfit1 Hdhat) in H.
    destruct (fit (Closed02.derived_frame df icol dhat) _) as [p2|];
      [|discriminate].
    injection H as <- <-.
    exists (Closed02.derived_frame df icol dhat), (Np.mul_scalar icol dhat).
    split; [apply after_second_df|]. split; [reflexivity|].
    split; [apply get_set_same|].
    split; [now rewrite length_mul_scalar|]. split.
    + intros name Hne. unfold Closed02.derived_frame. cbn [Pd.columns].
      now apply get_set_other.
    + intros Habs. unfold Closed02.derived_frame. cbn [Pd.columns].
      now apply set_absent.
Qed.

(** C7 on the five-row table, with the closed-form estimator. *)
Lemma C7_estimators_and_table_witness :
  Dict.get "df" (user_ns Demo.kernel02) = Some (VFrame Demo.df02) /\
  exists p k',
    run (two_stage Ols.closed_form) Demo.kernel02 = Ok (p, k') /\
    exists df' dcol,
      Dict.get "df" (user_ns k') = Some (VFrame df') /\
      Pd.nrows df' = Pd.nrows Demo.df02 /\
      Dict.get "δi" (Pd.columns df') = Some dcol /\
      length dcol = Pd.nrows Demo.df02 /\
      (forall name, name <> "δi" ->
         Dict.get name (Pd.columns df') = Dict.get name (Pd.columns Demo.df02)) /\
      (Dict.get "δi" (Pd.columns Demo.df02) = None ->
         Pd.columns df' = Pd.columns Demo.df02 ++ [("δi", dcol)]).
Proof.
  split; [exact demo_kernel02_df|].
  assert (H : exists p k',
             run (two_stage Ols.closed_form) Demo.kernel02 = Ok (p, k')).
  { do 2 eexists. vm_compute. reflexivity. }
  destruct H as (p & k' & H). exists p, k'. split; [exact H|].
  exact (proj2 (C7_estimators_and_table Ols.closed_form)
           Demo.kernel02 Demo.df02 p k' demo_kernel02_df H).
Defined.

(** ** Notebook 02: the two-stage slope is a ratio of slopes *)

Lemma wf_derived_frame (df : Pd.DataFrame) (icol : Np.ndarray) (s : Q) :
  Pd.wf df -> length icol = Pd.nrows df ->
  Pd.wf (Closed02.derived_frame df icol s).
Proof.
  intros Hwf Hlen name col. unfold Closed02.derived_frame.
  cbn [Pd.columns Pd.nrows].
  destruct (String.eqb_spec name "δi") as [->|Hne].
  - rewrite get_set_same. intros [= <-]. now rewrite length_mul_scalar.
  - rewrite get_set_other by exact Hne. apply Hwf.
Qed.

(** C10.  With an estimator that returns the least-squares coefficients,
    on a table whose column [i] is not constant and on which the fitted
    slope [dhat] of [x] on [i] is not zero, the two-stage procedure
    succeeds and the coefficient it displays for ['δi'] equals the fitted
    slope of [y] on [i] divided by [dhat]. *)
Theorem C10_ratio_of_slopes (fit : Estimator) (k : Kernel)
  (df : Pd.DataFrame) (icol ycol : Np.ndarray) (p1 : Params) (dhat : Q) :
  Ols.least_squares_estimator fit ->
  Dict.get "df" (user_ns k) = Some (VFrame df) ->
  Pd.wf df ->
  Dict.get "i" (Pd.columns df) = Some icol ->
  Dict.get "y" (Pd.columns df) = Some ycol ->
  Ols.nonconstant icol ->
  fit df (mkFormula "x" ["i"]) = Ok p1 ->
  Dict.get "i" p1 = Some dhat ->
  ~ (dhat == 0)%Q ->
  exists (p2 : Params) (k' : Kernel) (b2 : Q) (p : Params) (b : Q),
    run (two_stage fit) k = Ok (p2, k') /\
    Dict.get "δi" p2 = Some b2 /\
    fit df (mkFormula "y" ["i"]) = Ok p /\
    Dict.get "i" p = Some b /\
    (b2 == b / dhat)%Q.
Proof.
  intros Hfit Hdf Hwf Hi Hy Hnc Hfit1 Hdhat Hnz.
  assert (Hlen : length icol = Pd.nrows df) by exact (Hwf _ _ Hi).
  assert (Hleny : length icol = length ycol)
    by (rewrite Hlen; symmetry; exact (Hwf _ _ Hy)).
  destruct (Hfit df "y" "i" icol ycol Hwf Hi Hy Hnc) as (a & b & Hp & Hls).
  destruct (Hfit (Closed02.derived_frame df icol dhat) "y" "δi"
              (Np.mul_scalar icol dhat) ycol)
    as (a2 & b2 & Hp2 & Hls2).
  { now apply wf_derived_frame. }
  { apply get_set_same. }
  { unfold Closed02.derived_frame. cbn [Pd.columns].
    rewrite get_set_other by discriminate. exact Hy. }
  { now apply OlsFacts.nonconstant_mul_scalar. }
  exists [("Intercept", a2); ("δi", b2)],
         (Closed02.after_second k df icol p1 dhat
            [("Intercept", a2); ("δi", b2)]),
         b2, [("Intercept", a); ("i", b)], b.
  split.
  { rewrite (run_two_stage fit k df icol p1 dhat Hdf Hi Hlen Hfit1 Hdhat).
    now rewrite Hp2. }
  split; [reflexivity|]. split; [exact Hp|]. split; [reflexivity|].
  exact (OlsFacts.rescaled_slope icol ycol dhat a b a2 b2 Hleny Hnc Hnz Hls Hls2).
Qed.

Lemma demo_df02_wf : Pd.wf Demo.df02.
Proof.
  intros name col. unfold Demo.df02. cbn [Pd.columns Pd.nrows Dict.get].
  repeat (destruct (String.eqb name _); [intros [= <-]; reflexivity|]).
  discriminate.
Qed.

Lemma demo_i_nonconstant : Ols.nonconstant [8; 12; -12; -8; -4]%Q.
Proof.
  exists 8%Q, 12%Q. split; [now left|]. split; [right; now left|].
  intros H. discriminate H.
Qed.

Lemma demo_dhat_nonzero : ~ (Demo.dhat02 == 0)%Q.
Proof. intros H. discriminate H. Qed.

(** C10 on the five-row table, with the closed-form estimator. *)
Lemma C10_ratio_of_slopes_witness :
  Ols.least_squares_estimator Ols.closed_form /\
  Dict.get "df" (user_ns Demo.kernel02) = Some (VFrame Demo.df02) /\
  Pd.wf Demo.df02 /\
  Dict.get "i" (Pd.columns Demo.df02) = Some [8; 12; -12; -8; -4]%Q /\
  Dict.get "y" (Pd.columns Demo.df02) = Some [-60; -53; 38; 45; 10]%Q /\
  Ols.nonconstant [8; 12; -12; -8; -4]%Q /\
  Ols.closed_form Demo.df02 (mkFormula "x" ["i"]) = Ok Demo.first_stage02 /\
  Dict.get "i" Demo.first_stage02 = Some Demo.dhat02 /\
  ~ (Demo.dhat02 == 0)%Q /\
  exists (p2 : Params) (k' : Kernel) (b2 : Q) (p : Params) (b : Q),
    run (two_stage Ols.closed_form) Demo.kernel02 = Ok (p2, k') /\
    Dict.get "δi" p2 = Some b2 /\
    Ols.closed_form Demo.df02 (mkFormula "y" ["i"]) = Ok p /\
    Dict.get "i" p = Some b /\
    (b2 == b / Demo.dhat02)%Q.
Proof.
  split; [exact OlsFacts.closed_form_least_squares|].
  split; [exact demo_kernel02_df|]. split; [exact demo_df02_wf|].
  split; [reflexivity|]. split; [reflexivity|].
  split; [exact demo_i_nonconstant|]. split; [exact demo_first_stage|].
  split; [reflexivity|]. split; [exact demo_dhat_nonzero|].
  exact (C10_ratio_of_slopes Ols.closed_form Demo.kernel02 Demo.df02
           [8; 12; -12; -8; -4]%Q [-60; -53; 38; 45; 10]%Q
           Demo.first_stage02 Demo.dhat02
           OlsFacts.closed_form_least_squares demo_kernel02_df demo_df02_wf
           eq_refl eq_refl demo_i_nonconstant demo_first_stage eq_refl
           demo_dhat_nonzero).
Defined.

(* ================================================================== *)
(** * Part III: further properties of the two notebooks               *)
(* ================================================================== *)

(** ** Notebook 02: what the cells "Model", graph and frame compute *)

Lemma length_sim02_cols (N : nat) (rs : RandomState) (name : string)
  (col : Np.ndarray) :
  In (name, col) (Sim02.cols rs N) -> length col = N.
Proof.
  unfold Sim02.cols. cbn [In]. intros Hin.
  repeat (destruct Hin as [[= <- <-]|Hin];
          [ unfold Sim02.col_y, Sim02.col_x, Sim02.col_i, Sim02.col_h; len | ]).
  contradiction.
Qed.

Lemma run_setup02 (N : nat) (rs : RandomState) :
  run (Sim02.setup (Z.of_nat N)) (mkKernel rs Dict.empty)
  = Ok (tt, Sim02.final_kernel rs N).
Proof.
  destruct rs as [s p]. unfold Sim02.setup.
  eapply run_seq.
  { unfold Notebook02.model_cell.
    do 5 (eapply run_seq; [apply run_store|]; norm_ns).
    do 3 exec_assign.
    eapply run_assign. eval_expr. }
  norm_ns.
  eapply run_seq.
  { unfold Notebook02.graph_cell.
    do 4 (eapply run_seq; [eapply run_ivar; reflexivity|]).
    cbv zeta. apply run_store. }
  norm_ns.
  unfold Notebook02.frame_cell.
  eapply run_seq; [cbn [dict_of_vars]; exec_dict|].
  eapply run_seq; [apply run_store|]. norm_ns.
  eapply run_seq; [reflexivity|]. cbv beta.
  eapply run_seq; [reflexivity|].
  eapply run_seq.
  { apply run_lift.
    apply (of_dict_uniform (Sim02.cols (mkRandomState s p) N) N);
      [discriminate|apply length_sim02_cols]. }
  reflexivity.
Qed.

Lemma length_sim02_col_h (N : nat) (rs : RandomState) :
  length (Sim02.col_h rs N) = N.
Proof. apply (length_sim02_cols N rs "h"). unfold Sim02.cols. cbn; auto. Qed.

Lemma length_sim02_col_i (N : nat) (rs : RandomState) :
  length (Sim02.col_i rs N) = N.
Proof. apply (length_sim02_cols N rs "i"). unfold Sim02.cols. cbn; auto. Qed.

Lemma length_sim02_col_x (N : nat) (rs : RandomState) :
  length (Sim02.col_x rs N) = N.
Proof. apply (length_sim02_cols N rs "x"). unfold Sim02.cols. cbn; auto. Qed.

Lemma length_sim02_col_y (N : nat) (rs : RandomState) :
  length (Sim02.col_y rs N) = N.
Proof. apply (length_sim02_cols N rs "y"). unfold Sim02.cols. cbn; auto. Qed.

#[local] Hint Rewrite length_sim02_col_h length_sim02_col_i length_sim02_col_x length_sim02_col_y : len.

Lemma nth_scaled_draws (rs : RandomState) (N r j : nat) (c : Z) :
  (j < N)%nat ->
  nth j (Np.scale c (draws rs N r)) 0%Q
  = (inject_Z c * stream rs (pos rs + r * N + j)%nat)%Q.
Proof.
  intros H. rewrite nth_scale by (rewrite length_draws; exact H).
  now rewrite nth_draws.
Qed.

Lemma sim02_topological : topological Sim02.G ["h"; "i"; "x"; "y"].
Proof.
  split.
  - let t := eval vm_compute in (Nx.nodes Sim02.G) in
    change (Nx.nodes Sim02.G) with t.
    (* x y h i  versus  h i x y *)
    apply Permutation_sym.
    change ["x"; "y"; "h"; "i"] with (["x"; "y"] ++ ["h"; "i"]).
    change ["h"; "i"; "x"; "y"] with (["h"; "i"] ++ ["x"; "y"]).
    apply Permutation_app_comm.
  - let t := eval vm_compute in (Nx.edges Sim02.G) in
    change (Nx.edges Sim02.G) with t.
    repeat (apply Forall_cons; [vm_compute; repeat constructor|]).
    apply Forall_nil.
Qed.

(** ** What a run depends on *)



(** Two runs of the table-building statements in a row with [n = 5], in
    one kernel and without seeding in between: the first run moves the
    generator, the second starts where the first left it, and with the
    generator of the examples it builds another table.  The two runs do
    not start from the same generator state. *)
Lemma consecutive_runs :
  exists k1 k2 df1 df2,
    run (simulation_cell 5) (kernel0 Demo.rs) = Ok (tt, k1) /\
    run (simulation_cell 5) k1 = Ok (tt, k2) /\
    pos (random_state k1) = 45%nat /\
    Dict.get "df" (user_ns k1) = Some (VFrame df1) /\
    Dict.get "df" (user_ns k2) = Some (VFrame df2) /\
    ~ (cell df1 "c" 0 == cell df2 "c" 0)%Q.
Proof.
  do 4 eexists.
  split; [vm_compute; reflexivity|].
  split; [vm_compute; reflexivity|].
  split; [reflexivity|].
  split; [reflexivity|]. split; [reflexivity|].
  vm_compute. intros H. discriminate H.
Qed.




(** X1.  From an empty namespace the cells "Model", graph and frame of
    notebook 02 run without raising for every sample count.  The table has
    that many rows and the columns x, i, h, y, which are the nodes of the
    graph bound to [G]; the nodes are assigned in a topological order of
    that graph; and in every row each node equals the sum over its incoming
    edges of the edge's ['coeff'] times the parent, plus its own draw times
    the constant the cell gives it. *)
Theorem X1_notebook02_structural_equations (N : nat) (rs : RandomState) :
  exists k df g,
    run (Sim02.setup (Z.of_nat N)) (mkKernel rs Dict.empty) = Ok (tt, k) /\
    Dict.get "df" (user_ns k) = Some (VFrame df) /\
    Dict.get "G" (user_ns k) = Some (VGraph g) /\
    Pd.shape df = (N, 4%nat) /\
    Dict.keys (Pd.columns df) = ["x"; "i"; "h"; "y"] /\
    Permutation (Dict.keys (Pd.columns df)) (Nx.nodes g) /\
    topological g ["h"; "i"; "x"; "y"] /\
    (forall v, In v (Nx.nodes g) ->
       exists r c,
         Dict.get v Sim02.noise_term = Some (r, c) /\
         forall j, (j < N)%nat ->
           (cell df v j ==
              parents_sum g df v j
              + inject_Z c * stream rs (pos rs + r * N + j)%nat)%Q).
Proof.
  exists (Sim02.final_kernel rs N), (Sim02.table rs N), Sim02.G.
  split; [apply run_setup02|]. split; [reflexivity|]. split; [reflexivity|].
  split; [reflexivity|]. split; [reflexivity|]. split.
  { let t := eval vm_compute in (Nx.nodes Sim02.G) in
    change (Nx.nodes Sim02.G) with t.
    cbn [Sim02.table Sim02.cols Pd.columns Dict.keys map fst].
    apply perm_skip.
    change ["i"; "h"; "y"] with (["i"; "h"] ++ ["y"]).
    change ["y"; "h"; "i"] with (["y"] ++ ["h"; "i"]).
    etransitivity; [apply Permutation_app_comm|].
    cbn [app]. apply perm_skip. apply perm_swap. }
  split; [exact sim02_topological|].
  intros v Hv.
  let t := eval vm_compute in (Nx.nodes Sim02.G) in
  change (Nx.nodes Sim02.G) with t in Hv.
  cbn [In] in Hv.
  repeat (destruct Hv as [<-|Hv];
    [ match goal with
      | |- exists r c, Dict.get ?v ?l = _ /\ _ =>
          let i := eval vm_compute in (Dict.get v l) in
          match i with
          | Some (?r, ?c) => exists r, c; split; [reflexivity|]
          end
      end;
      intros j Hj; unfold parents_sum;
      match goal with |- context [Nx.pred Sim02.G ?v] => pred_of Sim02.G v end;
      cbn [fold_left fst snd coeff Dict.get String.eqb Ascii.eqb Bool.eqb];
      unfold cell, Sim02.table;
      cbn [Pd.columns Sim02.cols Dict.get String.eqb Ascii.eqb Bool.eqb];
      first
        [ unfold Sim02.col_h, Sim02.col_i; rewrite nth_scaled_draws by exact Hj;
          ring
        | unfold Sim02.col_x at 1;
          rewrite !nth_zip_add, !nth_scale, nth_draws by (len; lia);
          ring
        | unfold Sim02.col_y at 1;
          rewrite !nth_zip_add, !nth_scale, nth_draws by (len; lia);
          ring ]
    | ]).
  contradiction.
Qed.

(** X2.  The reduced form that notebook 02 derives by substitution holds
    in every row of the simulated table: with the coefficients of the cell
    "Model", [y = (alpha beta + gamma) h + alpha (delta i) + alpha n_x + n_y],
    where [n_x] is twice the third draw and [n_y] three times the fourth. *)
Theorem X2_notebook02_reduced_form (N : nat) (rs : RandomState) :
  exists k df,
    run (Sim02.setup (Z.of_nat N)) (mkKernel rs Dict.empty) = Ok (tt, k) /\
    Dict.get "df" (user_ns k) = Some (VFrame df) /\
    forall j, (j < N)%nat ->
      let n_x := (2 * stream rs (pos rs + 2 * N + j)%nat)%Q in
      let n_y := (3 * stream rs (pos rs + 3 * N + j)%nat)%Q in
      (cell df "y" j ==
         inject_Z (3 * 1 + 2) * cell df "h" j
         + 3 * (inject_Z (-1) * cell df "i" j)
         + 3 * n_x + n_y)%Q.
Proof.
  exists (Sim02.final_kernel rs N), (Sim02.table rs N).
  split; [apply run_setup02|]. split; [reflexivity|].
  intros j Hj. cbv zeta. unfold cell, Sim02.table.
  cbn [Pd.columns Sim02.cols Dict.get String.eqb Ascii.eqb Bool.eqb].
  unfold Sim02.col_y, Sim02.col_x.
  repeat first [ rewrite nth_zip_add by (len; lia)
               | rewrite nth_scale by (len; lia)
               | rewrite nth_draws by (len; lia) ].
  unfold inject_Z.
  cbn [Z.mul Z.add Z.opp Pos.mul Pos.add Pos.succ Pos.add_carry]. ring.
Qed.

(** X3.  The path rule of notebook 01 holds in every row of the simulated
    table: the direct effect of [x] on [y] is [-2 * 5 = -10] once [k] is
    held, [y = -10 x + 3 k + 5 n_d + n_y], and equally once [a] is held,
    [y = -10 x - 9 a + 3 n_k + 5 n_d + n_y], the [n] being the draws of the
    equations of [d], [k] and [y]. *)
Theorem X3_notebook01_direct_effect (N : nat) (rs : RandomState) :
  exists k df,
    run (simulation_cell (Z.of_nat N)) (kernel0 rs) = Ok (tt, k) /\
    Dict.get "df" (user_ns k) = Some (VFrame df) /\
    forall j, (j < N)%nat ->
      let n_k := stream rs (pos rs + 3 * N + j)%nat in
      let n_d := stream rs (pos rs + 5 * N + j)%nat in
      let n_y := stream rs (pos rs + 7 * N + j)%nat in
      (cell df "y" j ==
         inject_Z (-2 * 5) * cell df "x" j + 3 * cell df "k" j
         + 5 * n_d + n_y)%Q /\
      (cell df "y" j ==
         inject_Z (-2 * 5) * cell df "x" j + inject_Z (3 * -3) * cell df "a" j
         + 3 * n_k + 5 * n_d + n_y)%Q.
Proof.
  exists (final_kernel G rs N), (table rs N).
  split; [apply run_simulation|]. split; [reflexivity|].
  intros j Hj. cbv zeta. unfold cell, table.
  cbn [Pd.columns cols Dict.get String.eqb Ascii.eqb Bool.eqb].
  unfold col_y, col_d, col_k.
  repeat first [ rewrite nth_zip_add by (len; lia)
               | rewrite nth_scale by (len; lia)
               | rewrite nth_draws by (len; lia) ].
  unfold inject_Z.
  cbn [Z.mul Z.add Z.opp Pos.mul Pos.add Pos.succ Pos.add_carry].
  split; ring.
Qed.

(** ** Notebook 01: a node depends on the draws of its ancestors only *)

Lemma draws_block_ext (rs rs' : RandomState) (N r : nat) :
  (forall j, (j < N)%nat ->
     stream rs (pos rs + r * N + j)%nat = stream rs' (pos rs' + r * N + j)%nat) ->
  draws rs N r = draws rs' N r.
Proof.
  intros H. unfold draws. apply map_seq_ext. intros i Hi.
  rewrite !offset_eq. now apply H.
Qed.

Ltac same_block H u r :=
  try (match goal with
       | rs : RandomState, rs' : RandomState, N : nat |- _ =>
           let E := fresh "E" in
           assert (E : draws rs N r = draws rs' N r)
             by (apply draws_block_ext; intros j Hj;
                 apply (H u r j);
                 [ solve [vm_compute; repeat (first [left; reflexivity | right])]
                 | reflexivity
                 | exact Hj ]);
           rewrite E; clear E
       end).

(** X4.  In the table of notebook 01 the column of a node is determined by
    the draws of the node and of its ancestors in [G]: two generators that
    agree on those draws give the same column, whatever the other draws
    are. *)
Theorem X4_ancestral_dependence (N : nat) (rs rs' : RandomState) (v : string) :
  In v (Nx.nodes G) ->
  (forall u r j,
     In u (v :: Ancestry.ancestors G v) ->
     index_of u (map fst equations) = Some r ->
     (j < N)%nat ->
     stream rs (pos rs + r * N + j)%nat = stream rs' (pos rs' + r * N + j)%nat) ->
  exists k k' df df' col,
    run (simulation_cell (Z.of_nat N)) (kernel0 rs) = Ok (tt, k) /\
    run (simulation_cell (Z.of_nat N)) (kernel0 rs') = Ok (tt, k') /\
    Dict.get "df" (user_ns k) = Some (VFrame df) /\
    Dict.get "df" (user_ns k') = Some (VFrame df') /\
    Dict.get v (Pd.columns df) = Some col /\
    Dict.get v (Pd.columns df') = Some col.
Proof.
  intros Hv H.
  exists (final_kernel G rs N), (final_kernel G rs' N),
         (table rs N), (table rs' N).
  assert (Hcol : Dict.get v (Pd.columns (table rs N))
                 = Dict.get v (Pd.columns (table rs' N)) /\
                 Dict.get v (Pd.columns (table rs N)) <> None).
  { let t := eval vm_compute in (Nx.nodes G) in
    change (Nx.nodes G) with t in Hv.
    cbn [In] in Hv.
    repeat (destruct Hv as [<-|Hv];
      [ unfold table; cbn [Pd.columns cols Dict.get String.eqb Ascii.eqb Bool.eqb];
        split; [|discriminate];
        unfold col_h, col_y, col_g, col_d, col_f, col_k, col_x, col_a, col_c;
        same_block H "c" 0%nat; same_block H "a" 1%nat;
        same_block H "x" 2%nat; same_block H "k" 3%nat;
        same_block H "f" 4%nat; same_block H "d" 5%nat;
        same_block H "g" 6%nat; same_block H "y" 7%nat;
        same_block H "h" 8%nat;
        reflexivity
      | ]).
    contradiction. }
  destruct Hcol as [Heq Hsome].
  destruct (Dict.get v (Pd.columns (table rs N))) as [col|] eqn:Hc;
    [|congruence].
  exists col.
  split; [apply run_simulation|]. split; [apply run_simulation|].
  split; [reflexivity|]. split; [reflexivity|].
  split; [reflexivity|]. symmetry. exact Heq.
Qed.

(** X4 for the node [k]: the generator of the examples, and the same with
    the thousand draws of [c] replaced by 100. *)
Lemma X4_ancestral_dependence_witness :
  In "k" (Nx.nodes G) /\
  (forall u r j,
     In u ("k" :: Ancestry.ancestors G "k") ->
     index_of u (map fst equations) = Some r ->
     (j < 1000)%nat ->
     stream Demo.rs (pos Demo.rs + r * 1000 + j)%nat
     = stream (overwrite_first 1000 100 Demo.rs)
              (pos (overwrite_first 1000 100 Demo.rs) + r * 1000 + j)%nat) /\
  exists k k' df df' col,
    run (simulation_cell (Z.of_nat 1000)) (kernel0 Demo.rs) = Ok (tt, k) /\
    run (simulation_cell (Z.of_nat 1000))
        (kernel0 (overwrite_first 1000 100 Demo.rs)) = Ok (tt, k') /\
    Dict.get "df" (user_ns k) = Some (VFrame df) /\
    Dict.get "df" (user_ns k') = Some (VFrame df') /\
    Dict.get "k" (Pd.columns df) = Some col /\
    Dict.get "k" (Pd.columns df') = Some col.
Proof.
  assert (Hin : In "k" (Nx.nodes G)) by (vm_compute; tauto).
  assert (H : forall u r j,
     In u ("k" :: Ancestry.ancestors G "k") ->
     index_of u (map fst equations) = Some r ->
     (j < 1000)%nat ->
     stream Demo.rs (pos Demo.rs + r * 1000 + j)%nat
     = stream (overwrite_first 1000 100 Demo.rs)
              (pos (overwrite_first 1000 100 Demo.rs) + r * 1000 + j)%nat).
  { intros u r j Hu Hr Hj.
    assert (Hr1 : (1 <= r)%nat).
    { let t := eval vm_compute in (Ancestry.ancestors G "k") in
      change (Ancestry.ancestors G "k") with t in Hu.
      cbn [In] in Hu.
      destruct Hu as [<-|[<-|[]]]; vm_compute in Hr; injection Hr as <-; lia. }
    unfold overwrite_first. cbn [stream pos Demo.rs].
    destruct (Nat.ltb_spec (0 + r * 1000 + j) 1000) as [Hlt|_]; [nia|].
    reflexivity. }
  split; [exact Hin|]. split; [exact H|].
  exact (X4_ancestral_dependence 1000 Demo.rs (overwrite_first 1000 100 Demo.rs)
           "k" Hin H).
Defined.

(** ** Notebook 02: the derive cell out of order, and run again *)

Lemma set_set_same {V : Type} (k : string) (v v' : V) (d : Dict.t V) :
  Dict.set k v (Dict.set k v' d) = Dict.set k v d.
Proof.
  induction d as [|[k0 v0] d IH]; cbn [Dict.set].
  - now rewrite String.eqb_refl.
  - destruct (String.eqb_spec k k0) as [->|Hne]; cbn [Dict.set].
    + now rewrite String.eqb_refl.
    + destruct (String.eqb_spec k k0); [contradiction|]. now rewrite IH.
Qed.

(** What a successful run of the derive cell has found in the kernel. *)
Lemma derive_cell_inv (k k' : Kernel) :
  run Notebook02.derive_cell k = Ok (tt, k') ->
  exists df icol r s,
    Dict.get "df" (user_ns k) = Some (VFrame df) /\
    Dict.get "i" (Pd.columns df) = Some icol /\
    Dict.get "results" (user_ns k) = Some (VResults r) /\
    Dict.get "i" (params r) = Some s /\
    length icol = Pd.nrows df.
Proof.
  rewrite run_derive_cell, run_results_param. unfold Pd.getitem, Pd.setitem.
  intros H.
  destruct (Dict.get "df" (user_ns k)) as [v|] eqn:Hdf; [|discriminate].
  destruct v; try discriminate.
  destruct (Dict.get "i" (Pd.columns df)) as [icol|] eqn:Hi; [|discriminate].
  destruct (Dict.get "results" (user_ns k)) as [v|] eqn:Hr; [|discriminate].
  destruct v; try discriminate.
  destruct (Dict.get "i" (params r)) as [s|] eqn:Hs; [|discriminate].
  rewrite length_mul_scalar in H.
  destruct (Nat.eqb_spec (length icol) (Pd.nrows df)); [|discriminate].
  exists df, icol, r, s. repeat split; auto.
Qed.

(** X6.  Running the derive cell a second time changes nothing: the
    column ['δi'] is written again with the same values and the kernel is
    the one the first run left. *)
Theorem X6_derive_cell_idempotent (k k1 : Kernel) :
  run Notebook02.derive_cell k = Ok (tt, k1) ->
  run Notebook02.derive_cell k1 = Ok (tt, k1).
Proof.
  intros H.
  destruct (derive_cell_inv k k1 H)
    as (df & icol & r & s & Hdf & Hi & Hr & Hs & Hlen).
  rewrite run_derive_cell, run_results_param, Hdf, Hr, Hs in H.
  unfold Pd.getitem, Pd.setitem in H.
  rewrite Hi, length_mul_scalar, Hlen, Nat.eqb_refl in H.
  injection H as <-.
  rewrite run_derive_cell, run_results_param. cbn [user_ns random_state].
  rewrite (@get_set_same value).
  rewrite (@get_set_other value) by discriminate. rewrite Hr, Hs.
  unfold Pd.getitem, Pd.setitem. cbn [Pd.columns Pd.nrows].
  rewrite (@get_set_other Np.ndarray) by discriminate. rewrite Hi.
  rewrite length_mul_scalar, Hlen, Nat.eqb_refl.
  rewrite !set_set_same. reflexivity.
Qed.

(** X6 on the five-row table, after the first-stage cell has run with the
    closed-form estimator. *)
Lemma X6_derive_cell_idempotent_witness :
  run Notebook02.derive_cell
      (Closed02.after_first Demo.kernel02 Demo.df02 Demo.first_stage02)
  = Ok (tt, Closed02.after_derive Demo.kernel02 Demo.df02
              [8; 12; -12; -8; -4]%Q Demo.first_stage02 Demo.dhat02) /\
  run Notebook02.derive_cell
      (Closed02.after_derive Demo.kernel02 Demo.df02
         [8; 12; -12; -8; -4]%Q Demo.first_stage02 Demo.dhat02)
  = Ok (tt, Closed02.after_derive Demo.kernel02 Demo.df02
              [8; 12; -12; -8; -4]%Q Demo.first_stage02 Demo.dhat02).
Proof.
  assert (H : run Notebook02.derive_cell
      (Closed02.after_first Demo.kernel02 Demo.df02 Demo.first_stage02)
  = Ok (tt, Closed02.after_derive Demo.kernel02 Demo.df02
              [8; 12; -12; -8; -4]%Q Demo.first_stage02 Demo.dhat02)).
  { apply run_derive; [exact demo_kernel02_df|reflexivity..]. }
  split; [exact H|].
  exact (X6_derive_cell_idempotent _ _ H).
Defined.

(** X7.  Once the second-stage cell has run, [results] holds the fit of
    [y ~ δi]; when that fit has no coefficient named [i], as a fit on the
    single predictor ['δi'] has not, running the derive cell again raises
    [KeyError] instead of recomputing the column. *)
Theorem X7_derive_after_second_stage (fit : Estimator) (k k' : Kernel)
  (df : Pd.DataFrame) (p2 : Params) :
  Dict.get "df" (user_ns k) = Some (VFrame df) ->
  run (Notebook02.two_stage fit) k = Ok (p2, k') ->
  Dict.get "i" p2 = None ->
  run Notebook02.derive_cell k' = Raise (KeyError "i").
Proof.
  intros Hdf H Hnone.
  destruct (two_stage_inv fit k k' df p2 Hdf H)
    as (icol & p1 & dhat & Hi & Hlen & Hfit1 & Hdhat).
  rewrite (run_two_stage fit k df icol p1 dhat Hdf Hi Hlen Hfit1 Hdhat) in H.
  destruct (fit (Closed02.derived_frame df icol dhat) _) as [p|];
    [|discriminate].
  injection H as -> <-.
  rewrite run_derive_cell, after_second_df, run_results_param.
  unfold Pd.getitem, Closed02.derived_frame. cbn [Pd.columns].
  rewrite (@get_set_other Np.ndarray) by discriminate. rewrite Hi.
  unfold Closed02.after_second at 1. cbn [user_ns].
  rewrite (@get_set_same value). cbn [params]. now rewrite Hnone.
Qed.

(** X7 on the five-row table, with the closed-form estimator. *)
Lemma X7_derive_after_second_stage_witness :
  Dict.get "df" (user_ns Demo.kernel02) = Some (VFrame Demo.df02) /\
  exists p2 k',
    run (Notebook02.two_stage Ols.closed_form) Demo.kernel02 = Ok (p2, k') /\
    Dict.get "i" p2 = None /\
    run Notebook02.derive_cell k' = Raise (KeyError "i").
Proof.
  split; [exact demo_kernel02_df|].
  assert (H : exists p2 k',
             run (Notebook02.two_stage Ols.closed_form) Demo.kernel02
             = Ok (p2, k') /\ Dict.get "i" p2 = None).
  { do 2 eexists. split; [vm_compute; reflexivity|reflexivity]. }
  destruct H as (p2 & k' & H & Hnone). exists p2, k'.
  split; [exact H|]. split; [exact Hnone|].
  exact (X7_derive_after_second_stage Ols.closed_form Demo.kernel02 k'
           Demo.df02 p2 demo_kernel02_df H Hnone).
Defined.

(** ** Notebook 02: building the table *)

Lemma run_load (name : string) (v : value) (k : Kernel) :
  Dict.get name (user_ns k) = Some v -> run (load name) k = Ok (v, k).
Proof. unfold run, load. now intros ->. Qed.

Lemma of_dict_wf (data : Dict.t Np.ndarray) (df : Pd.DataFrame) :
  Pd.of_dict data = Ok df -> Pd.wf df /\ Pd.columns df = data.
Proof.
  unfold Pd.of_dict. destruct data as [|[name0 a] rest].
  - intros [= <-]. split; [|reflexivity]. intros name col. discriminate.
  - destruct (forallb _ _) eqn:Hall; [|discriminate]. intros [= <-].
    split; [|reflexivity]. intros name col Hget. cbn [Pd.columns Pd.nrows] in *.
    apply get_In in Hget. rewrite forallb_forall in Hall.
    specialize (Hall _ Hget). cbn [snd] in Hall. now apply Nat.eqb_eq.
Qed.

Lemma setitem_wf (df df' : Pd.DataFrame) (name : string) (col : Np.ndarray) :
  Pd.wf df -> Pd.setitem df name col = Ok df' -> Pd.wf df'.
Proof.
  unfold Pd.setitem. intros Hwf.
  destruct (Nat.eqb_spec (length col) (Pd.nrows df)) as [Hlen|]; [|discriminate].
  intros [= <-] name' col'. cbn [Pd.columns Pd.nrows].
  destruct (String.eqb_spec name' name) as [->|Hne].
  - rewrite get_set_same. now intros [= <-].
  - rewrite get_set_other by exact Hne. apply Hwf.
Qed.

Section FrameCell.

Variables (k : Kernel) (ax ai ah ay : Np.ndarray).
Hypothesis Hx : Dict.get "x" (user_ns k) = Some (VArray ax).
Hypothesis Hi : Dict.get "i" (user_ns k) = Some (VArray ai).
Hypothesis Hh : Dict.get "h" (user_ns k) = Some (VArray ah).
Hypothesis Hy : Dict.get "y" (user_ns k) = Some (VArray ay).

Lemma run_frame_cell02 :
  run Notebook02.frame_cell k
  = match Pd.of_dict [("x", ax); ("i", ai); ("h", ah); ("y", ay)] with
    | Ok df =>
        Ok (tt, mkKernel (random_state k)
                  (Dict.set "df" (VFrame df)
                     (Dict.set "data"
                        (VDict [("x", ax); ("i", ai); ("h", ah); ("y", ay)])
                        (user_ns k))))
    | Raise e => Raise e
    end.
Proof.
  unfold Notebook02.frame_cell.
  eapply run_seq.
  { cbn [dict_of_vars].
    eapply run_seq; [eapply run_var; exact Hx|]. cbv beta.
    eapply run_seq; [|reflexivity].
    eapply run_seq; [eapply run_var; exact Hi|]. cbv beta.
    eapply run_seq; [|reflexivity].
    eapply run_seq; [eapply run_var; exact Hh|]. cbv beta.
    eapply run_seq; [|reflexivity].
    eapply run_seq; [eapply run_var; exact Hy|]. cbv beta.
    eapply run_seq; reflexivity. }
  destruct k as [rs ns]. cbn [user_ns random_state] in *.
  eapply run_seq; [apply run_store|].
  eapply run_seq; [apply run_load; cbn [user_ns]; apply get_set_same|].
  cbv beta.
  eapply run_seq; [reflexivity|].
  unfold run, bind, lift.
  destruct (Pd.of_dict _); reflexivity.
Qed.

End FrameCell.

(** X8.  The cell [data = dict(x=x, i=i, h=h, y=y); df = pd.DataFrame(data)]
    needs the four arrays to be bound and to have one length: then it binds
    [df] to a table with the columns x, i, h, y in that order, each array
    as it is, with as many rows as the arrays are long; if one array has
    another length it raises [ValueError], and if [x] is not bound it
    raises [NameError]. *)
Theorem X8_frame_cell (k : Kernel) :
  (Dict.get "x" (user_ns k) = None ->
   run Notebook02.frame_cell k = Raise (NameError "x")) /\
  (forall ax ai ah ay,
     Dict.get "x" (user_ns k) = Some (VArray ax) ->
     Dict.get "i" (user_ns k) = Some (VArray ai) ->
     Dict.get "h" (user_ns k) = Some (VArray ah) ->
     Dict.get "y" (user_ns k) = Some (VArray ay) ->
     (length ai = length ax /\ length ah = length ax /\ length ay = length ax ->
      exists k' df,
        run Notebook02.frame_cell k = Ok (tt, k') /\
        Dict.get "df" (user_ns k') = Some (VFrame df) /\
        Pd.columns df = [("x", ax); ("i", ai); ("h", ah); ("y", ay)] /\
        Pd.nrows df = length ax /\
        Pd.wf df) /\
     (~ (length ai = length ax /\ length ah = length ax /\
         length ay = length ax) ->
      run Notebook02.frame_cell k = Raise ValueError)).
Proof.
  split.
  { intros H. unfold Notebook02.frame_cell, run, bind. cbn [dict_of_vars].
    unfold bind, var, bind, load. now rewrite H. }
  intros ax ai ah ay Hx Hi Hh Hy.
  rewrite (run_frame_cell02 k ax ai ah ay Hx Hi Hh Hy).
  unfold Pd.of_dict. cbn [forallb snd]. rewrite Nat.eqb_refl. cbn [andb].
  split.
  - intros (E1 & E2 & E3). rewrite E1, E2, E3, !Nat.eqb_refl. cbn [andb].
    do 2 eexists. split; [reflexivity|]. cbn [user_ns].
    split; [apply get_set_same|]. split; [reflexivity|].
    split; [reflexivity|].
    intros name col. cbn [Pd.columns Pd.nrows Dict.get].
    repeat (destruct (String.eqb name _);
            [intros [= <-]; congruence|]).
    discriminate.
  - intros Hne.
    destruct (Nat.eqb_spec (length ai) (length ax)) as [E1|]; [|reflexivity].
    destruct (Nat.eqb_spec (length ah) (length ax)) as [E2|]; [|reflexivity].
    destruct (Nat.eqb_spec (length ay) (length ax)) as [E3|]; [|reflexivity].
    exfalso. apply Hne. auto.
Qed.

(** ** Notebook 02: the table stays rectangular *)

(** X9.  The two-stage procedure keeps the table rectangular: if every
    column of the table bound to [df] has one value per row before the
    three cells run, so has every column of the table bound to [df] after
    them, the new column ['δi'] included. *)
Theorem X9_two_stage_keeps_table_rectangular (fit : Estimator)
  (k k' : Kernel) (df : Pd.DataFrame) (p : Params) :
  Dict.get "df" (user_ns k) = Some (VFrame df) ->
  Pd.wf df ->
  run (Notebook02.two_stage fit) k = Ok (p, k') ->
  exists df',
    Dict.get "df" (user_ns k') = Some (VFrame df') /\
    Pd.wf df' /\
    Pd.nrows df' = Pd.nrows df /\
    exists dcol, Dict.get "δi" (Pd.columns df') = Some dcol /\
                 length dcol = Pd.nrows df'.
Proof.
  intros Hdf Hwf H.
  destruct (two_stage_inv fit k k' df p Hdf H)
    as (icol & p1 & dhat & Hi & Hlen & Hfit1 & Hdhat).
  rewrite (run_two_stage fit k df icol p1 dhat Hdf Hi Hlen Hfit1 Hdhat) in H.
  destruct (fit (Closed02.derived_frame df icol dhat) _) as [p2|];
    [|discriminate].
  injection H as <- <-.
  exists (Closed02.derived_frame df icol dhat).
  split; [apply after_second_df|].
  split; [now apply wf_derived_frame|]. split; [reflexivity|].
  exists (Np.mul_scalar icol dhat). split; [apply get_set_same|].
  now rewrite length_mul_scalar.
Qed.

(** X9 on the five-row table, with the closed-form estimator. *)
Lemma X9_two_stage_keeps_table_rectangular_witness :
  Dict.get "df" (user_ns Demo.kernel02) = Some (VFrame Demo.df02) /\
  Pd.wf Demo.df02 /\
  exists p k',
    run (Notebook02.two_stage Ols.closed_form) Demo.kernel02 = Ok (p, k') /\
    exists df',
      Dict.get "df" (user_ns k') = Some (VFrame df') /\
      Pd.wf df' /\
      Pd.nrows df' = Pd.nrows Demo.df02 /\
      exists dcol, Dict.get "δi" (Pd.columns df') = Some dcol /\
                   length dcol = Pd.nrows df'.
Proof.
  split; [exact demo_kernel02_df|]. split; [exact demo_df02_wf|].
  assert (H : exists p k',
             run (Notebook02.two_stage Ols.closed_form) Demo.kernel02
             = Ok (p, k')).
  { do 2 eexists. vm_compute. reflexivity. }
  destruct H as (p & k' & H). exists p, k'. split; [exact H|].
  exact (X9_two_stage_keeps_table_rectangular Ols.closed_form Demo.kernel02 k'
           Demo.df02 p demo_kernel02_df demo_df02_wf H).
Defined.

(** ** Notebook 02: the second stage fits what the instrument fits *)

Lemma rescaled_intercept (xs ys : Np.ndarray) (s a b a' b' : Q) :
  length xs = length ys ->
  Ols.nonconstant xs -> ~ (s == 0)%Q ->
  Ols.least_squares xs ys a b ->
  Ols.least_squares (Np.mul_scalar xs s) ys a' b' ->
  (a' == a)%Q /\ (b' * s == b)%Q.
Proof.
  intros Hlen Hnc Hs Hls Hls'.
  pose proof (OlsFacts.rescaled_slope xs ys s a b a' b' Hlen Hnc Hs Hls Hls')
    as Hb.
  assert (Hbs : (b' * s == b)%Q) by (rewrite Hb; field; exact Hs).
  split; [|exact Hbs].
  destruct (OlsFacts.least_squares_normal xs ys a b Hlen Hls) as [H1 _].
  destruct (OlsFacts.least_squares_normal (Np.mul_scalar xs s) ys a' b')
    as [H1' _]; [now rewrite length_mul_scalar|exact Hls'|].
  unfold Ols.normal1 in H1, H1'.
  rewrite OlsFacts.count_mul_scalar, OlsFacts.sum_mul_scalar in H1'.
  assert (Hn : (0 < Ols.count xs)%Q).
  { apply OlsFacts.count_pos. destruct Hnc as (u & _ & Hu & _). now destruct xs. }
  assert (Hbs' : (b' * (s * Ols.sum xs) == b * Ols.sum xs)%Q)
    by (rewrite <- Hbs; ring).
  assert (E : (Ols.count xs * a' == Ols.count xs * a)%Q) by lra.
  apply Qmult_inj_l in E; [exact E|]. lra.
Qed.

(** X10.  In the setting of the ratio of slopes (an estimator that returns
    the least-squares coefficients, a column [i] that is not constant, a
    first-stage slope [dhat] that is not zero), the second stage fits the
    same line as the regression of [y] on [i]: the intercepts are equal,
    and in every row the fitted value [a2 + b2 * δi] equals [a + b * i]. *)
Theorem X10_second_stage_fitted_values (fit : Estimator) (k : Kernel)
  (df : Pd.DataFrame) (icol ycol : Np.ndarray) (p1 : Params) (dhat : Q) :
  Ols.least_squares_estimator fit ->
  Dict.get "df" (user_ns k) = Some (VFrame df) ->
  Pd.wf df ->
  Dict.get "i" (Pd.columns df) = Some icol ->
  Dict.get "y" (Pd.columns df) = Some ycol ->
  Ols.nonconstant icol ->
  fit df (mkFormula "x" ["i"]) = Ok p1 ->
  Dict.get "i" p1 = Some dhat ->
  ~ (dhat == 0)%Q ->
  exists (p2 : Params) (k' : Kernel) (df' : Pd.DataFrame) (dcol : Np.ndarray)
         (a2 b2 : Q) (p : Params) (a b : Q),
    run (Notebook02.two_stage fit) k = Ok (p2, k') /\
    Dict.get "df" (user_ns k') = Some (VFrame df') /\
    Dict.get "δi" (Pd.columns df') = Some dcol /\
    Dict.get "Intercept" p2 = Some a2 /\
    Dict.get "δi" p2 = Some b2 /\
    fit df (mkFormula "y" ["i"]) = Ok p /\
    Dict.get "Intercept" p = Some a /\
    Dict.get "i" p = Some b /\
    (a2 == a)%Q /\
    (forall r, (r < Pd.nrows df)%nat ->
       (a2 + b2 * nth r dcol 0 == a + b * nth r icol 0)%Q).
Proof.
  intros Hfit Hdf Hwf Hi Hy Hnc Hfit1 Hdhat Hnz.
  assert (Hlen : length icol = Pd.nrows df) by exact (Hwf _ _ Hi).
  assert (Hleny : length icol = length ycol)
    by (rewrite Hlen; symmetry; exact (Hwf _ _ Hy)).
  destruct (Hfit df "y" "i" icol ycol Hwf Hi Hy Hnc) as (a & b & Hp & Hls).
  destruct (Hfit (Closed02.derived_frame df icol dhat) "y" "δi"
              (Np.mul_scalar icol dhat) ycol)
    as (a2 & b2 & Hp2 & Hls2).
  { now apply wf_derived_frame. }
  { apply get_set_same. }
  { unfold Closed02.derived_frame. cbn [Pd.columns].
    rewrite get_set_other by discriminate. exact Hy. }
  { now apply OlsFacts.nonconstant_mul_scalar. }
  destruct (rescaled_intercept icol ycol dhat a b a2 b2 Hleny Hnc Hnz Hls Hls2)
    as [Ha Hb].
  exists [("Intercept", a2); ("δi", b2)],
         (Closed02.after_second k df icol p1 dhat
            [("Intercept", a2); ("δi", b2)]),
         (Closed02.derived_frame df icol dhat), (Np.mul_scalar icol dhat),
         a2, b2, [("Intercept", a); ("i", b)], a, b.
  split.
  { rewrite (run_two_stage fit k df icol p1 dhat Hdf Hi Hlen Hfit1 Hdhat).
    now rewrite Hp2. }
  split; [apply after_second_df|]. split; [apply get_set_same|].
  split; [reflexivity|]. split; [reflexivity|]. split; [exact Hp|].
  split; [reflexivity|]. split; [reflexivity|]. split; [exact Ha|].
  intros r Hr. rewrite nth_mul_scalar by lia. rewrite Ha, <- Hb. ring.
Qed.

(** X10 on the five-row table, with the closed-form estimator. *)
Lemma X10_second_stage_fitted_values_witness :
  Ols.least_squares_estimator Ols.closed_form /\
  Dict.get "df" (user_ns Demo.kernel02) = Some (VFrame Demo.df02) /\
  Pd.wf Demo.df02 /\
  Dict.get "i" (Pd.columns Demo.df02) = Some [8; 12; -12; -8; -4]%Q /\
  Dict.get "y" (Pd.columns Demo.df02) = Some [-60; -53; 38; 45; 10]%Q /\
  Ols.nonconstant [8; 12; -12; -8; -4]%Q /\
  Ols.closed_form Demo.df02 (mkFormula "x" ["i"]) = Ok Demo.first_stage02 /\
  Dict.get "i" Demo.first_stage02 = Some Demo.dhat02 /\
  ~ (Demo.dhat02 == 0)%Q /\
  exists (p2 : Params) (k' : Kernel) (df' : Pd.DataFrame) (dcol : Np.ndarray)
         (a2 b2 : Q) (p : Params) (a b : Q),
    run (Notebook02.two_stage Ols.closed_form) Demo.kernel02 = Ok (p2, k') /\
    Dict.get "df" (user_ns k') = Some (VFrame df') /\
    Dict.get "δi" (Pd.columns df') = Some dcol /\
    Dict.get "Intercept" p2 = Some a2 /\
    Dict.get "δi" p2 = Some b2 /\
    Ols.closed_form Demo.df02 (mkFormula "y" ["i"]) = Ok p /\
    Dict.get "Intercept" p = Some a /\
    Dict.get "i" p = Some b /\
    (a2 == a)%Q /\
    (forall r, (r < Pd.nrows Demo.df02)%nat ->
       (a2 + b2 * nth r dcol 0
        == a + b * nth r [8; 12; -12; -8; -4] 0)%Q).
Proof.
  split; [exact OlsFacts.closed_form_least_squares|].
  split; [exact demo_kernel02_df|]. split; [exact demo_df02_wf|].
  split; [reflexivity|]. split; [reflexivity|].
  split; [exact demo_i_nonconstant|]. split; [exact demo_first_stage|].
  split; [reflexivity|]. split; [exact demo_dhat_nonzero|].
  exact (X10_second_stage_fitted_values Ols.closed_form Demo.kernel02 Demo.df02
           [8; 12; -12; -8; -4]%Q [-60; -53; 38; 45; 10]%Q
           Demo.first_stage02 Demo.dhat02
           OlsFacts.closed_form_least_squares demo_kernel02_df demo_df02_wf
           eq_refl eq_refl demo_i_nonconstant demo_first_stage eq_refl
           demo_dhat_nonzero).
Defined.

(** ** Notebook 01: the four regressions *)

Lemma regression_cell_inv (fit : Estimator) (f : Formula)
  (rs : RandomState) (ns : Dict.t value) (k' : Kernel)
  (df : Pd.DataFrame) (p : Params) :
  Dict.get "df" ns = Some (VFrame df) ->
  run (regression_cell fit f) (mkKernel rs ns) = Ok (p, k') ->
  fit df f = Ok p /\
  k' = mkKernel rs
         (Dict.set "results" (VResults (mkOLSResults p))
            (Dict.set "model" (VModel (mkOLSModel f df)) ns)) /\
  Dict.get "df"
    (Dict.set "results" (VResults (mkOLSResults p))
       (Dict.set "model" (VModel (mkOLSModel f df)) ns))
  = Some (VFrame df).
Proof.
  intros Hdf H. rewrite run_regression_cell in H.
  cbn [user_ns random_state] in H. rewrite Hdf in H.
  destruct (fit df f) as [p'|]; [|discriminate].
  injection H as <- <-. split; [reflexivity|]. split; [reflexivity|].
  now rewrite !(@get_set_other value) by discriminate.
Qed.

Lemma ols_cell_inv (fit : Estimator) (f : Formula) (k k' : Kernel) (p : Params) :
  run (ols_cell fit f) k = Ok (p, k') ->
  Dict.get "OLS" (user_ns k) <> None /\
  run (regression_cell fit f) k = Ok (p, k').
Proof.
  unfold ols_cell, run, bind, load.
  destruct (Dict.get "OLS" (user_ns k)); [|discriminate].
  intros H. split; [discriminate|exact H].
Qed.

(** X11.  The four regression cells of notebook 01 run one after the
    other all fit the same table: if the last one displays [p], then each
    of the four formulas was fitted on the table that was bound to [df]
    at the start, [p] is the fit of [y ~ x + g], [model] and [results] hold
    that last fit only, [OLS] is bound to the class the first cell imports,
    and every name other than these three holds what it held at the
    start. *)
Theorem X11_regressions_share_table (fit : Estimator) (k k' : Kernel)
  (df : Pd.DataFrame) (p : Params) :
  Dict.get "df" (user_ns k) = Some (VFrame df) ->
  run (regressions01 fit) k = Ok (p, k') ->
  (exists p1 p2 p3,
     fit df (mkFormula "y" ["x"]) = Ok p1 /\
     fit df (mkFormula "y" ["x"; "a"]) = Ok p2 /\
     fit df (mkFormula "y" ["x"; "k"]) = Ok p3) /\
  fit df (mkFormula "y" ["x"; "g"]) = Ok p /\
  Dict.get "results" (user_ns k') = Some (VResults (mkOLSResults p)) /\
  Dict.get "model" (user_ns k')
  = Some (VModel (mkOLSModel (mkFormula "y" ["x"; "g"]) df)) /\
  Dict.get "OLS" (user_ns k')
  = Some (VClass "statsmodels.regression.linear_model.OLS") /\
  (forall name, name <> "OLS" -> name <> "model" -> name <> "results" ->
     Dict.get name (user_ns k') = Dict.get name (user_ns k)).
Proof.
  destruct k as [rs ns]. cbn [user_ns random_state].
  intros Hdf H. unfold regressions01 in H.
  apply run_bind_inv in H as (p1 & k1 & H1 & H).
  apply run_bind_inv in H as (p2 & k2 & H2 & H).
  apply run_bind_inv in H as (p3 & k3 & H3 & H4).
  unfold Notebook01.naive_cell in H1. unfold Notebook01.adjust_a_cell in H2.
  unfold Notebook01.adjust_k_cell in H3. unfold Notebook01.adjust_g_cell in H4.
  apply run_bind_inv in H1 as ([] & k0 & H0 & H1).
  unfold import_OLS, store, run in H0. cbn [user_ns random_state] in H0.
  injection H0 as <-.
  assert (Hdf0 : Dict.get "df"
                   (Dict.set "OLS"
                      (VClass "statsmodels.regression.linear_model.OLS") ns)
                 = Some (VFrame df))
    by (now rewrite (@get_set_other value) by discriminate).
  apply ols_cell_inv in H1 as [_ H1]. apply ols_cell_inv in H2 as [_ H2].
  apply ols_cell_inv in H3 as [_ H3]. apply ols_cell_inv in H4 as [_ H4].
  destruct (regression_cell_inv _ _ _ _ _ df _ Hdf0 H1) as (F1 & -> & Hdf1).
  destruct (regression_cell_inv _ _ _ _ _ df _ Hdf1 H2) as (F2 & -> & Hdf2).
  destruct (regression_cell_inv _ _ _ _ _ df _ Hdf2 H3) as (F3 & -> & Hdf3).
  destruct (regression_cell_inv _ _ _ _ _ df _ Hdf3 H4) as (F4 & -> & _).
  cbn [user_ns random_state].
  split; [exists p1, p2, p3; auto|]. split; [exact F4|].
  split; [apply get_set_same|].
  split; [rewrite (@get_set_other value) by discriminate; apply get_set_same|].
  split.
  - rewrite !(@get_set_other value) by discriminate. apply get_set_same.
  - intros name Ho Hm Hr. now rewrite !(@get_set_other value) by assumption.
Qed.

(** X11 on a three-row table, with the estimator that returns zeros. *)
Lemma X11_regressions_share_table_witness :
  Dict.get "df" (user_ns Demo2.kernel01) = Some (VFrame Demo2.df01) /\
  exists p k',
    run (regressions01 Demo2.zero_fit) Demo2.kernel01 = Ok (p, k') /\
    (exists p1 p2 p3,
       Demo2.zero_fit Demo2.df01 (mkFormula "y" ["x"]) = Ok p1 /\
       Demo2.zero_fit Demo2.df01 (mkFormula "y" ["x"; "a"]) = Ok p2 /\
       Demo2.zero_fit Demo2.df01 (mkFormula "y" ["x"; "k"]) = Ok p3) /\
    Demo2.zero_fit Demo2.df01 (mkFormula "y" ["x"; "g"]) = Ok p /\
    Dict.get "results" (user_ns k') = Some (VResults (mkOLSResults p)) /\
    Dict.get "model" (user_ns k')
    = Some (VModel (mkOLSModel (mkFormula "y" ["x"; "g"]) Demo2.df01)) /\
    Dict.get "OLS" (user_ns k')
    = Some (VClass "statsmodels.regression.linear_model.OLS") /\
    (forall name, name <> "OLS" -> name <> "model" -> name <> "results" ->
       Dict.get name (user_ns k') = Dict.get name (user_ns Demo2.kernel01)).
Proof.
  split; [reflexivity|].
  assert (H : exists p k',
             run (regressions01 Demo2.zero_fit) Demo2.kernel01 = Ok (p, k')).
  { do 2 eexists. vm_compute. reflexivity. }
  destruct H as (p & k' & H). exists p, k'. split; [exact H|].
  exact (X11_regressions_share_table Demo2.zero_fit Demo2.kernel01 k'
           Demo2.df01 p eq_refl H).
Defined.

(** ** Notebook 02: a first stage without slope *)

Lemma rss_zero_predictor (xs ys : Np.ndarray) (a b b' : Q) :
  (forall x, In x xs -> (x == 0)%Q) ->
  (Ols.rss xs ys a b' == Ols.rss xs ys a b)%Q.
Proof.
  revert ys; induction xs as [|x xs IH]; intros [|y ys] Hc; cbn [Ols.rss];
    try reflexivity.
  rewrite IH by (intros x' Hx'; apply Hc; now right).
  assert (Hx : (x == 0)%Q) by (apply Hc; now left).
  rewrite Hx. ring.
Qed.

(** X12.  When the first-stage fit returns the slope zero for [i], the
    first-stage cell and the derive cell run without raising and the
    column ['δi'] that is stored holds zero in every row.  The second
    stage then regresses on a predictor without variation, where least
    squares does not determine the slope: if [(a, b)] minimises the sum of
    squared residuals, so does [(a, b')] for every [b']. *)
Theorem X12_constant_derived_column (fit : Estimator) (k : Kernel)
  (df : Pd.DataFrame) (icol : Np.ndarray) (p1 : Params) (dhat : Q) :
  Dict.get "df" (user_ns k) = Some (VFrame df) ->
  Dict.get "i" (Pd.columns df) = Some icol ->
  length icol = Pd.nrows df ->
  fit df (mkFormula "x" ["i"]) = Ok p1 ->
  Dict.get "i" p1 = Some dhat ->
  (dhat == 0)%Q ->
  exists (k2 : Kernel) (df' : Pd.DataFrame) (dcol : Np.ndarray),
    run (Notebook02.first_stage_cell fit ;; Notebook02.derive_cell) k
    = Ok (tt, k2) /\
    Dict.get "df" (user_ns k2) = Some (VFrame df') /\
    Dict.get "δi" (Pd.columns df') = Some dcol /\
    length dcol = Pd.nrows df /\
    (forall q, In q dcol -> (q == 0)%Q) /\
    ~ Ols.nonconstant dcol /\
    (forall ys a b b',
       Ols.least_squares dcol ys a b -> Ols.least_squares dcol ys a b').
Proof.
  intros Hdf Hi Hlen Hfit1 Hdhat Hz.
  assert (Hc : forall q, In q (Np.mul_scalar icol dhat) -> (q == 0)%Q).
  { intros q Hq. unfold Np.mul_scalar in Hq.
    apply in_map_iff in Hq as (v & <- & _). rewrite Hz. ring. }
  exists (Closed02.after_derive k df icol p1 dhat),
         (Closed02.derived_frame df icol dhat), (Np.mul_scalar icol dhat).
  split.
  { eapply run_seq;
      [exact (run_first_stage fit k df p1 dhat Hdf Hfit1 Hdhat)|].
    exact (run_derive k df icol p1 dhat Hdf Hi Hlen Hdhat). }
  split; [apply after_derive_df|]. split; [apply get_set_same|].
  split; [now rewrite length_mul_scalar|].
  split; [exact Hc|]. split.
  - intros (u & v & Hu & Hv & Hne). apply Hne.
    now rewrite (Hc u Hu), (Hc v Hv).
  - intros ys a b b' Hls a' b''.
    rewrite (rss_zero_predictor _ ys a b b' Hc). apply Hls.
Qed.

Lemma demo_first_stage_flat :
  Ols.closed_form Demo2.df_flat (mkFormula "x" ["i"])
  = Ok Demo2.first_stage_flat.
Proof. vm_compute. reflexivity. Qed.

(** X12 on a three-row table whose [x] has no linear trend in [i], with
    the closed-form estimator. *)
Lemma X12_constant_derived_column_witness :
  Dict.get "df" (user_ns Demo2.kernel_flat) = Some (VFrame Demo2.df_flat) /\
  Dict.get "i" (Pd.columns Demo2.df_flat) = Some [-1; 0; 1]%Q /\
  length [-1; 0; 1]%Q = Pd.nrows Demo2.df_flat /\
  Ols.closed_form Demo2.df_flat (mkFormula "x" ["i"])
  = Ok Demo2.first_stage_flat /\
  Dict.get "i" Demo2.first_stage_flat = Some Demo2.dhat_flat /\
  (Demo2.dhat_flat == 0)%Q /\
  exists (k2 : Kernel) (df' : Pd.DataFrame) (dcol : Np.ndarray),
    run (Notebook02.first_stage_cell Ols.closed_form ;; Notebook02.derive_cell)
        Demo2.kernel_flat
    = Ok (tt, k2) /\
    Dict.get "df" (user_ns k2) = Some (VFrame df') /\
    Dict.get "δi" (Pd.columns df') = Some dcol /\
    length dcol = Pd.nrows Demo2.df_flat /\
    (forall q, In q dcol -> (q == 0)%Q) /\
    ~ Ols.nonconstant dcol /\
    (forall ys a b b',
       Ols.least_squares dcol ys a b -> Ols.least_squares dcol ys a b').
Proof.
  assert (Hz : (Demo2.dhat_flat == 0)%Q) by reflexivity.
  split; [reflexivity|]. split; [reflexivity|]. split; [reflexivity|].
  split; [exact demo_first_stage_flat|]. split; [reflexivity|].
  split; [exact Hz|].
  exact (X12_constant_derived_column Ols.closed_form Demo2.kernel_flat
           Demo2.df_flat [-1; 0; 1]%Q Demo2.first_stage_flat Demo2.dhat_flat
           eq_refl eq_refl eq_refl demo_first_stage_flat eq_refl Hz).
Defined.

(** ** Notebook 01: total effects along the paths *)

(** X13.  In every row of the table of notebook 01 the total effects of
    the roots follow the path rule, each path contributing the product of
    its coefficients: [d = (5 * -2) c + (2 * -2) a - 2 n_x + n_d], and
    [y = (5 * -2 * 5) c + (2 * -2 * 5 + -3 * 3) a - 10 n_x + 3 n_k + 5 n_d + n_y]. *)
Theorem X13_notebook01_total_effects (N : nat) (rs : RandomState) :
  exists k df,
    run (simulation_cell (Z.of_nat N)) (kernel0 rs) = Ok (tt, k) /\
    Dict.get "df" (user_ns k) = Some (VFrame df) /\
    forall j, (j < N)%nat ->
      let n_x := stream rs (pos rs + 2 * N + j)%nat in
      let n_k := stream rs (pos rs + 3 * N + j)%nat in
      let n_d := stream rs (pos rs + 5 * N + j)%nat in
      let n_y := stream rs (pos rs + 7 * N + j)%nat in
      (cell df "d" j ==
         inject_Z (5 * -2) * cell df "c" j + inject_Z (2 * -2) * cell df "a" j
         - 2 * n_x + n_d)%Q /\
      (cell df "y" j ==
         inject_Z (5 * -2 * 5) * cell df "c" j
         + inject_Z (2 * -2 * 5 + -3 * 3) * cell df "a" j
         - 10 * n_x + 3 * n_k + 5 * n_d + n_y)%Q.
Proof.
  exists (final_kernel G rs N), (table rs N).
  split; [apply run_simulation|]. split; [reflexivity|].
  intros j Hj. cbv zeta. unfold cell, table.
  cbn [Pd.columns cols Dict.get String.eqb Ascii.eqb Bool.eqb].
  unfold col_y, col_d, col_k, col_x.
  repeat first [ rewrite nth_zip_add by (len; lia)
               | rewrite nth_scale by (len; lia)
               | rewrite nth_draws by (len; lia) ].
  unfold inject_Z.
  cbn [Z.mul Z.add Z.opp Pos.mul Pos.add Pos.succ Pos.add_carry].
  split; ring.
Qed.

(** ** The naive slope and the two-stage slope, exactly *)

Module SlopeFacts.

Import Ols OlsFacts Slope.

Local Open Scope Q_scope.

Lemma sum_zip_add (a b : Np.ndarray) :
  length a = length b -> sum (Np.zip_add a b) == sum a + sum b.
Proof.
  revert b; induction a as [|x a IH]; intros [|y b] H; try discriminate;
    cbn [Np.zip_add]; rewrite ?sum_cons, ?sum_nil; [ring|].
  rewrite IH by (cbn in H; lia). ring.
Qed.

Lemma sum_scale (z : Z) (a : Np.ndarray) :
  sum (Np.scale z a) == inject_Z z * sum a.
Proof.
  induction a as [|x a IH]; cbn [Np.scale map]; rewrite ?sum_cons, ?sum_nil;
    [ring|].
  fold (Np.scale z a). rewrite IH. ring.
Qed.

Lemma dot_zip_add_r (xs a b : Np.ndarray) :
  length a = length b ->
  dot xs (Np.zip_add a b) == dot xs a + dot xs b.
Proof.
  revert a b; induction xs as [|x xs IH]; intros [|y a] [|y' b] H;
    try discriminate; cbn [Np.zip_add dot]; try ring.
  rewrite IH by (cbn in H; lia). ring.
Qed.

Lemma dot_scale_r (xs a : Np.ndarray) (z : Z) :
  dot xs (Np.scale z a) == inject_Z z * dot xs a.
Proof.
  revert a; induction xs as [|x xs IH]; intros [|y a];
    cbn [Np.scale map dot]; try ring.
  fold (Np.scale z a). rewrite IH. ring.
Qed.

Lemma cov_zip_add_r (xs a b : Np.ndarray) :
  length a = length b ->
  cov xs (Np.zip_add a b) == cov xs a + cov xs b.
Proof.
  intros H. unfold cov. rewrite dot_zip_add_r, sum_zip_add by exact H. ring.
Qed.

Lemma cov_scale_r (xs a : Np.ndarray) (z : Z) :
  cov xs (Np.scale z a) == inject_Z z * cov xs a.
Proof. unfold cov. rewrite dot_scale_r, sum_scale. ring. Qed.

Lemma cov_self (xs : Np.ndarray) : cov xs xs == det xs.
Proof. reflexivity. Qed.

(** The least-squares slope is the ratio of the two sums. *)
Lemma least_squares_slope (xs ys : Np.ndarray) (a b : Q) :
  length xs = length ys -> nonconstant xs ->
  least_squares xs ys a b ->
  b == slope xs ys /\ ~ cov xs xs == 0.
Proof.
  intros Hlen Hnc Hls.
  destruct (least_squares_normal xs ys a b Hlen Hls) as [H1 H2].
  pose proof (normal_slope xs ys a b H1 H2) as E.
  pose proof (det_pos xs Hnc) as Hd.
  assert (Hd0 : ~ cov xs xs == 0) by (rewrite cov_self; lra).
  split; [|exact Hd0].
  unfold slope. fold (cov xs ys) in E. rewrite <- E, cov_self.
  field. lra.
Qed.

(** If [ys = c xs + r] column-wise, the slope of [ys] on [xs] is [c] plus
    the slope of [r] on [xs]. *)
Lemma slope_shift (xs r : Np.ndarray) (c covy : Q) :
  ~ cov xs xs == 0 ->
  covy == c * cov xs xs + cov xs r ->
  covy / cov xs xs == c + slope xs r.
Proof. intros Hd E. unfold slope. rewrite E. field. exact Hd. Qed.

End SlopeFacts.

Lemma table_wf (N : nat) (rs : RandomState) : Pd.wf (table rs N).
Proof. intros name col H. exact (length_cols N rs name col H). Qed.

Lemma sim02_table_wf (N : nat) (rs : RandomState) : Pd.wf (Sim02.table rs N).
Proof.
  intros name col H. apply get_In in H.
  exact (length_sim02_cols N rs name col H).
Qed.

(** X14.  The naive regression of notebook 01, run on the simulated table
    with an estimator that returns the least-squares coefficients, when
    the column [x] is not constant: the coefficient it displays for [x] is
    exactly [-2 * 5 = -10] plus the least-squares slope on [x] of the
    remainder [3 k + 5 n_d + n_y], the part of [y] that reaches it through
    the confounding path and the noise. *)
Theorem X14_notebook01_naive_slope (fit : Estimator) (N : nat)
  (rs : RandomState) :
  Ols.least_squares_estimator fit ->
  Ols.nonconstant (col_x rs N) ->
  exists (p : Params) (k' : Kernel) (df : Pd.DataFrame) (b : Q),
    run (simulate_then_naive01 fit (Z.of_nat N)) (kernel0 rs) = Ok (p, k') /\
    Dict.get "df" (user_ns k') = Some (VFrame df) /\
    Dict.get "x" (Pd.columns df) = Some (col_x rs N) /\
    Dict.get "k" (Pd.columns df) = Some (col_k rs N) /\
    Dict.get "x" p = Some b /\
    (b == inject_Z (-2 * 5)
          + Slope.slope (col_x rs N)
              (Np.zip_add
                 (Np.zip_add (Np.scale 3 (col_k rs N))
                             (Np.scale 5 (draws rs N 5)))
                 (draws rs N 7)))%Q.
Proof.
  intros Hfit Hnc.
  destruct (Hfit (table rs N) "y" "x" (col_x rs N) (col_y rs N)
              (table_wf N rs) eq_refl eq_refl Hnc) as (a & b & Hp & Hls).
  destruct (SlopeFacts.least_squares_slope (col_x rs N) (col_y rs N) a b)
    as [Hb Hd]; [len|exact Hnc|exact Hls|].
  exists [("Intercept", a); ("x", b)],
         (mkKernel (random_state (final_kernel G rs N))
            (Dict.set "results"
               (VResults (mkOLSResults [("Intercept", a); ("x", b)]))
               (Dict.set "model"
                  (VModel (mkOLSModel (mkFormula "y" ["x"]) (table rs N)))
                  (Dict.set "OLS"
                     (VClass "statsmodels.regression.linear_model.OLS")
                     (user_ns (final_kernel G rs N)))))),
         (table rs N), b.
  split.
  { unfold simulate_then_naive01.
    eapply run_seq; [apply (run_simulation G)|].
    unfold Notebook01.naive_cell.
    eapply run_seq; [reflexivity|].
    unfold ols_cell.
    eapply run_seq;
      [unfold run, load; cbn [user_ns];
       rewrite (@get_set_same value); reflexivity|].
    rewrite run_regression_cell. cbn [user_ns random_state].
    rewrite (@get_set_other value) by discriminate.
    change (Dict.get "df" (user_ns (final_kernel G rs N)))
      with (Some (VFrame (table rs N))).
    cbv iota beta. now rewrite Hp. }
  split; [reflexivity|]. split; [reflexivity|]. split; [reflexivity|].
  split; [reflexivity|].
  rewrite Hb. unfold Slope.slope at 1.
  apply SlopeFacts.slope_shift; [exact Hd|].
  unfold col_y at 1. unfold col_d.
  repeat first [ rewrite SlopeFacts.cov_zip_add_r by (len; lia)
               | rewrite SlopeFacts.cov_scale_r ].
  unfold inject_Z.
  cbn [Z.mul Z.add Z.opp Pos.mul Pos.add Pos.succ Pos.add_carry]. ring.
Qed.

Lemma demo_col_x_nonconstant : Ols.nonconstant (col_x Demo.rs 5).
Proof.
  exists (nth 0 (col_x Demo.rs 5) 0%Q), (nth 1 (col_x Demo.rs 5) 0%Q).
  split; [vm_compute; auto|]. split; [vm_compute; auto|].
  intros H. vm_compute in H. discriminate H.
Qed.

(** X14 with five samples from the generator of the examples and the
    closed-form estimator. *)
Lemma X14_notebook01_naive_slope_witness :
  Ols.least_squares_estimator Ols.closed_form /\
  Ols.nonconstant (col_x Demo.rs 5) /\
  exists (p : Params) (k' : Kernel) (df : Pd.DataFrame) (b : Q),
    run (simulate_then_naive01 Ols.closed_form (Z.of_nat 5)) (kernel0 Demo.rs)
    = Ok (p, k') /\
    Dict.get "df" (user_ns k') = Some (VFrame df) /\
    Dict.get "x" (Pd.columns df) = Some (col_x Demo.rs 5) /\
    Dict.get "k" (Pd.columns df) = Some (col_k Demo.rs 5) /\
    Dict.get "x" p = Some b /\
    (b == inject_Z (-2 * 5)
          + Slope.slope (col_x Demo.rs 5)
              (Np.zip_add
                 (Np.zip_add (Np.scale 3 (col_k Demo.rs 5))
                             (Np.scale 5 (draws Demo.rs 5 5)))
                 (draws Demo.rs 5 7)))%Q.
Proof.
  split; [exact OlsFacts.closed_form_least_squares|].
  split; [exact demo_col_x_nonconstant|].
  exact (X14_notebook01_naive_slope Ols.closed_form 5 Demo.rs
           OlsFacts.closed_form_least_squares demo_col_x_nonconstant).
Defined.

(** X15.  The naive regression of notebook 02, run on the simulated table
    with an estimator that returns the least-squares coefficients, when
    the column [x] is not constant: the coefficient it displays for [x] is
    exactly [alpha = 3] plus the least-squares slope on [x] of
    [gamma h + n_y], the part of [y] that comes from the hidden variable
    and the noise. *)
Theorem X15_notebook02_naive_slope (fit : Estimator) (N : nat)
  (rs : RandomState) :
  Ols.least_squares_estimator fit ->
  Ols.nonconstant (Sim02.col_x rs N) ->
  exists (p : Params) (k' : Kernel) (df : Pd.DataFrame) (b : Q),
    run (setup_then_naive02 fit (Z.of_nat N)) (mkKernel rs Dict.empty)
    = Ok (p, k') /\
    Dict.get "df" (user_ns k') = Some (VFrame df) /\
    Dict.get "x" (Pd.columns df) = Some (Sim02.col_x rs N) /\
    Dict.get "h" (Pd.columns df) = Some (Sim02.col_h rs N) /\
    Dict.get "x" p = Some b /\
    (b == 3 + Slope.slope (Sim02.col_x rs N)
                (Np.zip_add (Np.scale 2 (Sim02.col_h rs N))
                            (Np.scale 3 (draws rs N 3))))%Q.
Proof.
  intros Hfit Hnc.
  destruct (Hfit (Sim02.table rs N) "y" "x" (Sim02.col_x rs N)
              (Sim02.col_y rs N) (sim02_table_wf N rs) eq_refl eq_refl Hnc)
    as (a & b & Hp & Hls).
  destruct (SlopeFacts.least_squares_slope (Sim02.col_x rs N)
              (Sim02.col_y rs N) a b) as [Hb Hd];
    [len|exact Hnc|exact Hls|].
  exists [("Intercept", a); ("x", b)],
         (mkKernel (random_state (Sim02.final_kernel rs N))
            (Dict.set "results"
               (VResults (mkOLSResults [("Intercept", a); ("x", b)]))
               (Dict.set "model"
                  (VModel (mkOLSModel (mkFormula "y" ["x"]) (Sim02.table rs N)))
                  (user_ns (Sim02.final_kernel rs N))))),
         (Sim02.table rs N), b.
  split.
  { unfold setup_then_naive02.
    eapply run_seq; [apply run_setup02|].
    unfold Notebook02.naive_cell. rewrite run_regression_cell.
    change (Dict.get "df" (user_ns (Sim02.final_kernel rs N)))
      with (Some (VFrame (Sim02.table rs N))).
    cbv iota beta. now rewrite Hp. }
  split; [reflexivity|]. split; [reflexivity|]. split; [reflexivity|].
  split; [reflexivity|].
  rewrite Hb. unfold Slope.slope at 1.
  apply SlopeFacts.slope_shift; [exact Hd|].
  unfold Sim02.col_y at 1.
  repeat first [ rewrite SlopeFacts.cov_zip_add_r by (len; lia)
               | rewrite SlopeFacts.cov_scale_r ].
  unfold inject_Z. ring.
Qed.

Lemma demo_sim02_table : Sim02.table Demo.rs 5 = Demo.df02.
Proof. vm_compute. reflexivity. Qed.

Lemma demo_sim02_col_x_nonconstant : Ols.nonconstant (Sim02.col_x Demo.rs 5).
Proof.
  exists (nth 0 (Sim02.col_x Demo.rs 5) 0%Q), (nth 2 (Sim02.col_x Demo.rs 5) 0%Q).
  split; [vm_compute; auto|]. split; [vm_compute; auto|].
  intros H. vm_compute in H. discriminate H.
Qed.

(** X15 with five samples from the generator of the examples and the
    closed-form estimator. *)
Lemma X15_notebook02_naive_slope_witness :
  Ols.least_squares_estimator Ols.closed_form /\
  Ols.nonconstant (Sim02.col_x Demo.rs 5) /\
  exists (p : Params) (k' : Kernel) (df : Pd.DataFrame) (b : Q),
    run (setup_then_naive02 Ols.closed_form (Z.of_nat 5))
        (mkKernel Demo.rs Dict.empty)
    = Ok (p, k') /\
    Dict.get "df" (user_ns k') = Some (VFrame df) /\
    Dict.get "x" (Pd.columns df) = Some (Sim02.col_x Demo.rs 5) /\
    Dict.get "h" (Pd.columns df) = Some (Sim02.col_h Demo.rs 5) /\
    Dict.get "x" p = Some b /\
    (b == 3 + Slope.slope (Sim02.col_x Demo.rs 5)
                (Np.zip_add (Np.scale 2 (Sim02.col_h Demo.rs 5))
                            (Np.scale 3 (draws Demo.rs 5 3))))%Q.
Proof.
  split; [exact OlsFacts.closed_form_least_squares|].
  split; [exact demo_sim02_col_x_nonconstant|].
  exact (X15_notebook02_naive_slope Ols.closed_form 5 Demo.rs
           OlsFacts.closed_form_least_squares demo_sim02_col_x_nonconstant).
Defined.

(** X16.  The two-stage procedure of notebook 02, run on the simulated
    table with an estimator that returns the least-squares coefficients,
    when the column [i] is not constant and is correlated with [x] in the
    sample: the coefficient it displays for ['δi'] is exactly [alpha = 3]
    plus the ratio of the sample covariance of [i] with [gamma h + n_y] to
    the sample covariance of [i] with [x]. *)
Theorem X16_notebook02_two_stage_slope (fit : Estimator) (N : nat)
  (rs : RandomState) :
  Ols.least_squares_estimator fit ->
  Ols.nonconstant (Sim02.col_i rs N) ->
  ~ (Slope.cov (Sim02.col_i rs N) (Sim02.col_x rs N) == 0)%Q ->
  exists (p2 : Params) (k' : Kernel) (b2 : Q),
    run (setup_then_two_stage02 fit (Z.of_nat N)) (mkKernel rs Dict.empty)
    = Ok (p2, k') /\
    Dict.get "δi" p2 = Some b2 /\
    (b2 == 3 + Slope.cov (Sim02.col_i rs N)
                 (Np.zip_add (Np.scale 2 (Sim02.col_h rs N))
                             (Np.scale 3 (draws rs N 3)))
               / Slope.cov (Sim02.col_i rs N) (Sim02.col_x rs N))%Q.
Proof.
  intros Hfit Hnc Hcov.
  pose proof (sim02_table_wf N rs) as Hwf.
  assert (Hi : Dict.get "i" (Pd.columns (Sim02.table rs N))
               = Some (Sim02.col_i rs N)) by reflexivity.
  assert (Hx : Dict.get "x" (Pd.columns (Sim02.table rs N))
               = Some (Sim02.col_x rs N)) by reflexivity.
  assert (Hy : Dict.get "y" (Pd.columns (Sim02.table rs N))
               = Some (Sim02.col_y rs N)) by reflexivity.
  assert (Hlen : length (Sim02.col_i rs N) = Pd.nrows (Sim02.table rs N))
    by exact (Hwf _ _ Hi).
  destruct (Hfit _ "x" "i" _ _ Hwf Hi Hx Hnc) as (a1 & d & Hp1 & Hls1).
  destruct (Hfit _ "y" "i" _ _ Hwf Hi Hy Hnc) as (a & b & _ & Hls).
  destruct (SlopeFacts.least_squares_slope (Sim02.col_i rs N)
              (Sim02.col_x rs N) a1 d) as [Hd Hii];
    [len|exact Hnc|exact Hls1|].
  destruct (SlopeFacts.least_squares_slope (Sim02.col_i rs N)
              (Sim02.col_y rs N) a b) as [Hb _];
    [len|exact Hnc|exact Hls|].
  assert (Hnz : ~ (d == 0)%Q).
  { rewrite Hd. unfold Slope.slope. intros E. apply Hcov.
    rewrite <- (Qmult_div_r (Slope.cov (Sim02.col_i rs N) (Sim02.col_x rs N))
                 (Slope.cov (Sim02.col_i rs N) (Sim02.col_i rs N)))
      by exact Hii.
    rewrite E. ring. }
  destruct (Hfit (Closed02.derived_frame (Sim02.table rs N)
                    (Sim02.col_i rs N) d) "y" "δi"
              (Np.mul_scalar (Sim02.col_i rs N) d) (Sim02.col_y rs N))
    as (a2 & b2 & Hp2 & Hls2).
  { now apply wf_derived_frame. }
  { apply get_set_same. }
  { unfold Closed02.derived_frame. cbn [Pd.columns].
    rewrite get_set_other by discriminate. exact Hy. }
  { now apply OlsFacts.nonconstant_mul_scalar. }
  exists [("Intercept", a2); ("δi", b2)],
         (Closed02.after_second (Sim02.final_kernel rs N) (Sim02.table rs N)
            (Sim02.col_i rs N) [("Intercept", a1); ("i", d)] d
            [("Intercept", a2); ("δi", b2)]),
         b2.
  split.
  { unfold setup_then_two_stage02.
    eapply run_seq; [apply run_setup02|].
    rewrite (run_two_stage fit (Sim02.final_kernel rs N) (Sim02.table rs N)
               (Sim02.col_i rs N) [("Intercept", a1); ("i", d)] d
               eq_refl Hi Hlen Hp1 eq_refl).
    now rewrite Hp2. }
  split; [reflexivity|].
  assert (Hlenxy : length (Sim02.col_i rs N) = length (Sim02.col_y rs N))
    by len.
  rewrite (OlsFacts.rescaled_slope (Sim02.col_i rs N) (Sim02.col_y rs N)
             d a b a2 b2 Hlenxy Hnc Hnz Hls Hls2).
  rewrite Hb, Hd. unfold Slope.slope.
  assert (E : (Slope.cov (Sim02.col_i rs N) (Sim02.col_y rs N)
               == 3 * Slope.cov (Sim02.col_i rs N) (Sim02.col_x rs N)
                  + Slope.cov (Sim02.col_i rs N)
                      (Np.zip_add (Np.scale 2 (Sim02.col_h rs N))
                                  (Np.scale 3 (draws rs N 3))))%Q).
  { unfold Sim02.col_y at 1.
    repeat first [ rewrite SlopeFacts.cov_zip_add_r by (len; lia)
                 | rewrite SlopeFacts.cov_scale_r ].
    unfold inject_Z. ring. }
  rewrite E. field. split; assumption.
Qed.

Lemma demo_sim02_col_i_nonconstant : Ols.nonconstant (Sim02.col_i Demo.rs 5).
Proof.
  exists (nth 0 (Sim02.col_i Demo.rs 5) 0%Q), (nth 1 (Sim02.col_i Demo.rs 5) 0%Q).
  split; [vm_compute; auto|]. split; [vm_compute; auto|].
  intros H. vm_compute in H. discriminate H.
Qed.

Lemma demo_sim02_cov_i_x :
  ~ (Slope.cov (Sim02.col_i Demo.rs 5) (Sim02.col_x Demo.rs 5) == 0)%Q.
Proof. intros H. vm_compute in H. discriminate H. Qed.

(** X16 with five samples from the generator of the examples and the
    closed-form estimator. *)
Lemma X16_notebook02_two_stage_slope_witness :
  Ols.least_squares_estimator Ols.closed_form /\
  Ols.nonconstant (Sim02.col_i Demo.rs 5) /\
  ~ (Slope.cov (Sim02.col_i Demo.rs 5) (Sim02.col_x Demo.rs 5) == 0)%Q /\
  exists (p2 : Params) (k' : Kernel) (b2 : Q),
    run (setup_then_two_stage02 Ols.closed_form (Z.of_nat 5))
        (mkKernel Demo.rs Dict.empty)
    = Ok (p2, k') /\
    Dict.get "δi" p2 = Some b2 /\
    (b2 == 3 + Slope.cov (Sim02.col_i Demo.rs 5)
                 (Np.zip_add (Np.scale 2 (Sim02.col_h Demo.rs 5))
                             (Np.scale 3 (draws Demo.rs 5 3)))
               / Slope.cov (Sim02.col_i Demo.rs 5) (Sim02.col_x Demo.rs 5))%Q.
Proof.
  split; [exact OlsFacts.closed_form_least_squares|].
  split; [exact demo_sim02_col_i_nonconstant|].
  split; [exact demo_sim02_cov_i_x|].
  exact (X16_notebook02_two_stage_slope Ols.closed_form 5 Demo.rs
           OlsFacts.closed_form_least_squares demo_sim02_col_i_nonconstant
           demo_sim02_cov_i_x).
Defined.
